(** * Stocker: gap detection, merge, update planning and the ticker store

    A shallow embedding of the TypeScript sources of the repository
    (src/index.ts, the second revision of the [Stocker] class that sits next
    to src/config.ts, [loadConfig] of src/config.ts, src/storage/base.ts with
    src/storage/stocks.ts, and src/cli/commands/fetch.ts), together with the
    properties the specification states about them.

    Conventions of the model.
    - A JavaScript [Date] built from a date-only text "YYYY-MM-DD" is UTC
      midnight of that day; it is represented by the number of days since
      1970-01-01.  The process time zone is taken to be UTC, so the local
      calendar fields ([getDay], [getDate], [setDate]) and the UTC ones
      ([toISOString]) describe the same day.  The module [ZonedStocker]
      holds the gap detector and [updateSmart] for a process at a fixed
      offset from UTC; the properties of the detector that depend on the
      zone are stated there, with the offset as a hypothesis.
    - A time stamp ([new Date()], [getTime()]) is a number of milliseconds
      since the epoch.
    - JavaScript numbers are kept abstract: the store only moves them. *)

From Stdlib Require Import ZArith Lia Ascii String.
From stdpp Require Import base option list strings gmap sorting.

Local Open Scope Z_scope.

(* ================================================================== *)
(** ** The JavaScript [Date] built-ins the sources use *)
(* ================================================================== *)

Module JSDate.

Definition msPerDay : Z := 1000 * 60 * 60 * 24.

Definition isLeap (y : Z) : bool :=
  ((y mod 4 =? 0) && negb (y mod 100 =? 0)) || (y mod 400 =? 0).

Definition daysInMonth (y m : Z) : Z :=
  if m =? 2 then (if isLeap y then 29 else 28)
  else if (m =? 4) || (m =? 6) || (m =? 9) || (m =? 11) then 30
  else 31.

(** Days since 1970-01-01 of the proleptic Gregorian date [y]-[m]-[d]. *)
Definition daysFromCivil (y m d : Z) : Z :=
  let y' := if m <=? 2 then y - 1 else y in
  let era := y' / 400 in
  let yoe := y' - era * 400 in
  let mp := if 2 <? m then m - 3 else m + 9 in
  let doy := (153 * mp + 2) / 5 + d - 1 in
  let doe := yoe * 365 + yoe / 4 - yoe / 100 + doy in
  era * 146097 + doe - 719468.

(** The inverse direction: year, month and day of a day number. *)
Definition civilFromDays (t : Z) : Z * Z * Z :=
  let z := t + 719468 in
  let era := z / 146097 in
  let doe := z - era * 146097 in
  let yoe := (doe - doe / 1460 + doe / 36524 - doe / 146096) / 365 in
  let doy := doe - (365 * yoe + yoe / 4 - yoe / 100) in
  let mp := (5 * doy + 2) / 153 in
  let d := doy - (153 * mp + 2) / 5 + 1 in
  let m := if mp <? 10 then mp + 3 else mp - 9 in
  let y := yoe + era * 400 in
  (if m <=? 2 then y + 1 else y, m, d).

Definition digit (c : ascii) : option Z :=
  let n := Z.of_nat (nat_of_ascii c) - 48 in
  if (0 <=? n) && (n <=? 9) then Some n else None.

Definition isDash (c : ascii) : bool := Ascii.eqb c "-"%char.

(** [new Date(s)] for a date-only ISO text; [None] is the Invalid Date. *)
Definition newDate (s : string) : option Z :=
  match s with
  | String y1 (String y2 (String y3 (String y4 (String s1
      (String m1 (String m2 (String s2 (String d1 (String d2
         EmptyString))))))))) =>
      match digit y1, digit y2, digit y3, digit y4,
            digit m1, digit m2, digit d1, digit d2 with
      | Some a, Some b, Some c, Some e, Some f, Some g, Some h, Some i =>
          let y := ((a * 10 + b) * 10 + c) * 10 + e in
          let m := f * 10 + g in
          let d := h * 10 + i in
          if isDash s1 && isDash s2 && (1 <=? m) && (m <=? 12)
             && (1 <=? d) && (d <=? daysInMonth y m)
          then Some (daysFromCivil y m d) else None
      | _, _, _, _, _, _, _, _ => None
      end
  | _ => None
  end.

Definition digitChar (n : Z) : ascii := ascii_of_nat (Z.to_nat (48 + n mod 10)).

Definition pad2 (n : Z) : string :=
  String (digitChar (n / 10)) (String (digitChar n) EmptyString).

Definition pad4 (n : Z) : string :=
  String (digitChar (n / 1000)) (String (digitChar (n / 100)) (pad2 n)).

(** [d.toISOString().split("T")[0]] for years 0000 to 9999. *)
Definition toISODate (t : Z) : string :=
  let '(y, m, d) := civilFromDays t in
  (pad4 y ++ "-" ++ pad2 m ++ "-" ++ pad2 d)%string.

(** [d.getDay()]: 0 is Sunday, 6 is Saturday; 1970-01-01 was a Thursday. *)
Definition getDay (t : Z) : Z := (t + 4) mod 7.

(** [d.getTime()] of a day number and the day a time stamp falls in. *)
Definition getTime (t : Z) : Z := t * msPerDay.
Definition dayOfTime (ms : Z) : Z := ms / msPerDay.

End JSDate.

(** The [date] field of a row is a text when the row comes from the price
    API and a [Date] object when it comes back from a DATE column of the
    store; the sources accept both ([val instanceof Date] in the writers,
    [new Date(row.date)] in the readers). *)
Inductive DateValue :=
| DateText (s : string)
| DateObj (t : Z).

(** [new Date(v)] *)
Definition newDateOf (v : DateValue) : option Z :=
  match v with
  | DateText s => JSDate.newDate s
  | DateObj t => Some t
  end.

(** A gap, as [findGaps] reports it. *)
Record Gap := mkGap { start : string; end_ : string; days : Z }.

(* ================================================================== *)
(** ** Rows, the price API and the state of the store *)
(* ================================================================== *)

(** JavaScript numbers: an abstract carrier with the constant [0] and the
    test that [x || d] performs (0 and NaN are falsy). *)
Class JSNumber := {
  number : Type;
  zero : number;
  falsy : number -> bool
}.

(** [x || d] on an optional number, an optional text and an optional flag. *)
Definition orNumber `{JSNumber} (x : option number) (d : number) : number :=
  match x with
  | Some v => if falsy v then d else v
  | None => d
  end.

Definition orText (x : option string) (d : string) : string :=
  match x with
  | Some EmptyString => d
  | Some v => v
  | None => d
  end.

Definition orFalse (x : option bool) : bool :=
  match x with
  | Some b => b
  | None => false
  end.

(** [if (x)] on an optional text: [undefined] and the empty text are falsy. *)
Definition truthy (x : option string) : bool :=
  match x with
  | Some EmptyString => false
  | Some _ => true
  | None => false
  end.

(** The relational operators [<] and [>] of JavaScript on two [date]
    values: texts compare by code units, [Date] objects by time value, and a
    text against a [Date] converts to NaN, which compares false. *)
Definition jsLt (a b : DateValue) : bool :=
  match a, b with
  | DateText x, DateText y => String.ltb x y
  | DateObj x, DateObj y => x <? y
  | _, _ => false
  end.

Definition jsGt (a b : DateValue) : bool := jsLt b a.

(** [interface OHLCV] of src/types/index.ts. *)
Record OHLCV `{JSNumber} := mkOHLCV {
  date : DateValue;
  open : number;
  high : number;
  low : number;
  close : number;
  volume : number;
  adjOpen : number;
  adjHigh : number;
  adjLow : number;
  adjClose : number;
  adjVolume : number;
  percentChange : option number;
  split : option bool;
  dividends : option number;
  dataSource : option string;
  fetchedAt : option string;
  adjustedClose : option number
}.
Arguments mkOHLCV {_}.

(** A row in the column order of the schema that [writeDaily] declares.
    [RowOf DateValue] is the object that [writeDaily] and [mergeDaily] build
    from a bar; [Row] is a row of [daily.parquet], whose DATE column holds a
    day number. *)
Record RowOf `{JSNumber} (D : Type) := mkRow {
  r_date : D;
  r_open : number;
  r_high : number;
  r_low : number;
  r_close : number;
  r_volume : number;
  r_adj_open : number;
  r_adj_high : number;
  r_adj_low : number;
  r_adj_close : number;
  r_adj_volume : number;
  r_percent_change : number;
  r_split : bool;
  r_data_source : string;
  r_fetched_at : string
}.
Arguments mkRow {_ D}.
Arguments r_date {_ D}.
Arguments r_open {_ D}.
Arguments r_high {_ D}.
Arguments r_low {_ D}.
Arguments r_close {_ D}.
Arguments r_volume {_ D}.
Arguments r_adj_open {_ D}.
Arguments r_adj_high {_ D}.
Arguments r_adj_low {_ D}.
Arguments r_adj_close {_ D}.
Arguments r_adj_volume {_ D}.
Arguments r_percent_change {_ D}.
Arguments r_split {_ D}.
Arguments r_data_source {_ D}.
Arguments r_fetched_at {_ D}.
Abbreviation Row := (RowOf Z).

(** A row of the table [stock_metadata]; [ticker] is its primary key. *)
Record MetaRow := mkMetaRow {
  first_trade_date : Z;
  last_trade_date : Z;
  last_update : Z;
  data_source : string;
  record_count : Z
}.

(** [interface StockMetadata], as [getMetadata] fills it in. *)
Record StockMetadata := mkStockMetadata {
  ticker : string;
  firstTradeDate : Z;
  lastUpdate : Z;
  sm_dataSource : string;
  recordCount : Z
}.

Record SplitData := mkSplitData { split_date : string; ratio : string }.

Inductive Result (A : Type) :=
| Ok (a : A)
| Err (msg : string).
Arguments Ok {A} a.
Arguments Err {A} msg.

(** [interface DataService]: the price API, as [EODHistoricalService]
    implements it.  [fetchDaily] throws on a failed request, [fetchSplits]
    catches its errors and answers the empty list. *)
Class DataService `{JSNumber} := {
  fetchDaily : string -> option string -> option string -> Result (list OHLCV);
  fetchSplits : string -> list SplitData
}.

(** The lines written with [console.log] and [console.error], one
    constructor per template, with the interpolated values. *)
Inductive ConsoleLine :=
| FetchingAllData (symbol : string)
| FetchingFromBeginningTo (symbol to : string)
| FetchingFromTo (symbol from to : string)
| NoNewData (symbol : string)
| UpdatedWith (symbol : string) (records : nat)
| StoredWith (symbol : string) (records : nat)
| AddingToRegistry (symbol : string)
| NoExistingData (symbol : string)
| FoundGaps (gaps : nat) (symbol : string)
| VerboseFetching (tkr : string)
| AlreadyExists (tkr : string) (lastUpd : Z)
| UpdatingFrom (startDate : string)
| SuccessfullyFetched (tkr : string) (records : Z) (first : Z) (lastUpd : Z)
| Failed (tkr : string) (message : string).

(** A call of [dataService.fetchDaily(symbol, start, end)]. *)
Record Request := mkRequest {
  req_symbol : string;
  req_start : option string;
  req_end : option string
}.

(** Everything the program reads and changes: the parquet files by path,
    the table [stock_metadata], the symbols of the ticker registry, the
    clock read by [new Date()], and what was printed and requested so far
    (oldest first). *)
Record World `{JSNumber} := mkWorld {
  files : gmap string (list Row);
  stock_metadata : gmap string MetaRow;
  registry : gset string;
  clock : Z;
  console : list ConsoleLine;
  requests : list Request
}.
Arguments mkWorld {_}.

Section WorldUpdates.
Context `{JSNumber}.

Definition setFiles (f : gmap string (list Row)) (w : World) : World :=
  mkWorld f (stock_metadata w) (registry w) (clock w) (console w) (requests w).

Definition setMetadata (m : gmap string MetaRow) (w : World) : World :=
  mkWorld (files w) m (registry w) (clock w) (console w) (requests w).

Definition setRegistry (r : gset string) (w : World) : World :=
  mkWorld (files w) (stock_metadata w) r (clock w) (console w) (requests w).

Definition addLine (l : ConsoleLine) (w : World) : World :=
  mkWorld (files w) (stock_metadata w) (registry w) (clock w)
          (console w ++ [l]) (requests w).

Definition addRequest (r : Request) (w : World) : World :=
  mkWorld (files w) (stock_metadata w) (registry w) (clock w)
          (console w) (requests w ++ [r]).

(** The persistent part of a world: what survives the process. *)
Definition sameStore (w w' : World) : Prop :=
  files w = files w' /\ stock_metadata w = stock_metadata w'
  /\ registry w = registry w'.
End WorldUpdates.

(** Asynchronous methods: a state and error monad over the world. *)
Definition M `{JSNumber} (A : Type) : Type := World -> Result A * World.

Section Monad.
Context `{JSNumber}.

Definition ret {A} (a : A) : M A := fun w => (Ok a, w).

Definition bind {A B} (m : M A) (k : A -> M B) : M B :=
  fun w =>
    match m w with
    | (Ok a, w') => k a w'
    | (Err e, w') => (Err e, w')
    end.

Definition throw {A} (msg : string) : M A := fun w => (Err msg, w).

Definition get : M World := fun w => (Ok w, w).

Definition modify (f : World -> World) : M unit := fun w => (Ok tt, f w).

Definition log (l : ConsoleLine) : M unit := modify (addLine l).

(** [try { body } catch (error) { handler(error.message) }] *)
Definition tryCatch {A} (body : M A) (handler : string -> M A) : M A :=
  fun w =>
    match body w with
    | (Ok a, w') => (Ok a, w')
    | (Err e, w') => handler e w'
    end.
End Monad.

Notation "'let!' x ':=' m 'in' k" := (bind m (fun x => k))
  (at level 10, x pattern, m at level 100, k at level 200).

(* ================================================================== *)
(** ** src/storage/base.ts: [DuckDBBase] *)
(* ================================================================== *)

(** What a method does to the files, in order. *)
Inductive FsOp `{JSNumber} :=
| CopyTo (path : string) (rows : list Row)     (* COPY ... TO 'path' *)
| Rename (from to : string).                   (* fs.rename(from, to) *)

Section DuckDBBase.
Context `{JSNumber}.

Definition existsSync (path : string) (fs : gmap string (list Row)) : bool :=
  match fs !! path with
  | Some _ => true
  | None => false
  end.

(** A rename of a file that is not there leaves the files as they are
    (the methods rename only what they have just written). *)
Definition applyOp (fs : gmap string (list Row)) (op : FsOp)
  : gmap string (list Row) :=
  match op with
  | CopyTo path rows => <[path := rows]> fs
  | Rename from to =>
      match fs !! from with
      | Some rows => <[to := rows]> (delete from fs)
      | None => fs
      end
  end.

Definition runOps (ops : list FsOp) : M unit :=
  modify (fun w => setFiles (foldl applyOp (files w) ops) w).

(** The cast of the first column to DATE that [INSERT INTO ... VALUES]
    performs; the statement fails when a text is not a date. *)
Definition castRow (r : RowOf DateValue) : option Row :=
  match newDateOf (r_date r) with
  | Some t =>
      Some (mkRow t (r_open r) (r_high r) (r_low r) (r_close r) (r_volume r)
              (r_adj_open r) (r_adj_high r) (r_adj_low r) (r_adj_close r)
              (r_adj_volume r) (r_percent_change r) (r_split r)
              (r_data_source r) (r_fetched_at r))
  | None => None
  end.

Definition insertValues (data : list (RowOf DateValue)) : M (list Row) :=
  match mapM castRow data with
  | Some rows => ret rows
  | None => throw "Conversion Error: invalid date"
  end.

(** The file operations of [writeParquet]: the COPY of the temporary
    table to [outputPath]. *)
Definition writeParquetOps (rows : list Row) (outputPath : string)
  : list FsOp :=
  [ CopyTo outputPath rows ].

(** [writeParquet(data, outputPath, schema)]; [hasSchema] tells whether
    the third argument is given.  Without a schema and without data the
    method returns before it creates anything. *)
Definition writeParquet (data : list (RowOf DateValue)) (outputPath : string)
    (hasSchema : bool) : M unit :=
  if negb hasSchema && bool_decide (data = []) then ret tt
  else
    let! rows := insertValues data in
    runOps (writeParquetOps rows outputPath).

(** [readParquet(path)] *)
Definition readParquet (path : string) : M (list Row) :=
  let! w := get in
  ret (default [] (files w !! path)).

(** [ORDER BY date] *)
Definition byDate (a b : Row) : Prop := r_date a <= r_date b.

#[global] Instance byDate_dec (a b : Row) : Decision (byDate a b) :=
  Z_le_dec (r_date a) (r_date b).

Definition orderByDate (rows : list Row) : list Row :=
  merge_sort byDate rows.

(** The query of [mergeParquet]:
    rows of the file whose key is [NOT IN] the new rows, [UNION ALL] the
    new rows, [ORDER BY] the key. *)
Definition mergeQuery (existing newRows : list Row) : list Row :=
  orderByDate
    (filter (fun r => r_date r ∉ r_date <$> newRows) existing ++ newRows).

(** The file operations of [mergeParquet], [newRows] being the rows of its
    temporary table: with an existing file, the COPY of the query to
    [targetPath.tmp] and the rename; without one, the COPY of the table to
    [targetPath]. *)
Definition mergeParquetOps (fs : gmap string (list Row))
    (existingPath : string) (newRows : list Row)
    (outputPath : option string) : list FsOp :=
  let targetPath := default existingPath outputPath in
  let tempPath := (targetPath ++ ".tmp")%string in
  match fs !! existingPath with
  | Some existing =>
      [ CopyTo tempPath (mergeQuery existing newRows);
        Rename tempPath targetPath ]
  | None => [ CopyTo targetPath newRows ]
  end.

(** [mergeParquet(existingPath, newData, 'date', outputPath)].
    [writeToTempTable] creates no table for an empty [newData], and the
    COPY that reads the table then fails. *)
Definition mergeParquet (existingPath : string)
    (newData : list (RowOf DateValue)) (outputPath : option string)
  : M unit :=
  match newData with
  | [] => throw "Catalog Error: table does not exist"
  | _ =>
      let! rows := insertValues newData in
      let! w := get in
      runOps (mergeParquetOps (files w) existingPath rows outputPath)
  end.

End DuckDBBase.

(* ================================================================== *)
(** ** src/storage/stocks.ts: [StockDuckDBStorage] *)
(* ================================================================== *)

Section StockDuckDBStorage.
Context `{JSNumber}.

Definition stocksDir : string := "data/stocks".

Definition getParquetPath (tkr : string) : string :=
  (stocksDir ++ "/" ++ tkr ++ "/daily.parquet")%string.

Definition pad3 (n : Z) : string :=
  String (JSDate.digitChar (n / 100)) (JSDate.pad2 n).

(** [new Date(ms).toISOString()] *)
Definition toISOString (ms : Z) : string :=
  let r := ms mod JSDate.msPerDay in
  (JSDate.toISODate (JSDate.dayOfTime ms) ++ "T"
     ++ JSDate.pad2 (r / 3600000) ++ ":" ++ JSDate.pad2 (r / 60000 mod 60)
     ++ ":" ++ JSDate.pad2 (r / 1000 mod 60) ++ "." ++ pad3 (r mod 1000)
     ++ "Z")%string.

(** The object that [writeDaily] and [mergeDaily] build from a bar. *)
Definition toStorage (now : Z) (d : OHLCV) : RowOf DateValue :=
  mkRow (date d) (open d) (high d) (low d) (close d) (volume d)
        (adjOpen d) (adjHigh d) (adjLow d) (adjClose d) (adjVolume d)
        (orNumber (percentChange d) zero)
        (orFalse (split d))
        (orText (dataSource d) "eod")
        (orText (fetchedAt d) (toISOString now)).

Definition exists_ (tkr : string) : M bool :=
  let! w := get in
  ret (existsSync (getParquetPath tkr) (files w)).

(** [data.reduce((min, d) => d.date < min ? d.date : min, data[0].date)] *)
Definition firstDateOf (first : OHLCV) (data : list OHLCV) : DateValue :=
  foldl (fun min d => if jsLt (date d) min then date d else min)
        (date first) data.

Definition lastDateOf (first : OHLCV) (data : list OHLCV) : DateValue :=
  foldl (fun max d => if jsGt (date d) max then date d else max)
        (date first) data.

(** [updateMetadata(ticker, data)]: the dates come from [data], the count
    from the parquet file; [INSERT OR REPLACE] on the key [ticker]. *)
Definition updateMetadata (tkr : string) (data : list OHLCV) : M unit :=
  match data with
  | [] => ret tt
  | first :: _ =>
      let firstDate := firstDateOf first data in
      let lastDate := lastDateOf first data in
      let! w := get in
      match files w !! getParquetPath tkr with
      | None => throw "IO Error: no files found"
      | Some rows =>
          let count := Z.of_nat (length rows) in
          match newDateOf firstDate, newDateOf lastDate with
          | Some f, Some l =>
              modify (fun w =>
                setMetadata
                  (<[tkr := mkMetaRow f l (clock w) "eod" count]>
                     (stock_metadata w)) w)
          | _, _ => throw "Conversion Error: invalid date"
          end
      end
  end.

(** [writeDaily(ticker, data)]; the call of [createViews] that ends it
    redefines a view of the catalog and touches no file and no table. *)
Definition writeDaily (tkr : string) (data : list OHLCV) : M unit :=
  match data with
  | [] => ret tt
  | _ =>
      let parquetPath := getParquetPath tkr in
      let! w := get in
      let storageData := toStorage (clock w) <$> data in
      let! _ := writeParquet storageData parquetPath true in
      updateMetadata tkr data
  end.

(** [mergeDaily(ticker, newData)] *)
Definition mergeDaily (tkr : string) (newData : list OHLCV) : M unit :=
  match newData with
  | [] => ret tt
  | _ =>
      let parquetPath := getParquetPath tkr in
      let! w := get in
      let storageData := toStorage (clock w) <$> newData in
      let! _ := mergeParquet parquetPath storageData None in
      updateMetadata tkr newData
  end.

(** The bar that [getDaily] builds from a row of the file. *)
Definition fromStorage (row : Row) : OHLCV :=
  mkOHLCV (DateObj (r_date row))
          (r_open row) (r_high row) (r_low row) (r_close row) (r_volume row)
          (r_adj_open row) (r_adj_high row) (r_adj_low row)
          (r_adj_close row) (r_adj_volume row)
          (Some (orNumber (Some (r_percent_change row)) zero))
          (Some (r_split row))
          None
          (Some (r_data_source row))
          (Some (r_fetched_at row))
          (Some (r_adj_close row)).

(** [getDaily(ticker, startDate, endDate)]; the bounds are days. *)
Definition getDaily (tkr : string) (startDate endDate : option Z)
  : M (list OHLCV) :=
  let! w := get in
  match files w !! getParquetPath tkr with
  | None => ret []
  | Some rows =>
      let inRange (r : Row) :=
        match startDate with Some s => s <=? r_date r | None => true end
        && match endDate with Some e => r_date r <=? e | None => true end in
      ret (fromStorage <$> orderByDate (List.filter inRange rows))
  end.

Definition getMetadata (tkr : string) : M (option StockMetadata) :=
  let! w := get in
  ret (match stock_metadata w !! tkr with
       | Some r =>
           Some (mkStockMetadata tkr (first_trade_date r) (last_update r)
                   (data_source r) (record_count r))
       | None => None
       end).

Definition getLastUpdate (tkr : string) : M (option Z) :=
  let! metadata := getMetadata tkr in
  ret (match metadata with
       | Some m => Some (lastUpdate m)
       | None => None
       end).

End StockDuckDBStorage.

(* ================================================================== *)
(** ** What a reader can find after a crash *)
(* ================================================================== *)

(** A run can stop before or after any of its file operations, or inside
    a COPY, which then leaves at its path the rows written so far;
    [fs.rename] is atomic. *)
Section CrashModel.
Context `{JSNumber}.

Definition interrupted (fs : gmap string (list Row)) (op : FsOp)
  : list (gmap string (list Row)) :=
match op with
| CopyTo path rows =>
    (fun k => <[path := take k rows]> fs) <$> seq 0 (length rows)
| Rename _ _ => []
end.

Fixpoint crashStates (fs : gmap string (list Row)) (ops : list FsOp)
  : list (gmap string (list Row)) :=
match ops with
| [] => [fs]
| op :: rest => fs :: interrupted fs op ++ crashStates (applyOp fs op) rest
end.

(** The file operations that [writeDaily] and [mergeDaily] run in [w]. *)
Definition writeDailyOps (tkr : string) (data : list OHLCV) (w : World)
  : list FsOp :=
match data with
| [] => []
| _ =>
    match mapM castRow (toStorage (clock w) <$> data) with
    | Some rows => writeParquetOps rows (getParquetPath tkr)
    | None => []
    end
end.

Definition mergeDailyOps (tkr : string) (newData : list OHLCV) (w : World)
  : list FsOp :=
match newData with
| [] => []
| _ =>
    match mapM castRow (toStorage (clock w) <$> newData) with
    | Some rows => mergeParquetOps (files w) (getParquetPath tkr) rows None
    | None => []
    end
end.

End CrashModel.

(* ================================================================== *)
(** ** The [Stocker] class *)
(* ================================================================== *)

(** The revision of the [Stocker] class stored after src/config.ts:
    [findGaps] with its trading-day helpers (lines 312-381), [fetch] (lines
    116-205) and [updateSmart] (lines 207-241).  A [while] loop carries the
    number of rounds it can need; the lemmas [getNextTradingDay_isTradingDay],
    [countLoop_spec] and [backToTradingDay_exit] show that each loop leaves
    through its test. *)
Module Stocker.
Import JSDate.

Definition isTradingDay (date : Z) : bool :=
  let day := getDay date in
  negb (day =? 0) && negb (day =? 6).

(** [while (!isTradingDay(next)) next.setDate(next.getDate() + 1)] *)
Fixpoint skipToTradingDay (fuel : nat) (next : Z) : Z :=
  match fuel with
  | O => next
  | S fuel' =>
      if negb (isTradingDay next) then skipToTradingDay fuel' (next + 1)
      else next
  end.

Definition getNextTradingDay (date : Z) : Z :=
  skipToTradingDay 7 (date + 1).

(** [while (current < end) { if (isTradingDay(current)) count++; current++ }] *)
Fixpoint countLoop (fuel : nat) (current end' count : Z) : Z :=
  match fuel with
  | O => count
  | S fuel' =>
      if current <? end' then
        countLoop fuel' (current + 1) end'
          (if isTradingDay current then count + 1 else count)
      else count
  end.

Definition countTradingDaysBetween (start' end' : Z) : Z :=
  let current := start' + 1 in
  countLoop (Z.to_nat (end' - current)) current end' 0.

(** [while (!isTradingDay(gapEnd) && gapEnd > gapStart) gapEnd--] *)
Fixpoint backToTradingDay (fuel : nat) (gapEnd gapStart : Z) : Z :=
  match fuel with
  | O => gapEnd
  | S fuel' =>
      if negb (isTradingDay gapEnd) && (gapStart <? gapEnd)
      then backToTradingDay fuel' (gapEnd - 1) gapStart
      else gapEnd
  end.

(** The body of the [for] loop for one pair [data[i-1]], [data[i]]. *)
Definition gapBetween (prev curr : DateValue) : list Gap :=
  match newDateOf prev, newDateOf curr with
  | Some prevDate, Some currDate =>
      let missingTradingDays := countTradingDaysBetween prevDate currDate in
      if 0 <? missingTradingDays then
        let gapStart := getNextTradingDay prevDate in
        let gapEnd :=
          backToTradingDay (Z.to_nat (currDate - 1 - gapStart))
                           (currDate - 1) gapStart in
        [ mkGap (toISODate gapStart) (toISODate gapEnd) missingTradingDays ]
      else []
  | _, _ => []   (* an Invalid Date compares false: nothing is counted *)
  end.

(** [for (let i = 1; i < data.length; i++)], [prev] being [data[i-1]]. *)
Fixpoint gapsFrom (prev : DateValue) (rest : list DateValue) : list Gap :=
  match rest with
  | [] => []
  | curr :: rest' => gapBetween prev curr ++ gapsFrom curr rest'
  end.

(** [data] is the list of the [date] fields of the rows passed in. *)
Definition findGaps (data : list DateValue) : list Gap :=
  match data with
  | [] => []
  | first :: rest => gapsFrom first rest
  end.


(** [ticker.toUpperCase()], on ASCII letters. *)
Definition upperChar (c : ascii) : ascii :=
let n := nat_of_ascii c in
if (97 <=? n)%nat && (n <=? 122)%nat then ascii_of_nat (n - 32) else c.

Fixpoint toUpperCase (s : string) : string :=
match s with
| EmptyString => EmptyString
| String c s' => String (upperChar c) (toUpperCase s')
end.

(** The [options] argument of [fetch]; an absent argument and an absent
    flag read as [undefined]. *)
Record FetchOptions := mkOptions {
  o_start : option string;
  o_end : option string;
  o_update : bool
}.

Definition noOptions : FetchOptions := mkOptions None None false.

Section Planner.
Context `{JSNumber} `{!DataService}.

(** [await this.dataService.fetchDaily(symbol, options?.start, options?.end)] *)
Definition callFetchDaily (symbol : string) (from to : option string)
  : M (list OHLCV) :=
fun w =>
  let w' := addRequest (mkRequest symbol from to) w in
  match fetchDaily symbol from to with
  | Ok data => (Ok data, w')
  | Err e => (Err e, w')
  end.

(** [splitMap.has(bar.date)]: a [Map] finds a text key by value. *)
Definition hasSplit (splits : list SplitData) (d : DateValue) : bool :=
match d with
| DateText s => bool_decide (s ∈ split_date <$> splits)
| DateObj _ => false
end.

Definition markSplit (splits : list SplitData) (bar : OHLCV) : OHLCV :=
if hasSplit splits (date bar) then
  mkOHLCV (date bar) (open bar) (high bar) (low bar) (close bar) (volume bar)
          (adjOpen bar) (adjHigh bar) (adjLow bar) (adjClose bar)
          (adjVolume bar) (percentChange bar) (Some true) (dividends bar)
          (dataSource bar) (fetchedAt bar) (adjustedClose bar)
else bar.

(** [options?.update && (await this.storage.exists(symbol))] *)
Definition updateAndExists (options : FetchOptions) (symbol : string) : M bool :=
if o_update options then exists_ symbol else ret false.

Definition announce (options : FetchOptions) (symbol : string)
    (updating : bool) : ConsoleLine :=
if updating then
  if negb (truthy (o_start options)) && negb (truthy (o_end options))
  then FetchingAllData symbol
  else if negb (truthy (o_start options))
  then FetchingFromBeginningTo symbol (orText (o_end options) "")
  else FetchingFromTo symbol (orText (o_start options) "")
                      (orText (o_end options) "today")
else FetchingFromTo symbol (orText (o_start options) "beginning")
                    (orText (o_end options) "today").

(** [Stocker.fetch(ticker, options)] *)
Definition fetch (tkr : string) (options : FetchOptions) : M unit :=
let symbol := toUpperCase tkr in
let! updating := updateAndExists options symbol in
let! _ := log (announce options symbol updating) in
let! data := callFetchDaily symbol (o_start options) (o_end options) in
match data with
| [] => log (NoNewData symbol)
| _ =>
    let splits := fetchSplits symbol in
    let data := match splits with
                | [] => data
                | _ => markSplit splits <$> data
                end in
    let! merging := updateAndExists options symbol in
    let! _ :=
      if merging then
        let! _ := mergeDaily symbol data in
        log (UpdatedWith symbol (length data))
      else
        let! _ := writeDaily symbol data in
        log (StoredWith symbol (length data)) in
    let! w := get in
    if bool_decide (symbol ∈ registry w) then ret tt
    else
      let! _ := log (AddingToRegistry symbol) in
      modify (fun w => setRegistry ({[symbol]} ∪ registry w) w)
end.

(** [Stocker.updateSmart(ticker)] *)
Definition updateSmart (tkr : string) : M unit :=
let symbol := toUpperCase tkr in
let! present := exists_ symbol in
if negb present then
  let! _ := log (NoExistingData symbol) in
  fetch tkr noOptions
else
  let! data := getDaily symbol None None in
  let gaps := findGaps (date <$> data) in
  if (0 <? length gaps)%nat then
    let! _ := log (FoundGaps (length gaps) symbol) in
    fetch tkr (mkOptions None None true)
  else
    match last data with
    | Some lastBar =>
        match newDateOf (date lastBar) with
        | Some lastDate =>
            let nextDate := lastDate + 1 in
            fetch tkr (mkOptions (Some (toISODate nextDate)) None true)
        | None => throw "RangeError: Invalid time value"
        end
    | None => ret tt
    end.

End Planner.

End Stocker.

(** [findGaps] of the [Stocker] class in src/index.ts (lines 169-199); its
    [fetch] and [updateSmart] read as the ones above, without the registry. *)
Module StockerIndex.
Import JSDate.

(** [while (expectedDate.getDay() === 0 || expectedDate.getDay() === 6)] *)
Fixpoint skipWeekend (fuel : nat) (expectedDate : Z) : Z :=
  match fuel with
  | O => expectedDate
  | S fuel' =>
      if (getDay expectedDate =? 0) || (getDay expectedDate =? 6)
      then skipWeekend fuel' (expectedDate + 1)
      else expectedDate
  end.

Definition gapBetween (prev curr : DateValue) : list Gap :=
  match newDateOf prev, newDateOf curr with
  | Some prevDate, Some currDate =>
      let expectedDate := skipWeekend 7 (prevDate + 1) in
      let daysDiff := (getTime currDate - getTime expectedDate) / msPerDay in
      if 0 <? daysDiff then
        [ mkGap (toISODate expectedDate)
                (toISODate (dayOfTime (getTime currDate - 24 * 60 * 60 * 1000)))
                (daysDiff + 1) ]
      else []
  | _, _ => []
  end.

Fixpoint gapsFrom (prev : DateValue) (rest : list DateValue) : list Gap :=
  match rest with
  | [] => []
  | curr :: rest' => gapBetween prev curr ++ gapsFrom curr rest'
  end.

Definition findGaps (data : list DateValue) : list Gap :=
  match data with
  | [] => []
  | first :: rest => gapsFrom first rest
  end.

End StockerIndex.

(** [findGaps] and [updateSmart] of the [Stocker] class next to
    src/config.ts (lines 312-381 and 207-241) once more, in a process whose
    time zone is [offset] milliseconds ahead of UTC all year (behind it, for
    a negative [offset]; no daylight saving).  A date is still UTC midnight
    of its day.  [getDay] is the one method of the detector that reads the
    zone: it answers the weekday of the local calendar day.
    [setDate(getDate() + 1)] moves the instant by 24 hours, to UTC midnight
    of the next day, and [toISOString] and the comparisons read the instant
    itself.  With [offset] 0 these are the definitions of [Stocker]. *)
Module ZonedStocker.

Section Zone.
Variable offset : Z.

(** [date.getDay()] *)
Definition getDay (date : Z) : Z :=
  JSDate.getDay ((JSDate.getTime date + offset) / JSDate.msPerDay).

Definition isTradingDay (date : Z) : bool :=
  let day := getDay date in
  negb (day =? 0) && negb (day =? 6).

Fixpoint skipToTradingDay (fuel : nat) (next : Z) : Z :=
  match fuel with
  | O => next
  | S fuel' =>
      if negb (isTradingDay next) then skipToTradingDay fuel' (next + 1)
      else next
  end.

Definition getNextTradingDay (date : Z) : Z :=
  skipToTradingDay 7 (date + 1).

Fixpoint countLoop (fuel : nat) (current end' count : Z) : Z :=
  match fuel with
  | O => count
  | S fuel' =>
      if current <? end' then
        countLoop fuel' (current + 1) end'
          (if isTradingDay current then count + 1 else count)
      else count
  end.

Definition countTradingDaysBetween (start' end' : Z) : Z :=
  let current := start' + 1 in
  countLoop (Z.to_nat (end' - current)) current end' 0.

Fixpoint backToTradingDay (fuel : nat) (gapEnd gapStart : Z) : Z :=
  match fuel with
  | O => gapEnd
  | S fuel' =>
      if negb (isTradingDay gapEnd) && (gapStart <? gapEnd)
      then backToTradingDay fuel' (gapEnd - 1) gapStart
      else gapEnd
  end.

Definition gapBetween (prev curr : DateValue) : list Gap :=
  match newDateOf prev, newDateOf curr with
  | Some prevDate, Some currDate =>
      let missingTradingDays := countTradingDaysBetween prevDate currDate in
      if 0 <? missingTradingDays then
        let gapStart := getNextTradingDay prevDate in
        let gapEnd :=
          backToTradingDay (Z.to_nat (currDate - 1 - gapStart))
                           (currDate - 1) gapStart in
        [ mkGap (JSDate.toISODate gapStart) (JSDate.toISODate gapEnd)
                missingTradingDays ]
      else []
  | _, _ => []
  end.

Fixpoint gapsFrom (prev : DateValue) (rest : list DateValue) : list Gap :=
  match rest with
  | [] => []
  | curr :: rest' => gapBetween prev curr ++ gapsFrom curr rest'
  end.

Definition findGaps (data : list DateValue) : list Gap :=
  match data with
  | [] => []
  | first :: rest => gapsFrom first rest
  end.

Context `{JSNumber} `{!DataService}.

(** [Stocker.updateSmart(ticker)] *)
Definition updateSmart (tkr : string) : M unit :=
  let symbol := Stocker.toUpperCase tkr in
  let! present := exists_ symbol in
  if negb present then
    let! _ := log (NoExistingData symbol) in
    Stocker.fetch tkr Stocker.noOptions
  else
    let! data := getDaily symbol None None in
    let gaps := findGaps (date <$> data) in
    if (0 <? length gaps)%nat then
      let! _ := log (FoundGaps (length gaps) symbol) in
      Stocker.fetch tkr (Stocker.mkOptions None None true)
    else
      match last data with
      | Some lastBar =>
          match newDateOf (date lastBar) with
          | Some lastDate =>
              let nextDate := lastDate + 1 in
              Stocker.fetch tkr
                (Stocker.mkOptions (Some (JSDate.toISODate nextDate)) None true)
          | None => throw "RangeError: Invalid time value"
          end
      | None => ret tt
      end.

End Zone.

End ZonedStocker.

(* ================================================================== *)
(** ** src/cli/commands/fetch.ts: [FetchCommand] *)
(* ================================================================== *)

Module FetchCommand.
Import JSDate.

(** The options of the command line, [this.ticker] apart. *)
Record Flags := mkFlags {
  start : option string;
  end_ : option string;
  update : bool;
  force : bool;
  verbose : bool
}.

Section Execute.
Context `{JSNumber} `{!DataService}.

Definition when (b : bool) (m : M unit) : M unit := if b then m else ret tt.

(** [format(new Date(lastUpdate.getTime() + 24 * 60 * 60 * 1000), 'yyyy-MM-dd')],
    the calendar day of that instant. *)
Definition dayAfter (lastUpd : Z) : string :=
toISODate (dayOfTime (lastUpd + 24 * 60 * 60 * 1000)).

(** The part of the loop body after the test for a skip. *)
Definition fetchTicker (this : Flags) (normalizedTicker : string)
    (present : bool) : M unit :=
let startDate := start this in
let endDate := end_ this in
let! startDate :=
  (if update this && present then
     let! lastUpd := getLastUpdate normalizedTicker in
     match lastUpd with
     | Some t =>
         let startDate := dayAfter t in
         let! _ := when (verbose this) (log (UpdatingFrom startDate)) in
         ret (Some startDate)
     | None => ret startDate
     end
   else ret startDate) in
let options := Stocker.mkOptions startDate endDate (update this) in
let! _ := Stocker.fetch normalizedTicker options in
let! metadata := getMetadata normalizedTicker in
match metadata with
| Some m =>
    log (SuccessfullyFetched normalizedTicker (recordCount m)
           (firstTradeDate m) (lastUpdate m))
| None => ret tt
end.

(** The body of [for (const ticker of tickers)], inside its [try]. *)
Definition tryTicker (this : Flags) (tkr : string) : M unit :=
let normalizedTicker := Stocker.toUpperCase tkr in
let! _ := when (verbose this) (log (VerboseFetching normalizedTicker)) in
let! present := exists_ normalizedTicker in
if present && negb (update this) && negb (force this) then
  let! metadata := getMetadata normalizedTicker in
  match metadata with
  | Some m => log (AlreadyExists normalizedTicker (lastUpdate m))
  | None => fetchTicker this normalizedTicker present
  end
else fetchTicker this normalizedTicker present.

Definition executeTicker (this : Flags) (tkr : string) : M unit :=
tryCatch (tryTicker this tkr) (fun message => log (Failed tkr message)).

(** [FetchCommand.execute()] over [this.ticker]. *)
Fixpoint execute (this : Flags) (tickers : list string) : M unit :=
match tickers with
| [] => ret tt
| tkr :: rest =>
    let! _ := executeTicker this tkr in
    execute this rest
end.

End Execute.
End FetchCommand.

(* ================================================================== *)
(** ** src/config.ts: [loadConfig] *)
(* ================================================================== *)

Module Config.

(** [Partial<Config>], read with optional chaining: a field is absent when
    it or an object above it is absent. *)
Record PartialConfig `{JSNumber} := mkPartial {
  p_apiKey : option string;
  p_rateLimit : option number;
  p_dataDir : option string;
  p_startDate : option string;
  p_parallel : option number
}.
Arguments mkPartial {_}.

(** [Config], with the fields of [sources.eodhd], [storage] and [defaults]
    side by side. *)
Record Config `{JSNumber} := mkConfig {
  apiKey : string;
  rateLimit : number;
  dataDir : string;
  startDate : string;
  parallel : number
}.
Arguments mkConfig {_}.

Section LoadConfig.
Context `{JSNumber}.

(** The numbers 20 and 5 of the source, and [DEFAULT_DATA_DIR], which is
    [join(process.cwd(), "data")]. *)
Variables (twenty five : number) (DEFAULT_DATA_DIR : string).

Definition noConfig : PartialConfig := mkPartial None None None None None.

(** [loadConfig(configPath, overrides)].  [env] is
    [process.env.EODHD_API_KEY]; [file] is what [yaml.parse] returns for the
    file at the path, and [None] when there is no file, when reading or
    parsing it throws (a warning is printed), and when the document is
    empty. *)
Definition loadConfig (env : option string) (file overrides : option PartialConfig)
  : Config :=
  let fileConfig := default noConfig file in
  let overrides := default noConfig overrides in
  mkConfig
    (orText (p_apiKey overrides)
       (orText env (orText (p_apiKey fileConfig) "")))
    (orNumber (p_rateLimit overrides)
       (orNumber (p_rateLimit fileConfig) twenty))
    (orText (p_dataDir overrides)
       (orText (p_dataDir fileConfig) DEFAULT_DATA_DIR))
    (orText (p_startDate overrides)
       (orText (p_startDate fileConfig) "2020-01-01"))
    (orNumber (p_parallel overrides)
       (orNumber (p_parallel fileConfig) five)).

(** A configuration handed back as overrides, as [updateConfig(getConfig())]
    does. *)
Definition asOverrides (c : Config) : PartialConfig :=
  mkPartial (Some (apiKey c)) (Some (rateLimit c)) (Some (dataDir c))
            (Some (startDate c)) (Some (parallel c)).

End LoadConfig.

End Config.

(* ================================================================== *)
(** ** Instances for the examples *)
(* ================================================================== *)

(** Numbers that are integers. *)
Definition IntNumber : JSNumber :=
  {| number := Z; zero := 0; falsy := Z.eqb 0 |}.

(** A bar of the price API with one price for all its price fields. *)
Definition bar (d : string) (px : Z) : @OHLCV IntNumber :=
  @mkOHLCV IntNumber (DateText d) px px px px 100 px px px px 100
            None None None None None None.

(** The row that [mergeDaily] stores for [bar d px] fetched at [now]. *)
Definition storedBar (t : Z) (px : Z) (now : string) : @RowOf IntNumber Z :=
  @mkRow IntNumber Z t px px px px 100 px px px px 100 0 false "eod" now.

(** A price API that answers every request with [data] and has no split. *)
Definition replay (data : list (@OHLCV IntNumber)) : @DataService IntNumber :=
  @Build_DataService IntNumber (fun _ _ _ => Ok data) (fun _ => []).

(** A price API that refuses every request with [message]. *)
Definition failing (message : string) : @DataService IntNumber :=
  @Build_DataService IntNumber (fun _ _ _ => Err message) (fun _ => []).

(** 2024-01-08, a Monday, is day 19730.  The file of AAPL holds the three
    days 2024-01-08 to 2024-01-10; its row of [stock_metadata] was written on
    2024-03-01 at 12:00 UTC; the clock shows 2024-03-04 at 09:00 UTC. *)
Definition exampleRows : list (@RowOf IntNumber Z) :=
  [ storedBar 19730 10 "2024-03-01T12:00:00.000Z";
    storedBar 19731 11 "2024-03-01T12:00:00.000Z";
    storedBar 19732 12 "2024-03-01T12:00:00.000Z" ].

Definition exampleWorld : @World IntNumber :=
  mkWorld
    {[ getParquetPath "AAPL" := exampleRows ]}
    {[ "AAPL"%string := mkMetaRow 19730 19732 1709294400000 "eod" 3 ]}
    {[ "AAPL"%string ]}
    1709542800000 [] [].

(** An incoming batch for 2024-01-10 and 2024-01-11, and the rows that
    [mergeDaily] builds from it in [exampleWorld]. *)
Definition incoming : list (@OHLCV IntNumber) :=
  [ bar "2024-01-10" 20; bar "2024-01-11" 21 ].

Definition incomingRows : list (@RowOf IntNumber Z) :=
  [ storedBar 19732 20 "2024-03-04T09:00:00.000Z";
    storedBar 19733 21 "2024-03-04T09:00:00.000Z" ].

(** A file with a gap: Friday 2024-01-05 and Wednesday 2024-01-10. *)
Definition gapWorld : @World IntNumber :=
  mkWorld
    {[ getParquetPath "AAPL" :=
         [ storedBar 19727 10 "2024-03-01T12:00:00.000Z";
           storedBar 19732 12 "2024-03-01T12:00:00.000Z" ] ]}
    {[ "AAPL"%string := mkMetaRow 19727 19732 1709294400000 "eod" 2 ]}
    {[ "AAPL"%string ]}
    1709542800000 [] [].

(** The same files with an empty catalog: no row of [stock_metadata]. *)
Definition filesOnlyWorld : @World IntNumber :=
  setMetadata ∅ exampleWorld.

(* ================================================================== *)
(** ** The vocabulary of the specification *)
(* ================================================================== *)

(** A method leaves a component of the world as it found it, whatever its
    outcome. *)
Definition keeps `{JSNumber} {X A : Type} (proj : World -> X) (m : M A) : Prop :=
  forall w, proj (snd (m w)) = proj w.

(** The persisted series of a symbol, as [getDaily(symbol)] returns it. *)
Definition persistedSeries `{JSNumber} (symbol : string) (w : World)
  : list OHLCV :=
  match fst (getDaily symbol None None w) with
  | Ok data => data
  | Err _ => []
  end.

(** The requests a method issues: what it appends to [requests]. *)
Definition issues `{JSNumber} {A : Type} (m : M A) (w : World)
    (rs : list Request) : Prop :=
  requests (snd (m w)) = requests w ++ rs.

Module GapSpec.

(** [new Date(d.toISOString().split("T")[0])] is [d] again, for the [n]
    days from [t] on. *)
Fixpoint readsBackFrom (n : nat) (t : Z) : bool :=
match n with
| O => true
| S n' =>
    match JSDate.newDate (JSDate.toISODate t) with
    | Some t' => t' =? t
    | None => false
    end && readsBackFrom n' (t + 1)
end.

(** A trading day is a weekday, Monday (1) to Friday (5). *)
Definition isWeekday (t : Z) : bool :=
(1 <=? JSDate.getDay t) && (JSDate.getDay t <=? 5).

(** The number of weekdays from [first] to [last'], both included. *)
Definition weekdaysInSpan (first last' : Z) : Z :=
Z.of_nat (length (List.filter isWeekday (seqZ first (last' - first + 1)))).

(** The number of entries of a date sequence that are weekdays. *)
Definition presentWeekdays (ds : list Z) : Z :=
Z.of_nat (length (List.filter isWeekday ds)).

(** The sum of the [days] of the reported gaps. *)
Definition sumDays (gs : list Gap) : Z :=
foldr (fun g acc => days g + acc) 0 gs.

(** The weekdays strictly between the consecutive entries of [prev :: rest]. *)
Fixpoint missingBetween (prev : Z) (rest : list Z) : Z :=
match rest with
| [] => 0
| curr :: rest' =>
    Z.of_nat (length (List.filter isWeekday (seqZ (prev + 1) (curr - prev - 1))))
    + missingBetween curr rest'
end.

End GapSpec.

(** A symbol that names one directory below [stocksDir]: not empty, not
    [.] or [..], and without a [/].  For such a symbol [join] puts the parts
    of the path one after the other, as [getParquetPath] does; two of them
    never share a file. *)
Fixpoint hasSlash (s : string) : bool :=
  match s with
  | EmptyString => false
  | String c s' => Ascii.eqb c "/" || hasSlash s'
  end.

Definition plainSymbol (s : string) : bool :=
  negb (hasSlash s) && negb (String.eqb s "")
  && negb (String.eqb s ".") && negb (String.eqb s "..").

(** Every symbol that has a file has a row of [stock_metadata]. *)
Definition everyFileHasSummary `{JSNumber} (w : World) : Prop :=
  forall tkr,
    plainSymbol tkr = true ->
    is_Some (files w !! getParquetPath tkr) ->
    is_Some (stock_metadata w !! tkr).

(** A method only moves the world along the relation [R], whatever its
    outcome. *)
Definition advances `{JSNumber} {A : Type} (R : World -> World -> Prop)
    (m : M A) : Prop :=
  forall w, R w (snd (m w)).

(** The last character of a text. *)
Fixpoint lastChar (s : string) : option ascii :=
  match s with
  | EmptyString => None
  | String c EmptyString => Some c
  | String _ s' => lastChar s'
  end.

(** What the store holds about one symbol: its file and its row of
    [stock_metadata]. *)
Definition recordOf `{JSNumber} (symbol : string) (w : World)
  : option (list Row) * option MetaRow :=
  (files w !! getParquetPath symbol, stock_metadata w !! symbol).

(** No stored day of a symbol is lost from [w] to [w']: when the symbol has
    a file in [w], it has one in [w'], with a row for every date of the
    first. *)
Definition keepsHistory `{JSNumber} (symbol : string) (w w' : World) : Prop :=
  forall A, files w !! getParquetPath symbol = Some A ->
  exists A', files w' !! getParquetPath symbol = Some A'
             /\ r_date <$> A ⊆ r_date <$> A'.

(** The bars that [fetch] stores: the answer of the price API with the
    split flag set on the bars whose date is the date of a split. *)
Definition withSplits `{JSNumber} `{!DataService} (symbol : string)
    (data : list OHLCV) : list OHLCV :=
  let splits := fetchSplits symbol in
  match splits with
  | [] => data
  | _ => Stocker.markSplit splits <$> data
  end.

(** The bounds of [getDaily], both optional. *)
Definition withinBounds (startDate endDate : option Z) (t : Z) : Prop :=
  (forall s, startDate = Some s -> s <= t)
  /\ (forall e, endDate = Some e -> t <= e).

(* ================================================================== *)
(** * Properties *)
(* ================================================================== *)

(** ** Dates *)

Example newDate_epoch : JSDate.newDate "1970-01-01" = Some 0.
Proof. reflexivity. Qed.

Example newDate_2024_01_05 :
  JSDate.newDate "2024-01-05" = Some 19727 /\ JSDate.getDay 19727 = 5.
Proof. split; reflexivity. Qed.

Example toISODate_19727 : JSDate.toISODate 19727 = "2024-01-05"%string.
Proof. reflexivity. Qed.

Example newDate_rejects_february_30 : JSDate.newDate "2024-02-30" = None.
Proof. reflexivity. Qed.

(** From 2000-01-01 to 2039-12-31 the text of a day reads back as that
    day. *)
Example iso_date_reads_back :
  JSDate.toISODate 10957 = "2000-01-01"%string
  /\ JSDate.toISODate (10957 + 14609) = "2039-12-31"%string
  /\ GapSpec.readsBackFrom (Z.to_nat 14610) 10957 = true.
Proof. vm_compute. auto. Qed.

Lemma getDay_range t : 0 <= JSDate.getDay t < 7.
Proof. unfold JSDate.getDay. apply Z.mod_pos_bound. lia. Qed.

(** ** Gap detection with the trading-day helpers *)

Section GapProperties.
Import JSDate Stocker GapSpec.

Lemma isTradingDay_isWeekday t : isTradingDay t = isWeekday t.
Proof.
  unfold isTradingDay, isWeekday.
  pose proof (getDay_range t) as Hr.
  destruct (Z.eqb_spec (getDay t) 0), (Z.eqb_spec (getDay t) 6),
           (Z.leb_spec 1 (getDay t)), (Z.leb_spec (getDay t) 5);
    simpl; try reflexivity; lia.
Qed.

Lemma isTradingDay_false t :
  isTradingDay t = false -> getDay t = 0 \/ getDay t = 6.
Proof.
  unfold isTradingDay.
  destruct (Z.eqb_spec (getDay t) 0), (Z.eqb_spec (getDay t) 6);
    simpl; intros; try discriminate; lia.
Qed.

Lemma getDay_succ t : getDay (t + 1) = (getDay t + 1) mod 7.
Proof.
  unfold getDay. replace (t + 1 + 4) with ((t + 4) + 1) by lia.
  rewrite Z.add_mod by lia. rewrite (Z.mod_small 1 7) by lia. reflexivity.
Qed.

(** The loop of [getNextTradingDay] leaves through its test. *)
Lemma getNextTradingDay_isTradingDay t :
  isTradingDay (getNextTradingDay t) = true.
Proof.
  unfold getNextTradingDay.
  generalize (t + 1). intros u.
  change (skipToTradingDay 7 u)
    with (if negb (isTradingDay u) then
            if negb (isTradingDay (u + 1)) then
              if negb (isTradingDay (u + 1 + 1))
              then skipToTradingDay 4 (u + 1 + 1 + 1)
              else u + 1 + 1
            else u + 1
          else u).
  destruct (isTradingDay u) eqn:E0; simpl; [exact E0|].
  destruct (isTradingDay (u + 1)) eqn:E1; simpl; [exact E1|].
  destruct (isTradingDay (u + 1 + 1)) eqn:E2; simpl; [exact E2|].
  exfalso.
  apply isTradingDay_false in E0, E1, E2.
  rewrite getDay_succ in E2. rewrite getDay_succ in E1, E2.
  destruct E0 as [E0 | E0]; rewrite E0 in E1, E2;
    vm_compute in E1, E2; lia.
Qed.

Lemma countLoop_spec fuel : forall current end' count,
  (Z.to_nat (end' - current) <= fuel)%nat ->
  countLoop fuel current end' count
  = count + Z.of_nat (length (List.filter isWeekday
                                (seqZ current (end' - current)))).
Proof.
  induction fuel as [|fuel IH]; intros current end' count Hfuel; simpl.
  - rewrite seqZ_nil by lia. simpl. lia.
  - destruct (Z.ltb_spec current end') as [Hlt | Hge].
    + rewrite IH by lia.
      rewrite (seqZ_cons current) by lia.
      replace (Z.succ current) with (current + 1) by lia.
      replace (Z.pred (end' - current)) with (end' - (current + 1)) by lia.
      simpl. rewrite isTradingDay_isWeekday.
      destruct (isWeekday current); simpl; lia.
    + rewrite seqZ_nil by lia. simpl. lia.
Qed.

Lemma countTradingDaysBetween_spec a b :
  countTradingDaysBetween a b
  = Z.of_nat (length (List.filter isWeekday (seqZ (a + 1) (b - a - 1)))).
Proof.
  unfold countTradingDaysBetween.
  rewrite countLoop_spec by lia.
  replace (b - (a + 1)) with (b - a - 1) by lia. lia.
Qed.

Lemma sumDays_app g1 g2 : sumDays (g1 ++ g2) = sumDays g1 + sumDays g2.
Proof. induction g1 as [|g g1 IH]; simpl; [reflexivity | rewrite IH; lia]. Qed.

Lemma gapBetween_days prev curr p c :
  newDateOf prev = Some p -> newDateOf curr = Some c ->
  sumDays (gapBetween prev curr) = countTradingDaysBetween p c
  /\ Forall (fun g => 0 < days g) (gapBetween prev curr).
Proof.
  intros Hp Hc. unfold gapBetween. rewrite Hp, Hc.
  pose proof (countTradingDaysBetween_spec p c) as Hs.
  destruct (Z.ltb_spec 0 (countTradingDaysBetween p c)) as [Hpos | Hnp]; simpl.
  - split; [lia | repeat constructor; exact Hpos].
  - split; [lia | constructor].
Qed.

Lemma gapBetween_positive prev curr :
  Forall (fun g => 0 < days g) (gapBetween prev curr).
Proof.
  unfold gapBetween.
  destruct (newDateOf prev) as [p|]; [|constructor].
  destruct (newDateOf curr) as [c|]; [|constructor].
  destruct (Z.ltb_spec 0 (countTradingDaysBetween p c)); simpl;
    [repeat constructor; assumption | constructor].
Qed.

Lemma gapsFrom_positive rest : forall prev,
  Forall (fun g => 0 < days g) (gapsFrom prev rest).
Proof.
  induction rest as [|curr rest IH]; intros prev; simpl; [constructor|].
  apply Forall_app. split; [apply gapBetween_positive | apply IH].
Qed.

Lemma gapsFrom_sum rest : forall prev p ds,
  newDateOf prev = Some p ->
  map newDateOf rest = map Some ds ->
  sumDays (gapsFrom prev rest) = missingBetween p ds.
Proof.
  induction rest as [|curr rest IH]; intros prev p ds Hp Hds.
  - destruct ds; [reflexivity | discriminate].
  - destruct ds as [|c ds]; [discriminate|].
    simpl in Hds. injection Hds as Hc Hds.
    simpl. rewrite sumDays_app.
    destruct (gapBetween_days prev curr p c Hp Hc) as [-> _].
    rewrite countTradingDaysBetween_spec.
    rewrite (IH curr c ds Hc Hds). reflexivity.
Qed.

Lemma sorted_last_ge ds : forall p l,
  StronglySorted Z.lt (p :: ds) -> last (p :: ds) = Some l -> p <= l.
Proof.
  induction ds as [|c ds IH]; intros p l Hs Hl.
  - simpl in Hl. injection Hl as <-. lia.
  - apply StronglySorted_inv in Hs as [Hs Hall].
    apply Forall_cons in Hall as [Hpc _].
    change (last (c :: ds) = Some l) in Hl.
    specialize (IH c l Hs Hl). lia.
Qed.

Lemma seqZ_one p : seqZ p 1 = [p].
Proof. rewrite seqZ_cons by lia. rewrite seqZ_nil by lia. reflexivity. Qed.

Lemma span_accounting ds : forall p l,
  StronglySorted Z.lt (p :: ds) -> last (p :: ds) = Some l ->
  weekdaysInSpan p l = presentWeekdays (p :: ds) + missingBetween p ds.
Proof.
  induction ds as [|c ds IH]; intros p l Hs Hl.
  - simpl in Hl. injection Hl as <-.
    unfold weekdaysInSpan, presentWeekdays.
    replace (p - p + 1) with 1 by lia. rewrite seqZ_one.
    simpl. destruct (isWeekday p); simpl; lia.
  - pose proof (sorted_last_ge _ _ _ Hs Hl) as Hpl.
    apply StronglySorted_inv in Hs as [Hs Hall].
    apply Forall_cons in Hall as [Hpc _].
    change (last (c :: ds) = Some l) in Hl.
    pose proof (sorted_last_ge _ _ _ Hs Hl) as Hcl.
    specialize (IH c l Hs Hl).
    unfold weekdaysInSpan, presentWeekdays in *.
    replace (l - p + 1) with (1 + ((c - p - 1) + (l - c + 1))) by lia.
    rewrite (seqZ_app p 1) by lia.
    rewrite (seqZ_app (p + 1)) by lia.
    replace (p + 1 + (c - p - 1)) with c by lia.
    rewrite !List.filter_app, !length_app.
    rewrite seqZ_one.
    change (missingBetween p (c :: ds))
      with (Z.of_nat (length (List.filter isWeekday
                                (seqZ (p + 1) (c - p - 1))))
            + missingBetween c ds).
    change (List.filter isWeekday [p])
      with (if isWeekday p then [p] else []).
    change (List.filter isWeekday (p :: c :: ds))
      with (if isWeekday p then p :: List.filter isWeekday (c :: ds)
            else List.filter isWeekday (c :: ds)).
    set (present := List.filter isWeekday (c :: ds)) in *.
    destruct (isWeekday p); cbn [length]; lia.
Qed.

Lemma backToTradingDay_exit fuel : forall gapEnd gapStart,
  (Z.to_nat (gapEnd - gapStart) <= fuel)%nat ->
  let r := backToTradingDay fuel gapEnd gapStart in
  isTradingDay r = true \/ r <= gapStart.
Proof.
  induction fuel as [|fuel IH]; intros gapEnd gapStart Hfuel; simpl.
  - right. lia.
  - destruct (isTradingDay gapEnd) eqn:E; simpl; [left; exact E|].
    destruct (Z.ltb_spec gapStart gapEnd); [|right; lia].
    apply IH. lia.
Qed.

Lemma findGaps_days_positive (D : list DateValue) :
  Forall (fun g => 0 < days g) (findGaps D).
Proof.
  destruct D as [|first rest]; [constructor | apply gapsFrom_positive].
Qed.

Lemma findGaps_short (D : list DateValue) :
  (length D < 2)%nat -> findGaps D = [].
Proof.
  destruct D as [|first [|second rest]]; simpl; intros; try reflexivity; lia.
Qed.

(** On the detector with the trading-day helpers, what the specification
    promises of [findGaps] holds: for an ascending sequence of dates without
    repetition, no reported gap has [days] 0, the reported [days] and the
    weekdays present add up to the weekdays of the span from the first to
    the last date, and fewer than two entries give no gap. *)
Theorem Stocker_findGaps_weekday_accounting
    (D : list DateValue) (ds : list Z) :
  map newDateOf D = map Some ds ->
  StronglySorted Z.lt ds ->
  Forall (fun g => 0 < days g) (findGaps D)
  /\ (forall first l, head ds = Some first -> last ds = Some l ->
        sumDays (findGaps D) + presentWeekdays ds = weekdaysInSpan first l)
  /\ ((length D < 2)%nat -> findGaps D = []).
Proof.
  intros HD Hsorted.
  split; [apply findGaps_days_positive|].
  split; [|apply findGaps_short].
  intros first l Hfirst Hlast.
  destruct D as [|d0 D]; destruct ds as [|p ds]; try discriminate.
  simpl in HD. injection HD as Hd0 HD.
  simpl in Hfirst. injection Hfirst as <-.
  simpl findGaps.
  rewrite (gapsFrom_sum D d0 p ds Hd0 HD).
  rewrite (span_accounting ds p l Hsorted Hlast). lia.
Qed.

Lemma Stocker_findGaps_weekday_accounting_witness :
  sumDays (findGaps [DateText "2024-01-05"; DateText "2024-01-10";
                     DateText "2024-01-22"])
  + presentWeekdays [19727; 19732; 19744]
  = weekdaysInSpan 19727 19744.
Proof.
  refine (proj1 (proj2 (Stocker_findGaps_weekday_accounting
            [DateText "2024-01-05"; DateText "2024-01-10";
             DateText "2024-01-22"]
            [19727; 19732; 19744] _ _)) 19727 19744 _ _);
    [ reflexivity | repeat constructor; lia | reflexivity | reflexivity ].
Defined.

(** The concrete case of the specification, on the detector with the
    trading-day helpers: Friday 2024-01-05 and Wednesday 2024-01-10 give one
    gap, from Monday 2024-01-08 to Tuesday 2024-01-09, of 2 days. *)
Lemma Stocker_findGaps_friday_wednesday :
  findGaps [DateText "2024-01-05"; DateText "2024-01-10"]
  = [ mkGap "2024-01-08" "2024-01-09" 2 ].
Proof. vm_compute. reflexivity. Qed.

End GapProperties.

(** ** Gap detection in src/index.ts *)



Lemma getNextTradingDay_cases p :
  let n := Stocker.getNextTradingDay p in
  n = p + 1
  \/ (n = p + 2 /\ Stocker.isTradingDay (p + 1) = false)
  \/ (n = p + 3 /\ Stocker.isTradingDay (p + 1) = false
                /\ Stocker.isTradingDay (p + 2) = false).
Proof.
  cbv zeta. unfold Stocker.getNextTradingDay.
  change (Stocker.skipToTradingDay 7 (p + 1))
    with (if negb (Stocker.isTradingDay (p + 1)) then
            if negb (Stocker.isTradingDay (p + 1 + 1)) then
              if negb (Stocker.isTradingDay (p + 1 + 1 + 1))
              then Stocker.skipToTradingDay 4 (p + 1 + 1 + 1 + 1)
              else p + 1 + 1 + 1
            else p + 1 + 1
          else p + 1).
  replace (p + 1 + 1) with (p + 2) by lia.
  replace (p + 2 + 1) with (p + 3) by lia.
  destruct (Stocker.isTradingDay (p + 1)) eqn:E1; simpl; [left; reflexivity|].
  destruct (Stocker.isTradingDay (p + 2)) eqn:E2; simpl; [right; left; auto|].
  destruct (Stocker.isTradingDay (p + 3)) eqn:E3; simpl; [right; right; auto|].
  exfalso.
  apply isTradingDay_false in E1, E2, E3.
  replace (p + 3) with (p + 2 + 1) in E3 by lia.
  replace (p + 2) with (p + 1 + 1) in E2, E3 by lia.
  rewrite getDay_succ in E3. rewrite getDay_succ in E2, E3.
  destruct E1 as [E1 | E1]; rewrite E1 in E2, E3;
    vm_compute in E2, E3; lia.
Qed.


(** C2.  For the dates 2024-01-05 (a Friday) and 2024-01-10 (the following
    Wednesday) [findGaps] of src/index.ts returns one gap from 2024-01-08 to
    2024-01-09, as the claim says, but with [days] 3 where the claim says 2:
    it reports the calendar days from the expected day to the current one,
    one more than the days of the gap. *)
Theorem index_findGaps_friday_wednesday :
  StockerIndex.findGaps [DateText "2024-01-05"; DateText "2024-01-10"]
  = [ mkGap "2024-01-08" "2024-01-09" 3 ].
Proof. vm_compute. reflexivity. Qed.

(** C3.  On the ascending sequence 2024-01-05, 2024-01-10 the gaps reported
    by [findGaps] of src/index.ts have positive [days], but their sum (3)
    and the weekdays present (2) do not add up to the weekdays of the span
    from the first to the last date (4). *)
Theorem index_findGaps_weekday_accounting_fails :
  let D := [DateText "2024-01-05"; DateText "2024-01-10"] in
  let ds := [19727; 19732] in
  map newDateOf D = map Some ds
  /\ StronglySorted Z.lt ds
  /\ Forall (fun g => 0 < days g) (StockerIndex.findGaps D)
  /\ GapSpec.sumDays (StockerIndex.findGaps D) + GapSpec.presentWeekdays ds = 5
  /\ GapSpec.weekdaysInSpan 19727 19732 = 4.
Proof.
  cbv zeta. split; [reflexivity|]. split; [repeat constructor; lia|].
  split; [vm_compute; repeat constructor|].
  split; vm_compute; reflexivity.
Qed.

(** ** The merge of [mergeParquet] *)

Section MergeProperties.
Context `{JSNumber}.

Lemma byDate_transitive : Transitive byDate.
Proof. intros a b c. unfold byDate. lia. Qed.

Lemma byDate_total : Total byDate.
Proof. intros a b. unfold byDate. lia. Qed.

Lemma mergeQuery_Permutation (existing newRows : list Row) :
  mergeQuery existing newRows
  ≡ₚ filter (fun r => r_date r ∉ r_date <$> newRows) existing ++ newRows.
Proof. apply merge_sort_Permutation. Qed.

Lemma mergeQuery_elem_of (existing newRows : list Row) (r : Row) :
  r ∈ mergeQuery existing newRows
  <-> r ∈ newRows \/ (r ∈ existing /\ r_date r ∉ r_date <$> newRows).
Proof.
  rewrite mergeQuery_Permutation, elem_of_app, list_elem_of_filter. tauto.
Qed.

Lemma NoDup_fmap_filter {A B} (f : A -> B) (P : A -> Prop)
    `{!forall x, Decision (P x)} (l : list A) :
  NoDup (f <$> l) -> NoDup (f <$> filter P l).
Proof.
  induction l as [|x l IH]; csimpl; intros Hnd; [constructor|].
  apply NoDup_cons in Hnd as [Hx Hnd].
  rewrite filter_cons. destruct (decide (P x)); csimpl; [|auto].
  apply NoDup_cons. split; [|auto].
  intros Hin. apply Hx.
  apply list_elem_of_fmap in Hin as (y & -> & Hy).
  apply list_elem_of_filter in Hy as [_ Hy].
  apply list_elem_of_fmap_2. exact Hy.
Qed.


Lemma mergeQuery_dates_NoDup (existing newRows : list Row) :
  NoDup (r_date <$> existing) -> NoDup (r_date <$> newRows) ->
  NoDup (r_date <$> mergeQuery existing newRows).
Proof.
  intros Ha Hb. rewrite mergeQuery_Permutation, fmap_app.
  apply NoDup_app. split; [apply NoDup_fmap_filter; exact Ha|].
  split; [|exact Hb].
  intros d Hd Hd'.
  apply list_elem_of_fmap in Hd as (r & -> & Hr).
  apply list_elem_of_filter in Hr as [Hr _]. exact (Hr Hd').
Qed.


Lemma mergeQuery_dates (existing newRows : list Row) (d : Z) :
  d ∈ r_date <$> mergeQuery existing newRows
  <-> d ∈ r_date <$> existing \/ d ∈ r_date <$> newRows.
Proof.
  rewrite !list_elem_of_fmap. split.
  - intros (r & -> & Hr). apply mergeQuery_elem_of in Hr as [Hr | [Hr _]];
      [right | left]; exists r; auto.
  - intros [(r & -> & Hr) | (r & -> & Hr)].
    + destruct (decide (r_date r ∈ r_date <$> newRows)) as [Hin | Hout].
      * apply list_elem_of_fmap in Hin as (r' & Heq & Hr').
        exists r'. split; [exact Heq|]. apply mergeQuery_elem_of. auto.
      * exists r. split; [reflexivity|]. apply mergeQuery_elem_of. auto.
    + exists r. split; [reflexivity|]. apply mergeQuery_elem_of. auto.
Qed.

End MergeProperties.

(** ** [mergeDaily] and [writeDaily] *)

Section StoreProperties.
Context `{JSNumber}.

Lemma castRow_date (r : RowOf DateValue) (r' : Row) :
  castRow r = Some r' -> newDateOf (r_date r) = Some (r_date r').
Proof.
  unfold castRow. destruct (newDateOf (r_date r)); [|discriminate].
  intros [= <-]. reflexivity.
Qed.

Lemma cast_dates now (B : list OHLCV) (rows : list Row) :
  mapM castRow (toStorage now <$> B) = Some rows ->
  newDateOf <$> (date <$> B) = Some <$> (r_date <$> rows).
Proof.
  intros Hm. apply mapM_Some in Hm. apply Forall2_fmap_l in Hm.
  induction Hm as [|b r B rows Hb _ IH]; csimpl; [reflexivity|].
  apply castRow_date in Hb. simpl in Hb. rewrite Hb, IH. reflexivity.
Qed.

Lemma foldl_pick_elem_of {A B} (pick : A -> B -> bool) (key : B -> A)
    (data : list B) : forall acc,
  foldl (fun m d => if pick m d then key d else m) acc data
  ∈ acc :: (key <$> data).
Proof.
  induction data as [|d data IH]; intros acc; simpl; [left|].
  specialize (IH (if pick acc d then key d else acc)).
  destruct (pick acc d).
  - right. exact IH.
  - apply elem_of_cons in IH as [-> | IH]; [left | right; right; exact IH].
Qed.

Lemma firstDateOf_elem_of (first : OHLCV) (data : list OHLCV) :
  firstDateOf first data ∈ date first :: (date <$> data).
Proof.
  unfold firstDateOf.
  apply (foldl_pick_elem_of (fun m d => jsLt (date d) m) date).
Qed.

Lemma lastDateOf_elem_of (first : OHLCV) (data : list OHLCV) :
  lastDateOf first data ∈ date first :: (date <$> data).
Proof.
  unfold lastDateOf.
  apply (foldl_pick_elem_of (fun m d => jsGt (date d) m) date).
Qed.

Lemma updateMetadata_ok tkr (b : OHLCV) (B : list OHLCV) rows (w : World) :
  files w !! getParquetPath tkr = Some rows ->
  Forall (fun d => is_Some (newDateOf d)) (date <$> b :: B) ->
  exists f l,
    newDateOf (firstDateOf b (b :: B)) = Some f
    /\ newDateOf (lastDateOf b (b :: B)) = Some l
    /\ updateMetadata tkr (b :: B) w
       = (Ok tt,
          setMetadata (<[tkr := mkMetaRow f l (clock w) "eod"
                                  (Z.of_nat (length rows))]>
                         (stock_metadata w)) w).
Proof.
  intros Hfile Hdates.
  assert (Hin : forall d, d ∈ date b :: (date <$> b :: B) ->
                          is_Some (newDateOf d)).
  { intros d Hd. rewrite Forall_forall in Hdates. apply Hdates.
    apply elem_of_cons in Hd as [-> | Hd]; [left | exact Hd]. }
  destruct (Hin _ (firstDateOf_elem_of b (b :: B))) as [f Hf].
  destruct (Hin _ (lastDateOf_elem_of b (b :: B))) as [l Hl].
  exists f, l. split; [exact Hf|]. split; [exact Hl|].
  unfold updateMetadata, bind, get. rewrite Hfile, Hf, Hl. reflexivity.
Qed.

Lemma bind_ok {A B} (m : M A) (k : A -> M B) (w w' : World) (a : A) :
  m w = (Ok a, w') -> bind m k w = k a w'.
Proof. intros Hm. unfold bind. rewrite Hm. reflexivity. Qed.

Lemma bind_err {A B} (m : M A) (k : A -> M B) (w w' : World) msg :
  m w = (Err msg, w') -> bind m k w = (Err msg, w').
Proof. intros Hm. unfold bind. rewrite Hm. reflexivity. Qed.

Lemma mergeParquet_existing path (data : list (RowOf DateValue)) rows A
    (w : World) :
  data <> [] ->
  mapM castRow data = Some rows ->
  files w !! path = Some A ->
  mergeParquet path data None w
  = (Ok tt,
     setFiles (foldl applyOp (files w)
                 [ CopyTo (path ++ ".tmp")%string (mergeQuery A rows);
                   Rename (path ++ ".tmp")%string path ]) w).
Proof.
  intros Hne Hcast Hfile.
  destruct data as [|d data]; [congruence|].
  unfold mergeParquet, bind, insertValues. rewrite Hcast.
  unfold ret, get, runOps, modify, mergeParquetOps. rewrite Hfile.
  reflexivity.
Qed.

Lemma merge_ops_result path merged (fs : gmap string (list Row)) :
  foldl applyOp fs [ CopyTo (path ++ ".tmp")%string merged;
                     Rename (path ++ ".tmp")%string path ]
  !! path = Some merged.
Proof.
  simpl. rewrite lookup_insert_eq. apply lookup_insert_eq.
Qed.

(** What [mergeDaily] leaves behind for a symbol that has a file: the
    merged rows in the file, and a row of [stock_metadata] whose dates are
    the first and the last date of the incoming batch and whose count is
    the number of rows of the file. *)
Lemma mergeDaily_run tkr (A : list Row) (b : OHLCV) (B : list OHLCV)
    (rowsB : list Row) (w : World) :
  files w !! getParquetPath tkr = Some A ->
  mapM castRow (toStorage (clock w) <$> b :: B) = Some rowsB ->
  exists f l,
    newDateOf (firstDateOf b (b :: B)) = Some f
    /\ newDateOf (lastDateOf b (b :: B)) = Some l
    /\ mergeDaily tkr (b :: B) w
       = (Ok tt,
          setMetadata
            (<[tkr := mkMetaRow f l (clock w) "eod"
                        (Z.of_nat (length (mergeQuery A rowsB)))]>
               (stock_metadata w))
            (setFiles
               (foldl applyOp (files w)
                  [ CopyTo (getParquetPath tkr ++ ".tmp")%string
                           (mergeQuery A rowsB);
                    Rename (getParquetPath tkr ++ ".tmp")%string
                           (getParquetPath tkr) ]) w)).
Proof.
  intros Hfile Hcast.
  set (path := getParquetPath tkr) in *.
  assert (Hne : toStorage (clock w) <$> b :: B <> []) by discriminate.
  assert (Hmerge := mergeParquet_existing path
                      (toStorage (clock w) <$> b :: B) rowsB A w
                      Hne Hcast Hfile).
  set (w1 := setFiles _ w) in *.
  assert (Hfile1 : files w1 !! path = Some (mergeQuery A rowsB))
    by apply merge_ops_result.
  assert (Hdates : Forall (fun d => is_Some (newDateOf d)) (date <$> b :: B)).
  { apply cast_dates in Hcast. rewrite Forall_forall. intros d Hd.
    apply (list_elem_of_fmap_2 newDateOf) in Hd. rewrite Hcast in Hd.
    apply list_elem_of_fmap in Hd as (t & -> & _). eauto. }
  destruct (updateMetadata_ok tkr b B _ w1 Hfile1 Hdates)
    as (f & l & Hf & Hl & Hmeta).
  exists f, l. split; [exact Hf|]. split; [exact Hl|].
  transitivity
    (bind (mergeParquet path (toStorage (clock w) <$> b :: B) None)
          (fun _ => updateMetadata tkr (b :: B)) w); [reflexivity|].
  rewrite (bind_ok _ _ _ _ _ Hmerge). exact Hmeta.
Qed.


End StoreProperties.

(** ** What the methods of the store leave alone *)

Create HintDb frame.

Section Frames.
Context `{JSNumber}.
Context {X : Type} (proj : World -> X).

Lemma keeps_ret {A} (a : A) : keeps proj (ret a).
Proof. intros w. reflexivity. Qed.

Lemma keeps_throw {A} msg : keeps proj (throw (A := A) msg).
Proof. intros w. reflexivity. Qed.

Lemma keeps_get : keeps proj get.
Proof. intros w. reflexivity. Qed.

Lemma keeps_bind {A B} (m : M A) (k : A -> M B) :
  keeps proj m -> (forall a, keeps proj (k a)) -> keeps proj (bind m k).
Proof.
  intros Hm Hk w. unfold bind. specialize (Hm w).
  destruct (m w) as [[a | e] w1]; simpl in *; [|exact Hm].
  rewrite (Hk a w1). exact Hm.
Qed.

Lemma keeps_modify (f : World -> World) :
  (forall w, proj (f w) = proj w) -> keeps proj (modify f).
Proof. intros Hf w. apply Hf. Qed.

Lemma keeps_tryCatch {A} (body : M A) (handler : string -> M A) :
  keeps proj body -> (forall e, keeps proj (handler e)) ->
  keeps proj (tryCatch body handler).
Proof.
  intros Hb Hh w. unfold tryCatch. specialize (Hb w).
  destruct (body w) as [[a | e] w1]; simpl in *; [exact Hb|].
  rewrite (Hh e w1). exact Hb.
Qed.

End Frames.

#[global] Hint Resolve keeps_ret keeps_throw keeps_get keeps_bind
  keeps_modify keeps_tryCatch : frame.
#[global] Hint Extern 1 (_ = _) => reflexivity : frame.

Ltac frame :=
  repeat first
    [ progress intros
    | solve [auto 1 with frame nocore]
    | apply keeps_bind
    | apply keeps_ret
    | apply keeps_throw
    | apply keeps_get
    | apply keeps_tryCatch
    | apply keeps_modify; intros; reflexivity
    | case_match ];
  eauto with frame.

Section StoreFrames.
Context `{JSNumber}.

(** The methods of the store issue no request to the price API. *)
Lemma writeDaily_keeps_requests tkr data : keeps requests (writeDaily tkr data).
Proof.
  unfold writeDaily, writeParquet, updateMetadata, insertValues, runOps. frame.
Qed.

Lemma mergeDaily_keeps_requests tkr data : keeps requests (mergeDaily tkr data).
Proof.
  unfold mergeDaily, mergeParquet, updateMetadata, insertValues, runOps. frame.
Qed.

(** Reading the store changes nothing at all. *)
Lemma exists_pure tkr : keeps id (exists_ tkr).
Proof. unfold exists_. frame. Qed.

Lemma getMetadata_pure tkr : keeps id (getMetadata tkr).
Proof. unfold getMetadata. frame. Qed.

Lemma getLastUpdate_pure tkr : keeps id (getLastUpdate tkr).
Proof. unfold getLastUpdate, getMetadata. frame. Qed.

Lemma getDaily_pure tkr s e : keeps id (getDaily tkr s e).
Proof. unfold getDaily. frame. Qed.

Lemma log_keeps_requests l : keeps requests (log l).
Proof. unfold log. frame. Qed.

End StoreFrames.

(** ** The file operations of a write and of a merge *)

Section FileOperations.
Context `{JSNumber}.

(** The file operations listed for [writeDaily] and [mergeDaily] are the
    ones the methods run. *)
Lemma bind_keeps_snd {X A B} (proj : World -> X) (m : M A) (k : A -> M B)
    (w : World) :
  (forall a, keeps proj (k a)) ->
  proj (snd (bind m k w)) = proj (snd (m w)).
Proof.
  intros Hk. unfold bind.
  destruct (m w) as [[a | e] w1]; simpl; [apply Hk | reflexivity].
Qed.

Lemma updateMetadata_keeps_files tkr data :
  keeps files (updateMetadata tkr data).
Proof. unfold updateMetadata. frame. Qed.

Lemma writeDaily_files tkr data (w : World) :
  files (snd (writeDaily tkr data w))
  = foldl applyOp (files w) (writeDailyOps tkr data w).
Proof.
  unfold writeDailyOps. destruct data as [|b B]; [reflexivity|].
  transitivity
    (files (snd (bind (writeParquet (toStorage (clock w) <$> b :: B)
                         (getParquetPath tkr) true)
                      (fun _ => updateMetadata tkr (b :: B)) w)));
    [reflexivity|].
  rewrite bind_keeps_snd by (intros _; apply updateMetadata_keeps_files).
  unfold writeParquet. cbn [negb andb].
  unfold bind, insertValues.
  destruct (mapM castRow _) as [rows|]; reflexivity.
Qed.

Lemma mergeDaily_files tkr data (w : World) :
  files (snd (mergeDaily tkr data w))
  = foldl applyOp (files w) (mergeDailyOps tkr data w).
Proof.
  unfold mergeDailyOps. destruct data as [|b B]; [reflexivity|].
  transitivity
    (files (snd (bind (mergeParquet (getParquetPath tkr)
                         (toStorage (clock w) <$> b :: B) None)
                      (fun _ => updateMetadata tkr (b :: B)) w)));
    [reflexivity|].
  rewrite bind_keeps_snd by (intros _; apply updateMetadata_keeps_files).
  change (mergeParquet (getParquetPath tkr) (toStorage (clock w) <$> b :: B)
            None w)
    with (bind (insertValues (toStorage (clock w) <$> b :: B))
            (fun rows => bind get (fun w0 =>
               runOps (mergeParquetOps (files w0) (getParquetPath tkr)
                         rows None))) w).
  unfold bind, insertValues.
  destruct (mapM castRow _) as [rows|]; reflexivity.
Qed.

Lemma append_tmp_differs (path : string) : (path ++ ".tmp")%string <> path.
Proof.
  induction path as [|c path IH]; simpl; [discriminate|].
  intros [= Heq]. exact (IH Heq).
Qed.

(** A merge into an existing file is safe against a crash: whenever the run
    stops, the file of the symbol holds the rows it had or the merged rows. *)
Lemma merge_crash_safe (fs fs' : gmap string (list Row)) path A rows :
  fs !! path = Some A ->
  fs' ∈ crashStates fs (mergeParquetOps fs path rows None) ->
  fs' !! path = Some A \/ fs' !! path = Some (mergeQuery A rows).
Proof.
  intros Hfile. unfold mergeParquetOps. rewrite Hfile.
  cbn [default crashStates interrupted applyOp app].
  rewrite lookup_insert_eq.
  pose proof (append_tmp_differs path) as Hne.
  rewrite !elem_of_cons, elem_of_app, list_elem_of_fmap, !elem_of_cons.
  intros [-> | [(k & -> & _) | [-> | [-> | Hnil]]]].
  - left. exact Hfile.
  - left. rewrite lookup_insert_ne by exact Hne. exact Hfile.
  - left. rewrite lookup_insert_ne by exact Hne. exact Hfile.
  - right. apply lookup_insert_eq.
  - inversion Hnil.
Qed.

End FileOperations.

(** ** The fetch that the planner issues *)

Lemma upperChar_idempotent c : Stocker.upperChar (Stocker.upperChar c) = Stocker.upperChar c.
Proof. destruct c as [[] [] [] [] [] [] [] []]; reflexivity. Qed.

Lemma toUpperCase_idempotent s :
  Stocker.toUpperCase (Stocker.toUpperCase s) = Stocker.toUpperCase s.
Proof.
  induction s as [|c s IH]; simpl; [reflexivity|].
  rewrite upperChar_idempotent, IH. reflexivity.
Qed.

Section PlannerProperties.
Context `{JSNumber} `{!DataService}.
Import Stocker.

Lemma exists_run tkr (w : World) :
  exists_ tkr w = (Ok (existsSync (getParquetPath tkr) (files w)), w).
Proof. reflexivity. Qed.

Lemma getDaily_run symbol (w : World) :
  getDaily symbol None None w = (Ok (persistedSeries symbol w), w).
Proof.
  unfold persistedSeries, getDaily, bind, get, ret.
  destruct (files w !! getParquetPath symbol); reflexivity.
Qed.

Lemma updateAndExists_run options symbol (w : World) :
  updateAndExists options symbol w
  = (Ok (o_update options && existsSync (getParquetPath symbol) (files w)), w).
Proof. unfold updateAndExists. destruct (o_update options); reflexivity. Qed.

Lemma updateAndExists_keeps_requests options symbol :
  keeps requests (updateAndExists options symbol).
Proof. intros w. rewrite updateAndExists_run. reflexivity. Qed.

Hint Resolve writeDaily_keeps_requests mergeDaily_keeps_requests
  log_keeps_requests updateAndExists_keeps_requests : frame.

(** [fetch] asks the price API once, for its own [start] and [end]. *)
Lemma fetch_issues tkr options (w : World) :
  issues (fetch tkr options) w
    [ mkRequest (toUpperCase tkr) (o_start options) (o_end options) ].
Proof.
  unfold issues, fetch.
  rewrite (bind_ok _ _ _ _ _ (updateAndExists_run _ _ w)).
  match goal with
  | |- context [bind (log ?l) _ w] =>
      rewrite (bind_ok (log l) _ w (addLine l w) tt) by reflexivity
  end.
  unfold bind at 1, callFetchDaily.
  destruct (fetchDaily _ _ _) as [data | e]; [|reflexivity].
  match goal with
  | |- requests (snd (?tail ?w2)) = _ =>
      assert (Hk : keeps requests tail); [|rewrite (Hk w2); reflexivity]
  end.
  frame.
Qed.

Lemma issues_bind_keeps {A B} (m : M A) (k : A -> M B) (w : World) rs :
  issues m w rs -> (forall a, keeps requests (k a)) -> issues (bind m k) w rs.
Proof.
  unfold issues, bind. intros Hm Hk.
  destruct (m w) as [[a | e] w1]; simpl in *; [|exact Hm].
  rewrite (Hk a w1). exact Hm.
Qed.

Lemma issues_after {A B} (m : M A) (k : A -> M B) (w w1 : World) a rs :
  m w = (Ok a, w1) -> requests w1 = requests w ->
  issues (k a) w1 rs -> issues (bind m k) w rs.
Proof.
  unfold issues. intros Hm Hreq Hk.
  rewrite (bind_ok _ _ _ _ _ Hm), Hk, Hreq. reflexivity.
Qed.

Lemma issues_tryCatch {A} (body : M A) handler (w : World) rs :
  issues body w rs -> (forall e, keeps requests (handler e)) ->
  issues (tryCatch body handler) w rs.
Proof.
  unfold issues, tryCatch. intros Hb Hh.
  destruct (body w) as [[a | e] w1]; simpl in *; [exact Hb|].
  rewrite (Hh e w1). exact Hb.
Qed.

Lemma keeps_issues_nothing {A} (m : M A) (w : World) :
  keeps requests m -> issues m w [].
Proof. intros Hk. unfold issues. rewrite (Hk w), app_nil_r. reflexivity. Qed.

(** The BACKFILL branch of [updateSmart]. *)
Lemma updateSmart_backfill tkr (w : World) :
  existsSync (getParquetPath (toUpperCase tkr)) (files w) = true ->
  findGaps (date <$> persistedSeries (toUpperCase tkr) w) <> [] ->
  issues (updateSmart tkr) w [ mkRequest (toUpperCase tkr) None None ].
Proof.
  intros Hex Hgaps. unfold updateSmart.
  eapply issues_after; [apply exists_run | reflexivity |].
  rewrite Hex. cbn [negb].
  eapply issues_after; [apply getDaily_run | reflexivity |].
  destruct (findGaps _) as [|g gaps]; [congruence|]. cbn [length Nat.ltb Nat.leb].
  eapply issues_after; [reflexivity | reflexivity |].
  apply (fetch_issues tkr (mkOptions None None true)).
Qed.

(** The TAIL branch of [updateSmart]. *)
Lemma updateSmart_tail tkr (w : World) lastBar lastDate :
  existsSync (getParquetPath (toUpperCase tkr)) (files w) = true ->
  findGaps (date <$> persistedSeries (toUpperCase tkr) w) = [] ->
  last (persistedSeries (toUpperCase tkr) w) = Some lastBar ->
  newDateOf (date lastBar) = Some lastDate ->
  issues (updateSmart tkr) w
    [ mkRequest (toUpperCase tkr) (Some (JSDate.toISODate (lastDate + 1))) None ].
Proof.
  intros Hex Hgaps Hlast Hdate. unfold updateSmart.
  eapply issues_after; [apply exists_run | reflexivity |].
  rewrite Hex. cbn [negb].
  eapply issues_after; [apply getDaily_run | reflexivity |].
  rewrite Hgaps, Hlast, Hdate. cbn [length Nat.ltb Nat.leb].
  apply (fetch_issues tkr (mkOptions (Some _) None true)).
Qed.

End PlannerProperties.

(** ** The fetch that the command line issues *)

Section CommandProperties.
Context `{JSNumber} `{!DataService}.
Import FetchCommand.

Lemma when_run (b : bool) l (w : World) :
  when b (log l) w = (Ok tt, if b then addLine l w else w).
Proof. destruct b; reflexivity. Qed.

Lemma getMetadata_run tkr (w : World) :
  getMetadata tkr w
  = (Ok (match stock_metadata w !! tkr with
         | Some r => Some (mkStockMetadata tkr (first_trade_date r)
                             (last_update r) (data_source r) (record_count r))
         | None => None
         end), w).
Proof. reflexivity. Qed.

Lemma getLastUpdate_run tkr (w : World) :
  getLastUpdate tkr w = (Ok (last_update <$> stock_metadata w !! tkr), w).
Proof.
  unfold getLastUpdate, bind. rewrite getMetadata_run.
  destruct (stock_metadata w !! tkr); reflexivity.
Qed.

Lemma getMetadata_keeps_requests tkr : keeps requests (getMetadata tkr).
Proof. intros w. reflexivity. Qed.

(** What [execute] does once it has decided to fetch. *)
Lemma fetchTicker_after_start (this : Flags) nt (w1 : World) s :
  issues
    (let! _ := Stocker.fetch nt (Stocker.mkOptions s (end_ this) (update this)) in
     let! metadata := getMetadata nt in
     match metadata with
     | Some m => log (SuccessfullyFetched nt (recordCount m)
                        (firstTradeDate m) (lastUpdate m))
     | None => ret tt
     end) w1 [ mkRequest (Stocker.toUpperCase nt) s (end_ this) ].
Proof.
  apply issues_bind_keeps.
  - apply (fetch_issues nt (Stocker.mkOptions s (end_ this) (update this))).
  - intros _. apply keeps_bind; [apply getMetadata_keeps_requests|].
    intros [m|]; [apply log_keeps_requests | apply keeps_ret].
Qed.

(** The start date that [execute] hands to [Stocker.fetch]. *)
Lemma fetchTicker_issues (this : Flags) nt present (w : World) :
  issues (fetchTicker this nt present) w
    [ mkRequest (Stocker.toUpperCase nt)
        (if update this && present then
           match stock_metadata w !! nt with
           | Some m => Some (dayAfter (last_update m))
           | None => start this
           end
         else start this)
        (end_ this) ].
Proof.
  unfold fetchTicker.
  destruct (update this && present).
  - eapply (issues_after _ _ w
              (match stock_metadata w !! nt with
               | Some m => if verbose this
                           then addLine (UpdatingFrom (dayAfter (last_update m))) w
                           else w
               | None => w
               end)
              (match stock_metadata w !! nt with
               | Some m => Some (dayAfter (last_update m))
               | None => start this
               end)).
    + rewrite (bind_ok _ _ _ _ _ (getLastUpdate_run nt w)).
      destruct (stock_metadata w !! nt) as [m|]; [|reflexivity].
      cbn [fmap option_fmap option_map].
      rewrite (bind_ok _ _ _ _ _ (when_run _ _ w)). reflexivity.
    + destruct (stock_metadata w !! nt); [destruct (verbose this)|]; reflexivity.
    + apply fetchTicker_after_start.
  - eapply issues_after; [reflexivity | reflexivity | apply fetchTicker_after_start].
Qed.

Lemma tryTicker_skip (this : Flags) tkr (w : World) m :
  existsSync (getParquetPath (Stocker.toUpperCase tkr)) (files w) = true ->
  update this = false -> force this = false ->
  stock_metadata w !! Stocker.toUpperCase tkr = Some m ->
  tryTicker this tkr w
  = (Ok tt,
     addLine (AlreadyExists (Stocker.toUpperCase tkr) (last_update m))
       (if verbose this
        then addLine (VerboseFetching (Stocker.toUpperCase tkr)) w else w)).
Proof.
  intros Hex Hupd Hforce Hmeta. unfold tryTicker.
  rewrite (bind_ok _ _ _ _ _ (when_run _ _ w)).
  set (w0 := if verbose this then _ else w).
  assert (Hfiles : files w0 = files w) by (subst w0; destruct (verbose this); reflexivity).
  assert (Hm : stock_metadata w0 = stock_metadata w)
    by (subst w0; destruct (verbose this); reflexivity).
  rewrite (bind_ok _ _ _ _ _ (exists_run _ w0)).
  rewrite Hfiles, Hex, Hupd, Hforce. cbn [andb negb].
  rewrite (bind_ok _ _ _ _ _ (getMetadata_run _ w0)).
  rewrite Hm, Hmeta. reflexivity.
Qed.

Lemma tryTicker_issues (this : Flags) tkr (w : World) :
  existsSync (getParquetPath (Stocker.toUpperCase tkr)) (files w) = false
  \/ update this = true \/ force this = true
  \/ stock_metadata w !! Stocker.toUpperCase tkr = None ->
  issues (tryTicker this tkr) w
    [ mkRequest (Stocker.toUpperCase tkr)
        (if update this
            && existsSync (getParquetPath (Stocker.toUpperCase tkr)) (files w)
         then
           match stock_metadata w !! Stocker.toUpperCase tkr with
           | Some m => Some (dayAfter (last_update m))
           | None => start this
           end
         else start this)
        (end_ this) ].
Proof.
  intros Hcase. unfold tryTicker.
  set (nt := Stocker.toUpperCase tkr) in *.
  set (w0 := if verbose this then addLine (VerboseFetching nt) w else w).
  assert (Hfiles : files w0 = files w) by (subst w0; destruct (verbose this); reflexivity).
  assert (Hm : stock_metadata w0 = stock_metadata w)
    by (subst w0; destruct (verbose this); reflexivity).
  assert (Hreq : requests w0 = requests w)
    by (subst w0; destruct (verbose this); reflexivity).
  assert (Hgo : issues (fetchTicker this nt (existsSync (getParquetPath nt) (files w))) w0
                  [ mkRequest nt
                      (if update this && existsSync (getParquetPath nt) (files w)
                       then match stock_metadata w !! nt with
                            | Some m => Some (dayAfter (last_update m))
                            | None => start this
                            end
                       else start this)
                      (end_ this) ]).
  { pose proof (fetchTicker_issues this nt
                  (existsSync (getParquetPath nt) (files w)) w0) as Hi.
    rewrite Hm in Hi. subst nt. rewrite toUpperCase_idempotent in Hi. exact Hi. }
  eapply issues_after; [apply when_run | exact Hreq |]. fold w0.
  eapply issues_after; [apply exists_run | reflexivity |].
  rewrite Hfiles.
  destruct (existsSync (getParquetPath nt) (files w)) eqn:Hex;
    destruct (update this) eqn:Hupd; destruct (force this) eqn:Hforce;
    cbn [andb negb]; try exact Hgo.
  destruct Hcase as [Hc | [Hc | [Hc | Hc]]]; try discriminate.
  eapply issues_after; [apply getMetadata_run | reflexivity |].
  rewrite Hm, Hc. cbn [andb] in Hgo. exact Hgo.
Qed.

Lemma executeTicker_issues (this : Flags) tkr (w : World) rs :
  issues (tryTicker this tkr) w rs -> issues (executeTicker this tkr) w rs.
Proof.
  intros Hi. unfold executeTicker. apply issues_tryCatch; [exact Hi|].
  intros e. apply log_keeps_requests.
Qed.

End CommandProperties.

(** ** The claims on planning *)

Section PlanningClaims.
Context `{JSNumber} `{!DataService}.
Import Stocker FetchCommand.

(** C5.  For a symbol with a persisted series in which the gap detector
    reports at least one gap, [updateSmart] issues its fetch with the start
    date unset (and the end date unset): the whole history is requested.
    [fetch] called with [update] set and no dates does the same. *)
Theorem backfill_fetches_from_beginning tkr (w : World) :
  existsSync (getParquetPath (toUpperCase tkr)) (files w) = true ->
  findGaps (date <$> persistedSeries (toUpperCase tkr) w) <> [] ->
  issues (updateSmart tkr) w [ mkRequest (toUpperCase tkr) None None ]
  /\ issues (fetch tkr (mkOptions None None true)) w
       [ mkRequest (toUpperCase tkr) None None ].
Proof.
  intros Hex Hgaps. split.
  - apply updateSmart_backfill; assumption.
  - apply (fetch_issues tkr (mkOptions None None true)).
Qed.

(** C4, as amended.  For a symbol with a persisted series in which the gap
    detector reports no gap, [updateSmart] issues its fetch with a start date
    exactly one day after the last date of the series, and no end date; from
    2024-01-10 that is 2024-01-11.  The command [fetch --update] without
    dates, for a symbol that has a row of [stock_metadata], starts instead
    one day after the time of the last update stored in that row. *)
Theorem tail_fetch_start tkr (w : World) lastBar lastDate :
  existsSync (getParquetPath (toUpperCase tkr)) (files w) = true ->
  findGaps (date <$> persistedSeries (toUpperCase tkr) w) = [] ->
  last (persistedSeries (toUpperCase tkr) w) = Some lastBar ->
  newDateOf (date lastBar) = Some lastDate ->
  issues (updateSmart tkr) w
    [ mkRequest (toUpperCase tkr) (Some (JSDate.toISODate (lastDate + 1))) None ]
  /\ (JSDate.newDate "2024-01-10" = Some lastDate ->
      JSDate.toISODate (lastDate + 1) = "2024-01-11"%string)
  /\ (forall (this : Flags) m,
        update this = true -> start this = None -> end_ this = None ->
        stock_metadata w !! toUpperCase tkr = Some m ->
        issues (executeTicker this tkr) w
          [ mkRequest (toUpperCase tkr)
              (Some (dayAfter (last_update m))) None ]).
Proof.
  intros Hex Hgaps Hlast Hdate.
  split; [apply (updateSmart_tail tkr w lastBar lastDate); assumption|].
  split; [intros [= <-]; reflexivity|].
  intros this m Hupd Hstart Hend Hmeta.
  apply executeTicker_issues.
  pose proof (tryTicker_issues this tkr w (or_intror (or_introl Hupd))) as Hi.
  rewrite Hupd, Hex, Hmeta, Hend in Hi. exact Hi.
Qed.

(** C9.  An empty incoming series makes [mergeDaily] return at once, with
    the world as it was; and when the price API answers a fetch with no
    record, [fetch] ends without an error and leaves the files, the table
    [stock_metadata] (its time of last update included) and the registry as
    they were. *)
Theorem empty_input_changes_nothing tkr options (w : World) :
  fetchDaily (toUpperCase tkr) (o_start options) (o_end options) = Ok [] ->
  mergeDaily tkr [] w = (Ok tt, w)
  /\ exists w', fetch tkr options w = (Ok tt, w')
                /\ sameStore w w'
                /\ stock_metadata w' !! toUpperCase tkr
                   = stock_metadata w !! toUpperCase tkr.
Proof.
  intros Hempty. split; [reflexivity|].
  eexists. split.
  - unfold fetch.
    rewrite (bind_ok _ _ _ _ _ (updateAndExists_run _ _ w)).
    match goal with
    | |- context [bind (log ?l) _ w] =>
        rewrite (bind_ok (log l) _ w (addLine l w) tt) by reflexivity
    end.
    unfold bind at 1, callFetchDaily. rewrite Hempty. reflexivity.
  - split; [repeat split|]; reflexivity.
Qed.

(** The skip, where the command performs it.  For a symbol whose persisted
    data exists and which has a row of [stock_metadata], the command without
    [--update], without [--force] and without dates issues no fetch, changes
    nothing in the store, and ends by telling the caller that the symbol
    already exists, with the time of its last update. *)
Lemma existing_symbol_skipped (this : Flags) tkr (w : World) rows m :
  files w !! getParquetPath (toUpperCase tkr) = Some rows ->
  stock_metadata w !! toUpperCase tkr = Some m ->
  update this = false -> force this = false ->
  start this = None -> end_ this = None ->
  exists w', executeTicker this tkr w = (Ok tt, w')
             /\ requests w' = requests w
             /\ sameStore w w'
             /\ last (console w')
                = Some (AlreadyExists (toUpperCase tkr) (last_update m)).
Proof.
  intros Hfile Hmeta Hupd Hforce _ _.
  assert (Hex : existsSync (getParquetPath (toUpperCase tkr)) (files w) = true)
    by (unfold existsSync; rewrite Hfile; reflexivity).
  eexists. split.
  - unfold executeTicker, tryCatch.
    rewrite (tryTicker_skip this tkr w m Hex Hupd Hforce Hmeta). reflexivity.
  - destruct (verbose this); (split; [reflexivity|]);
      (split; [repeat split; reflexivity|]); cbn [console addLine];
      apply last_snoc.
Qed.

End PlanningClaims.

(** ** Concrete runs *)

Section ConcreteRuns.
#[local] Existing Instance IntNumber.
Import Stocker FetchCommand.

Example exampleWorld_times :
  toISOString 1709294400000 = "2024-03-01T12:00:00.000Z"%string
  /\ toISOString (clock exampleWorld) = "2024-03-04T09:00:00.000Z"%string
  /\ JSDate.toISODate 19730 = "2024-01-08"%string
  /\ JSDate.toISODate 19733 = "2024-01-11"%string.
Proof. vm_compute. auto. Qed.


Lemma backfill_fetches_from_beginning_witness :
  issues (updateSmart (H0 := replay []) "aapl") gapWorld
    [ mkRequest "AAPL" None None ]
  /\ issues (fetch (H0 := replay []) "aapl" (mkOptions None None true))
       gapWorld [ mkRequest "AAPL" None None ].
Proof.
  apply (backfill_fetches_from_beginning (H0 := replay []) "aapl" gapWorld).
  - vm_compute. reflexivity.
  - vm_compute. discriminate.
Defined.

Lemma tail_fetch_start_witness :
  issues (updateSmart (H0 := replay []) "aapl") exampleWorld
    [ mkRequest "AAPL" (Some "2024-01-11"%string) None ].
Proof.
  apply (tail_fetch_start (H0 := replay []) "aapl" exampleWorld
           (fromStorage (storedBar 19732 12 "2024-03-01T12:00:00.000Z")) 19732).
  - vm_compute. reflexivity.
  - vm_compute. reflexivity.
  - vm_compute. reflexivity.
  - reflexivity.
Defined.

(** The claim C4 as it is stated, read on the command [fetch --update]:
    the series of AAPL ends on 2024-01-10 and has no gap, and the fetch
    starts on 2024-03-02, the day after the last update, not on 2024-01-11. *)
Lemma tail_fetch_start_counterexample :
  ~ (forall (this : Flags) tkr (w : World) lastBar lastDate,
       update this = true -> start this = None -> end_ this = None ->
       existsSync (getParquetPath (toUpperCase tkr)) (files w) = true ->
       findGaps (date <$> persistedSeries (toUpperCase tkr) w) = [] ->
       last (persistedSeries (toUpperCase tkr) w) = Some lastBar ->
       newDateOf (date lastBar) = Some lastDate ->
       issues (executeTicker (H0 := replay []) this tkr) w
         [ mkRequest (toUpperCase tkr)
             (Some (JSDate.toISODate (lastDate + 1))) None ]).
Proof.
  intros Hclaim.
  specialize (Hclaim (mkFlags None None true false false) "AAPL"%string
                exampleWorld
                (fromStorage (storedBar 19732 12 "2024-03-01T12:00:00.000Z"))
                19732 eq_refl eq_refl eq_refl).
  assert (Hrun : issues (executeTicker (H0 := replay [])
                           (mkFlags None None true false false) "AAPL")
                   exampleWorld
                   [ mkRequest "AAPL" (Some "2024-01-11"%string) None ]).
  { apply Hclaim; vm_compute; reflexivity. }
  vm_compute in Hrun. discriminate Hrun.
Qed.

Lemma empty_input_changes_nothing_witness :
  mergeDaily "aapl" [] exampleWorld = (Ok tt, exampleWorld)
  /\ exists w', fetch (H0 := replay []) "aapl" noOptions exampleWorld
                = (Ok tt, w')
                /\ sameStore exampleWorld w'
                /\ stock_metadata w' !! "AAPL"%string
                   = stock_metadata exampleWorld !! "AAPL"%string.
Proof.
  apply (empty_input_changes_nothing (H0 := replay []) "aapl" noOptions
           exampleWorld).
  reflexivity.
Defined.

Lemma existing_symbol_skipped_witness :
  exists w',
    executeTicker (H0 := replay incoming)
      (mkFlags None None false false false) "aapl" exampleWorld = (Ok tt, w')
    /\ requests w' = requests exampleWorld
    /\ sameStore exampleWorld w'
    /\ last (console w') = Some (AlreadyExists "AAPL" 1709294400000).
Proof.
  apply (existing_symbol_skipped (H0 := replay incoming)
           (mkFlags None None false false false) "aapl" exampleWorld
           exampleRows (mkMetaRow 19730 19732 1709294400000 "eod" 3)).
  - vm_compute. reflexivity.
  - vm_compute. reflexivity.
  - reflexivity.
  - reflexivity.
  - reflexivity.
  - reflexivity.
Defined.

(** The skip does not follow from the file alone: the file of AAPL exists,
    the command has no [--update], no [--force] and no dates, and yet a fetch
    is issued, because the table [stock_metadata] has no row for AAPL. *)
Lemma existing_symbol_skipped_counterexample :
  ~ (forall (this : Flags) tkr (w : World) rows,
       files w !! getParquetPath (toUpperCase tkr) = Some rows ->
       update this = false -> force this = false ->
       start this = None -> end_ this = None ->
       requests (snd (executeTicker (H0 := replay incoming)
                        this tkr w))
       = requests w).
Proof.
  intros Hclaim.
  specialize (Hclaim (mkFlags None None false false false) "AAPL"%string
                filesOnlyWorld exampleRows).
  assert (Hrun : requests
                   (snd (executeTicker (H0 := replay incoming)
                           (mkFlags None None false false false) "AAPL"
                           filesOnlyWorld))
                 = requests filesOnlyWorld).
  { apply Hclaim; vm_compute; reflexivity. }
  vm_compute in Hrun. discriminate Hrun.
Qed.

(** C10.  The file of AAPL exists and the command has no [--update], no
    [--force] and no dates, so the symbol should be skipped and the caller
    told so.  With no row for AAPL in the table [stock_metadata] the command
    instead requests the whole history, replaces the three rows of the file
    by the two rows of the answer, and prints no line that says that the
    symbol already exists. *)
Theorem existing_symbol_refetched :
  let this := mkFlags None None false false false in
  files filesOnlyWorld !! getParquetPath "AAPL" = Some exampleRows
  /\ exists w',
       executeTicker (H0 := replay incoming) this "AAPL" filesOnlyWorld
       = (Ok tt, w')
       /\ requests w'
          = requests filesOnlyWorld ++ [ mkRequest "AAPL" None None ]
       /\ files w' !! getParquetPath "AAPL" = Some incomingRows
       /\ Forall (fun line => forall t u, line <> AlreadyExists t u)
                 (console w').
Proof.
  cbv zeta. split; [apply lookup_singleton_eq|].
  eexists. split; [vm_compute; reflexivity|].
  split; [vm_compute; reflexivity|].
  split; [vm_compute; reflexivity|].
  repeat constructor; discriminate.
Qed.

(** C6.  The command [fetch AAPL --update --start 2020-01-01], for a symbol
    that exists and has a row of [stock_metadata], issues its fetch with the
    start date 2024-03-02, the day after the last update, and not with the
    start date 2020-01-01 that the caller supplied. *)
Theorem fetch_command_update_replaces_explicit_start :
  issues (executeTicker (H0 := replay [])
            (mkFlags (Some "2020-01-01"%string) None true false false) "AAPL")
    exampleWorld
    [ mkRequest "AAPL" (Some "2024-03-02"%string) None ].
Proof. vm_compute. reflexivity. Qed.

(** C7.  After [mergeDaily] of the bar of 2024-01-11 into the series of
    AAPL, which starts on 2024-01-08 (day 19730), the file holds four rows
    with the days 19730 to 19733, and the row of [stock_metadata] has the
    right count, 4, but its first date is day 19733, the first date of the
    incoming batch, not the first date of the persisted series. *)
Theorem mergeDaily_metadata_describes_batch :
  let w' := snd (mergeDaily "AAPL" [bar "2024-01-11" 13] exampleWorld) in
  r_date <$> default [] (files w' !! getParquetPath "AAPL")
  = [19730; 19731; 19732; 19733]
  /\ stock_metadata w' !! "AAPL"%string
     = Some (mkMetaRow 19733 19733 1709542800000 "eod" 4).
Proof. vm_compute. split; reflexivity. Qed.

(** After [writeDaily], where the batch is the whole series, the row of
    [stock_metadata] has the first date, the last date and the count of the
    file. *)
Example writeDaily_metadata_example :
  let w' := snd (writeDaily "MSFT" incoming exampleWorld) in
  r_date <$> default [] (files w' !! getParquetPath "MSFT") = [19732; 19733]
  /\ stock_metadata w' !! "MSFT"%string
     = Some (mkMetaRow 19732 19733 1709542800000 "eod" 2).
Proof. vm_compute. split; reflexivity. Qed.

(** C8.  [writeDaily] runs one file operation, a COPY to the file of the
    symbol itself, with no temporary file and no rename, for a symbol that
    has no file yet (MSFT) as for one whose file it overwrites (AAPL).  A
    crash inside that COPY leaves a file with one row where a reader should
    find no file yet or the two rows written (MSFT), the three old rows or
    the two new ones (AAPL). *)
Theorem writeDaily_copies_in_place :
  let data := [bar "2024-01-09" 30; bar "2024-01-10" 31] in
  let row1 := storedBar 19731 30 "2024-03-04T09:00:00.000Z" in
  let row2 := storedBar 19732 31 "2024-03-04T09:00:00.000Z" in
  let fs := files exampleWorld in
  (writeDailyOps "MSFT" data exampleWorld
   = [ CopyTo (getParquetPath "MSFT") [row1; row2] ]
   /\ fs !! getParquetPath "MSFT" = None
   /\ crashStates fs (writeDailyOps "MSFT" data exampleWorld) !! 2%nat
      = Some (<[getParquetPath "MSFT" := [row1]]> fs))
  /\ (writeDailyOps "AAPL" data exampleWorld
      = [ CopyTo (getParquetPath "AAPL") [row1; row2] ]
      /\ fs !! getParquetPath "AAPL" = Some exampleRows
      /\ crashStates fs (writeDailyOps "AAPL" data exampleWorld) !! 2%nat
         = Some (<[getParquetPath "AAPL" := [row1]]> fs)).
Proof.
  cbv zeta. repeat split; vm_compute; reflexivity.
Qed.

End ConcreteRuns.

(* ================================================================== *)
(** * Further properties of the store *)
(* ================================================================== *)

Lemma string_length_app (a b : string) :
  String.length (a ++ b) = (String.length a + String.length b)%nat.
Proof. induction a as [|c a IH]; simpl; [reflexivity | rewrite IH; reflexivity]. Qed.

Lemma string_app_cancel_r (s : string) : forall a b : string,
  (a ++ s = b ++ s)%string -> a = b.
Proof.
  induction a as [|c a IH]; intros [|c' b] Heq; simpl in Heq.
  - reflexivity.
  - apply (f_equal String.length) in Heq.
    change (String.length s = S (String.length (b ++ s))) in Heq.
    rewrite string_length_app in Heq. lia.
  - apply (f_equal String.length) in Heq.
    change (S (String.length (a ++ s)) = String.length s) in Heq.
    rewrite string_length_app in Heq. lia.
  - injection Heq as -> Heq. f_equal. apply IH. exact Heq.
Qed.

Lemma getParquetPath_inj (a b : string) :
  getParquetPath a = getParquetPath b -> a = b.
Proof.
  unfold getParquetPath. intros Heq.
  apply (inj (String.app stocksDir)) in Heq.
  apply (inj (String.app "/")) in Heq.
  apply string_app_cancel_r in Heq. exact Heq.
Qed.

Lemma lastChar_app (a : string) c (s : string) :
  lastChar (a ++ String c s) = lastChar (String c s).
Proof.
  induction a as [|c' a IH]; [reflexivity|].
  change (lastChar (String c' (a ++ String c s)) = lastChar (String c s)).
  destruct (a ++ String c s)%string eqn:E.
  - destruct a; discriminate.
  - rewrite <- IH. reflexivity.
Qed.

(** The temporary file of a merge is the file of no symbol. *)
Lemma tmp_is_no_parquet_path (a b : string) :
  (getParquetPath a ++ ".tmp")%string <> getParquetPath b.
Proof.
  intros Heq. apply (f_equal lastChar) in Heq.
  rewrite lastChar_app in Heq.
  change (getParquetPath b)
    with ((stocksDir ++ "/" ++ b) ++ "/daily.parquet")%string in Heq.
  rewrite lastChar_app in Heq. discriminate Heq.
Qed.

Section MoreStore.
Context `{JSNumber}.

Lemma writeParquet_run (data : list (RowOf DateValue)) rows path (w : World) :
  mapM castRow data = Some rows ->
  writeParquet data path true w
  = (Ok tt, setFiles (<[path := rows]> (files w)) w).
Proof.
  intros Hcast. unfold writeParquet. cbn [negb andb].
  unfold bind, insertValues. rewrite Hcast. reflexivity.
Qed.

Lemma cast_dates_Forall now (B : list OHLCV) (rows : list Row) :
  mapM castRow (toStorage now <$> B) = Some rows ->
  Forall (fun d => is_Some (newDateOf d)) (date <$> B).
Proof.
  intros Hcast. apply cast_dates in Hcast. rewrite Forall_forall. intros d Hd.
  apply (list_elem_of_fmap_2 newDateOf) in Hd. rewrite Hcast in Hd.
  apply list_elem_of_fmap in Hd as (t & -> & _). eauto.
Qed.

(** What [writeDaily] leaves behind: the rows of the batch, in the order
    given, as the whole file, and a row of [stock_metadata]. *)
Lemma writeDaily_run tkr (b : OHLCV) (B : list OHLCV) (rows : list Row)
    (w : World) :
  mapM castRow (toStorage (clock w) <$> b :: B) = Some rows ->
  exists f l,
    newDateOf (firstDateOf b (b :: B)) = Some f
    /\ newDateOf (lastDateOf b (b :: B)) = Some l
    /\ writeDaily tkr (b :: B) w
       = (Ok tt,
          setMetadata
            (<[tkr := mkMetaRow f l (clock w) "eod" (Z.of_nat (length rows))]>
               (stock_metadata w))
            (setFiles (<[getParquetPath tkr := rows]> (files w)) w)).
Proof.
  intros Hcast.
  pose proof (writeParquet_run _ rows (getParquetPath tkr) w Hcast) as Hwrite.
  set (w1 := setFiles _ w) in *.
  assert (Hfile1 : files w1 !! getParquetPath tkr = Some rows)
    by apply lookup_insert_eq.
  destruct (updateMetadata_ok tkr b B rows w1 Hfile1
              (cast_dates_Forall _ _ _ Hcast)) as (f & l & Hf & Hl & Hmeta).
  exists f, l. split; [exact Hf|]. split; [exact Hl|].
  transitivity
    (bind (writeParquet (toStorage (clock w) <$> b :: B) (getParquetPath tkr) true)
          (fun _ => updateMetadata tkr (b :: B)) w); [reflexivity|].
  rewrite (bind_ok _ _ _ _ _ Hwrite). exact Hmeta.
Qed.

Lemma writeDaily_fails tkr (data : list OHLCV) (w : World) :
  mapM castRow (toStorage (clock w) <$> data) = None ->
  writeDaily tkr data w = (Err "Conversion Error: invalid date", w).
Proof.
  intros Hcast. destruct data as [|b B]; [discriminate|].
  transitivity
    (bind (writeParquet (toStorage (clock w) <$> b :: B) (getParquetPath tkr) true)
          (fun _ => updateMetadata tkr (b :: B)) w); [reflexivity|].
  unfold writeParquet. cbn [negb andb].
  unfold bind, insertValues. rewrite Hcast. reflexivity.
Qed.

Lemma mergeDaily_fails tkr (data : list OHLCV) (w : World) :
  mapM castRow (toStorage (clock w) <$> data) = None ->
  mergeDaily tkr data w = (Err "Conversion Error: invalid date", w).
Proof.
  intros Hcast. destruct data as [|b B]; [discriminate|].
  transitivity
    (bind (bind (insertValues (toStorage (clock w) <$> b :: B))
             (fun rows => bind get (fun w0 =>
                runOps (mergeParquetOps (files w0) (getParquetPath tkr)
                          rows None))))
          (fun _ => updateMetadata tkr (b :: B)) w); [reflexivity|].
  unfold bind, insertValues. rewrite Hcast. reflexivity.
Qed.

Lemma mergeDaily_as_write tkr (data : list OHLCV) (w : World) :
  files w !! getParquetPath tkr = None ->
  mergeDaily tkr data w = writeDaily tkr data w.
Proof.
  intros Hfile. destruct data as [|b B]; [reflexivity|].
  transitivity
    (bind (bind (insertValues (toStorage (clock w) <$> b :: B))
             (fun rows => bind get (fun w0 =>
                runOps (mergeParquetOps (files w0) (getParquetPath tkr)
                          rows None))))
          (fun _ => updateMetadata tkr (b :: B)) w); [reflexivity|].
  symmetry.
  transitivity
    (bind (bind (insertValues (toStorage (clock w) <$> b :: B))
             (fun rows => runOps (writeParquetOps rows (getParquetPath tkr))))
          (fun _ => updateMetadata tkr (b :: B)) w); [reflexivity|].
  unfold bind at 2 4, insertValues.
  destruct (mapM castRow _) as [rows|]; [|reflexivity].
  unfold bind, ret, get, mergeParquetOps. cbn [fst snd].
  rewrite Hfile. reflexivity.
Qed.

End MoreStore.

Section StoreInvariants.
Context `{JSNumber}.

(** The two ways a call of [writeDaily] ends: with the world as it was, or
    with the batch as the file and a new row of [stock_metadata]. *)
Lemma writeDaily_cases tkr (data : list OHLCV) (w : World) :
  snd (writeDaily tkr data w) = w
  \/ exists rows row,
       writeDaily tkr data w
       = (Ok tt,
          setMetadata (<[tkr := row]> (stock_metadata w))
            (setFiles (<[getParquetPath tkr := rows]> (files w)) w))
       /\ data <> []
       /\ mapM castRow (toStorage (clock w) <$> data) = Some rows
       /\ record_count row = Z.of_nat (length rows)
       /\ last_update row = clock w.
Proof.
  destruct data as [|b B]; [left; reflexivity|].
  destruct (mapM castRow (toStorage (clock w) <$> b :: B)) as [rows|] eqn:Hcast.
  - right. destruct (writeDaily_run tkr b B rows w Hcast) as (f & l & _ & _ & Hrun).
    exists rows, (mkMetaRow f l (clock w) "eod" (Z.of_nat (length rows))).
    split; [exact Hrun|]. split; [discriminate|]. auto.
  - left. rewrite (writeDaily_fails tkr _ w Hcast). reflexivity.
Qed.

(** The ways a call of [mergeDaily] ends: with the world as it was, as a
    write (no file before), or with the merged rows as the file, no
    temporary file left, and a new row of [stock_metadata]. *)
Lemma mergeDaily_cases tkr (data : list OHLCV) (w : World) :
  snd (mergeDaily tkr data w) = w
  \/ (files w !! getParquetPath tkr = None
      /\ mergeDaily tkr data w = writeDaily tkr data w)
  \/ exists A rows row,
       files w !! getParquetPath tkr = Some A
       /\ mapM castRow (toStorage (clock w) <$> data) = Some rows
       /\ mergeDaily tkr data w
          = (Ok tt,
             setMetadata (<[tkr := row]> (stock_metadata w))
               (setFiles
                  (<[getParquetPath tkr := mergeQuery A rows]>
                     (delete (getParquetPath tkr ++ ".tmp")%string
                        (<[(getParquetPath tkr ++ ".tmp")%string
                             := mergeQuery A rows]> (files w)))) w))
       /\ record_count row = Z.of_nat (length (mergeQuery A rows))
       /\ last_update row = clock w.
Proof.
  destruct (files w !! getParquetPath tkr) as [A|] eqn:Hfile;
    [|right; left; split; [reflexivity | apply mergeDaily_as_write, Hfile]].
  destruct data as [|b B]; [left; reflexivity|].
  destruct (mapM castRow (toStorage (clock w) <$> b :: B)) as [rows|] eqn:Hcast.
  - right. right.
    destruct (mergeDaily_run tkr A b B rows w Hfile Hcast)
      as (f & l & _ & _ & Hrun).
    exists A, rows,
      (mkMetaRow f l (clock w) "eod" (Z.of_nat (length (mergeQuery A rows)))).
    split; [reflexivity|]. split; [reflexivity|].
    split; [|auto].
    rewrite Hrun. cbn [foldl applyOp].
    rewrite lookup_insert_eq. reflexivity.
  - left. rewrite (mergeDaily_fails tkr _ w Hcast). reflexivity.
Qed.

Lemma writeDaily_other tkr other (data : list OHLCV) (w : World) :
  other <> tkr ->
  files (snd (writeDaily tkr data w)) !! getParquetPath other
  = files w !! getParquetPath other
  /\ stock_metadata (snd (writeDaily tkr data w)) !! other
     = stock_metadata w !! other.
Proof.
  intros Hne.
  destruct (writeDaily_cases tkr data w) as [-> | (rows & row & -> & _)];
    [split; reflexivity|].
  cbn [snd files stock_metadata setMetadata setFiles]. split.
  - apply lookup_insert_ne. intros Heq. apply getParquetPath_inj in Heq. auto.
  - apply lookup_insert_ne. auto.
Qed.

Lemma mergeDaily_other tkr other (data : list OHLCV) (w : World) :
  other <> tkr ->
  files (snd (mergeDaily tkr data w)) !! getParquetPath other
  = files w !! getParquetPath other
  /\ stock_metadata (snd (mergeDaily tkr data w)) !! other
     = stock_metadata w !! other.
Proof.
  intros Hne.
  destruct (mergeDaily_cases tkr data w)
    as [-> | [[_ ->] | (A & rows & row & _ & _ & -> & _)]].
  - split; reflexivity.
  - apply writeDaily_other; exact Hne.
  - cbn [snd files stock_metadata setMetadata setFiles]. split.
    + rewrite lookup_insert_ne
        by (intros Heq; apply getParquetPath_inj in Heq; auto).
      rewrite lookup_delete_ne by apply tmp_is_no_parquet_path.
      apply lookup_insert_ne. apply tmp_is_no_parquet_path.
    + apply lookup_insert_ne. auto.
Qed.


(** X3.  Operations on one symbol do not touch another symbol: after
    [writeDaily] or [mergeDaily] for [tkr], whatever the batch and whatever
    the outcome, the file and the row of [stock_metadata] of every other
    symbol are as before; the temporary file of the merge is no symbol's file. *)
Theorem other_symbols_untouched tkr other (data : list OHLCV) (w : World) :
  plainSymbol tkr = true -> plainSymbol other = true ->
  other <> tkr ->
  (files (snd (writeDaily tkr data w)) !! getParquetPath other
   = files w !! getParquetPath other
   /\ stock_metadata (snd (writeDaily tkr data w)) !! other
      = stock_metadata w !! other)
  /\ (files (snd (mergeDaily tkr data w)) !! getParquetPath other
      = files w !! getParquetPath other
      /\ stock_metadata (snd (mergeDaily tkr data w)) !! other
         = stock_metadata w !! other).
Proof.
  intros _ _ Hne.
  split; [apply writeDaily_other | apply mergeDaily_other]; exact Hne.
Qed.

(** X4.  The store keeps its files and its catalog together: if every symbol
    with a file has a row of [stock_metadata], the same holds after
    [writeDaily], and after [mergeDaily] for a symbol that has a file,
    whatever they are given and however they end.  Nothing is said of what
    the row holds. *)
Theorem everyFileHasSummary_kept tkr (data : list OHLCV) (w : World) :
  plainSymbol tkr = true ->
  everyFileHasSummary w ->
  everyFileHasSummary (snd (writeDaily tkr data w))
  /\ (is_Some (files w !! getParquetPath tkr) ->
      everyFileHasSummary (snd (mergeDaily tkr data w))).
Proof.
  intros _ Hinv.
  assert (Hwrite : everyFileHasSummary (snd (writeDaily tkr data w))).
  { intros t Ht Hfile. destruct (decide (t = tkr)) as [-> | Hne].
    - destruct (writeDaily_cases tkr data w) as [Heq | (rows & row & Heq & _)].
      + rewrite Heq in Hfile |- *. apply Hinv; assumption.
      + rewrite Heq. cbn [snd stock_metadata setMetadata].
        rewrite lookup_insert_eq. eauto.
    - destruct (writeDaily_other tkr t data w Hne) as [Hf Hm].
      rewrite Hm. apply Hinv; [exact Ht|]. rewrite <- Hf. exact Hfile. }
  split; [exact Hwrite|].
  intros _ t Ht Hfile. destruct (decide (t = tkr)) as [-> | Hne].
  - destruct (mergeDaily_cases tkr data w)
      as [Heq | [[_ Heq] | (A & rows & row & _ & _ & Heq & _)]].
    + rewrite Heq in Hfile |- *. apply Hinv; assumption.
    + rewrite Heq in Hfile |- *. apply Hwrite; assumption.
    + rewrite Heq. cbn [snd stock_metadata setMetadata].
      rewrite lookup_insert_eq. eauto.
  - destruct (mergeDaily_other tkr t data w Hne) as [Hf Hm].
    rewrite Hm. apply Hinv; [exact Ht|]. rewrite <- Hf. exact Hfile.
Qed.

End StoreInvariants.

Section ReadingBack.
Context `{JSNumber}.

Lemma orderByDate_Permutation (rows : list Row) : orderByDate rows ≡ₚ rows.
Proof. apply merge_sort_Permutation. Qed.

Lemma orderByDate_sorted (rows : list Row) :
  StronglySorted Z.le (r_date <$> orderByDate rows).
Proof.
  apply (StronglySorted_fmap r_date byDate Z.le); [auto|].
  apply (StronglySorted_merge_sort byDate
           (Transitive0 := byDate_transitive) (Total0 := byDate_total)).
Qed.

Lemma getDaily_existing tkr startDate endDate (rows : list Row) (w : World) :
  files w !! getParquetPath tkr = Some rows ->
  getDaily tkr startDate endDate w
  = (Ok (fromStorage
           <$> orderByDate
                 (List.filter
                    (fun r =>
                       match startDate with
                       | Some s => s <=? r_date r
                       | None => true
                       end
                       && match endDate with
                          | Some e => r_date r <=? e
                          | None => true
                          end) rows)), w).
Proof. intros Hfile. unfold getDaily, bind, get. rewrite Hfile. reflexivity. Qed.

Lemma filter_all (rows : list Row) : List.filter (fun _ => true) rows = rows.
Proof. induction rows as [|r rows IH]; simpl; [|rewrite IH]; reflexivity. Qed.

Lemma persistedSeries_existing tkr (rows : list Row) (w : World) :
  files w !! getParquetPath tkr = Some rows ->
  persistedSeries tkr w = fromStorage <$> orderByDate rows.
Proof.
  intros Hfile. unfold persistedSeries.
  rewrite (getDaily_existing tkr None None rows w Hfile).
  cbn [fst andb]. rewrite filter_all. reflexivity.
Qed.

(** X2.  [getDaily] never fails and changes nothing.  For a symbol without a
    file it returns the empty list; for a symbol with a file it returns, in
    ascending order of date, the bars of exactly those rows of the file whose
    date lies within the bounds given. *)
Theorem getDaily_within_bounds tkr startDate endDate (w : World) :
  (files w !! getParquetPath tkr = None ->
   getDaily tkr startDate endDate w = (Ok [], w))
  /\ (forall rows, files w !! getParquetPath tkr = Some rows ->
      exists out,
        getDaily tkr startDate endDate w = (Ok (fromStorage <$> out), w)
        /\ StronglySorted Z.le (r_date <$> out)
        /\ (forall r, r ∈ out
                      <-> r ∈ rows /\ withinBounds startDate endDate (r_date r))).
Proof.
  split.
  - intros Hfile. unfold getDaily, bind, get. rewrite Hfile. reflexivity.
  - intros rows Hfile. eexists. split; [apply getDaily_existing, Hfile|].
    split; [apply orderByDate_sorted|].
    intros r. rewrite orderByDate_Permutation.
    rewrite list_elem_of_In, List.filter_In, <- list_elem_of_In.
    unfold withinBounds. split.
    + intros [Hr Hb]. split; [exact Hr|].
      apply andb_prop in Hb as [Hs He]. split.
      * intros s ->. apply Z.leb_le. exact Hs.
      * intros e ->. apply Z.leb_le. exact He.
    + intros [Hr [Hs He]]. split; [exact Hr|].
      apply andb_true_intro. split.
      * destruct startDate as [s|]; [|reflexivity].
        apply Z.leb_le. apply Hs. reflexivity.
      * destruct endDate as [e|]; [|reflexivity].
        apply Z.leb_le. apply He. reflexivity.
Qed.

(** X1.  A write followed by a read: after [writeDaily] of a batch whose dates
    are calendar dates, whatever the file held before, [getDaily] returns the
    bars of the rows of the batch, and only those, in ascending order of date;
    the symbol exists and [getLastUpdate] answers the time of the write. *)
Theorem writeDaily_then_read tkr (data : list OHLCV) (rows : list Row)
    (w : World) :
  data <> [] ->
  mapM castRow (toStorage (clock w) <$> data) = Some rows ->
  exists w' out,
    writeDaily tkr data w = (Ok tt, w')
    /\ exists_ tkr w' = (Ok true, w')
    /\ getDaily tkr None None w' = (Ok (fromStorage <$> out), w')
    /\ out ≡ₚ rows
    /\ StronglySorted Z.le (r_date <$> out)
    /\ getLastUpdate tkr w' = (Ok (Some (clock w)), w').
Proof.
  intros Hne Hcast. destruct data as [|b B]; [congruence|].
  destruct (writeDaily_run tkr b B rows w Hcast) as (f & l & _ & _ & Hrun).
  eexists _, (orderByDate rows). split; [exact Hrun|].
  set (w' := setMetadata _ _).
  assert (Hfile : files w' !! getParquetPath tkr = Some rows)
    by apply lookup_insert_eq.
  split; [unfold exists_, bind, get, ret, existsSync; rewrite Hfile; reflexivity|].
  split.
  { rewrite (getDaily_existing tkr None None rows w' Hfile).
    cbn [andb]. rewrite filter_all. reflexivity. }
  split; [apply orderByDate_Permutation|].
  split; [apply orderByDate_sorted|].
  unfold getLastUpdate, getMetadata, bind, get, ret. subst w'.
  cbn [stock_metadata setMetadata]. rewrite lookup_insert_eq. reflexivity.
Qed.

End ReadingBack.

Section MergeAgain.
Context `{JSNumber}.

Lemma NoDup_fmap_inj_on {A B} (f : A -> B) (l : list A) x y :
  NoDup (f <$> l) -> x ∈ l -> y ∈ l -> f x = f y -> x = y.
Proof.
  induction l as [|a l IH]; csimpl; intros Hnd Hx Hy Heq; [inversion Hx|].
  apply NoDup_cons in Hnd as [Ha Hnd].
  apply elem_of_cons in Hx as [-> | Hx]; apply elem_of_cons in Hy as [-> | Hy].
  - reflexivity.
  - destruct Ha. rewrite Heq. apply list_elem_of_fmap_2. exact Hy.
  - destruct Ha. rewrite <- Heq. apply list_elem_of_fmap_2. exact Hx.
  - apply IH; assumption.
Qed.

Lemma mergeQuery_covered_elem_of (A B C : list Row) (r : Row) :
  r_date <$> B ⊆ r_date <$> C ->
  r ∈ mergeQuery (mergeQuery A B) C <-> r ∈ mergeQuery A C.
Proof.
  intros Hsub. rewrite !mergeQuery_elem_of. split.
  - intros [Hr | [[Hr | [Hr HB]] HC]].
    + left; exact Hr.
    + destruct HC. apply Hsub. apply list_elem_of_fmap_2. exact Hr.
    + right. split; assumption.
  - intros [Hr | [Hr HC]]; [left; exact Hr|].
    right. split; [|exact HC]. right. split; [exact Hr|].
    intros HB. apply HC, Hsub, HB.
Qed.

(** The query of [mergeParquet], run on its own result and new rows that
    cover the dates of the rows merged before, returns what it returns on
    the first file and the new rows. *)
Lemma mergeQuery_covered (A B C : list Row) :
  NoDup (r_date <$> A) -> NoDup (r_date <$> B) -> NoDup (r_date <$> C) ->
  r_date <$> B ⊆ r_date <$> C ->
  mergeQuery (mergeQuery A B) C = mergeQuery A C.
Proof.
  intros HA HB HC Hsub.
  pose proof (mergeQuery_dates_NoDup A B HA HB) as Hnd1.
  pose proof (mergeQuery_dates_NoDup (mergeQuery A B) C Hnd1 HC) as Hnd2.
  pose proof (mergeQuery_dates_NoDup A C HA HC) as Hnd3.
  assert (Hperm : mergeQuery (mergeQuery A B) C ≡ₚ mergeQuery A C).
  { apply NoDup_Permutation.
    - apply (NoDup_fmap_1 r_date), Hnd2.
    - apply (NoDup_fmap_1 r_date), Hnd3.
    - intros r. apply mergeQuery_covered_elem_of, Hsub. }
  apply (StronglySorted_unique_strong byDate); [| | |exact Hperm].
  - intros x1 x2 Hx1 Hx2 H12 H21.
    apply (NoDup_fmap_inj_on r_date (mergeQuery A C)); [exact Hnd3| |exact Hx2|].
    + rewrite <- Hperm. exact Hx1.
    + unfold byDate in *. lia.
  - apply (StronglySorted_merge_sort byDate
             (Transitive0 := byDate_transitive) (Total0 := byDate_total)).
  - apply (StronglySorted_merge_sort byDate
             (Transitive0 := byDate_transitive) (Total0 := byDate_total)).
Qed.

(** X6.  A later batch that covers an earlier one erases it.  After
    [mergeDaily] of a batch [B] into the file [A] of a symbol, a [mergeDaily]
    of a batch [C] that has a row for every date of [B], at any later time,
    succeeds and leaves the file that the merge of [C] alone into [A] makes
    at that later time, and no temporary file: no row of [B] is left.  (The
    rows of [C] are the ones built at the later time; a bar without
    [fetchedAt] gets the time of the merge that stores it.) *)
Theorem mergeDaily_covering_batch tkr (A : list Row) (B : list OHLCV)
    (rowsB : list Row) (w : World) :
  files w !! getParquetPath tkr = Some A ->
  NoDup (r_date <$> A) ->
  B <> [] ->
  mapM castRow (toStorage (clock w) <$> B) = Some rowsB ->
  NoDup (r_date <$> rowsB) ->
  exists w1,
    mergeDaily tkr B w = (Ok tt, w1)
    /\ files w1 !! getParquetPath tkr = Some (mergeQuery A rowsB)
    /\ forall (C : list OHLCV) (rowsC : list Row) (w1' : World),
         files w1' = files w1 ->
         C <> [] ->
         mapM castRow (toStorage (clock w1') <$> C) = Some rowsC ->
         NoDup (r_date <$> rowsC) ->
         r_date <$> rowsB ⊆ r_date <$> rowsC ->
         exists w2,
           mergeDaily tkr C w1' = (Ok tt, w2)
           /\ files w2 !! getParquetPath tkr = Some (mergeQuery A rowsC)
           /\ files w2 !! (getParquetPath tkr ++ ".tmp")%string = None.
Proof.
  intros Hfile HA HB Hcast HrowsB.
  destruct B as [|b B]; [congruence|].
  destruct (mergeDaily_run tkr A b B rowsB w Hfile Hcast)
    as (f & l & _ & _ & Hrun1).
  set (w1 := setMetadata _ _) in Hrun1.
  assert (Hfile1 : files w1 !! getParquetPath tkr = Some (mergeQuery A rowsB))
    by apply merge_ops_result.
  exists w1. split; [exact Hrun1|]. split; [exact Hfile1|].
  intros C rowsC w1' Hsame HC HcastC HrowsC Hsub.
  destruct C as [|c C]; [congruence|].
  assert (Hfile1' : files w1' !! getParquetPath tkr = Some (mergeQuery A rowsB))
    by (rewrite Hsame; exact Hfile1).
  destruct (mergeDaily_run tkr _ c C rowsC w1' Hfile1' HcastC)
    as (f' & l' & _ & _ & Hrun2).
  set (w2 := setMetadata _ _) in Hrun2.
  exists w2. split; [exact Hrun2|].
  subst w2. cbn [files setMetadata setFiles]. split.
  - rewrite merge_ops_result. rewrite mergeQuery_covered by assumption.
    reflexivity.
  - simpl. rewrite lookup_insert_eq.
    rewrite lookup_insert_ne by (apply not_eq_sym, append_tmp_differs).
    apply lookup_delete_eq.
Qed.

End MergeAgain.

Section CrashSafety.
Context `{JSNumber}.

Lemma crashStates_last (ops : list FsOp) : forall fs : gmap string (list Row),
  last (crashStates fs ops) = Some (foldl applyOp fs ops).
Proof.
  induction ops as [|op ops IH]; intros fs; [reflexivity|].
  cbn [crashStates foldl].
  specialize (IH (applyOp fs op)).
  destruct (crashStates (applyOp fs op) ops) as [|c cs] eqn:E; [discriminate|].
  rewrite app_comm_cons, last_app, IH. reflexivity.
Qed.

Lemma merge_crash_other (fs fs' : gmap string (list Row)) path A rows q :
  fs !! path = Some A ->
  q <> path -> q <> (path ++ ".tmp")%string ->
  fs' ∈ crashStates fs (mergeParquetOps fs path rows None) ->
  fs' !! q = fs !! q.
Proof.
  intros Hfile Hq Hqtmp. unfold mergeParquetOps. rewrite Hfile.
  cbn [default crashStates interrupted applyOp app].
  rewrite lookup_insert_eq.
  rewrite !elem_of_cons, elem_of_app, list_elem_of_fmap, !elem_of_cons.
  intros [-> | [(k & -> & _) | [-> | [-> | Hnil]]]].
  - reflexivity.
  - apply lookup_insert_ne. auto.
  - apply lookup_insert_ne. auto.
  - rewrite lookup_insert_ne by auto. rewrite lookup_delete_ne by auto.
    apply lookup_insert_ne. auto.
  - inversion Hnil.
Qed.

(** X7.  A merge into the file of a symbol is safe against a crash.  Whenever
    the run of [mergeDaily] stops, before, inside or after any of its file
    operations, the file of the symbol holds the rows it had or the merged
    rows, never a part of them, and the file of every other symbol is as it
    was; the last of these states is the one a complete run leaves. *)
Theorem mergeDaily_crash_safe tkr (data : list OHLCV) (A : list Row)
    (w : World) :
  plainSymbol tkr = true ->
  files w !! getParquetPath tkr = Some A ->
  (forall fs', fs' ∈ crashStates (files w) (mergeDailyOps tkr data w) ->
     (fs' !! getParquetPath tkr = Some A
      \/ exists rows,
           mapM castRow (toStorage (clock w) <$> data) = Some rows
           /\ fs' !! getParquetPath tkr = Some (mergeQuery A rows))
     /\ forall other, plainSymbol other = true -> other <> tkr ->
          fs' !! getParquetPath other = files w !! getParquetPath other)
  /\ last (crashStates (files w) (mergeDailyOps tkr data w))
     = Some (files (snd (mergeDaily tkr data w))).
Proof.
  intros _ Hfile. split; [|rewrite mergeDaily_files; apply crashStates_last].
  intros fs' Hin. unfold mergeDailyOps in Hin.
  assert (Hnone : fs' ∈ crashStates (files w) [] ->
            (fs' !! getParquetPath tkr = Some A
             \/ exists rows,
                  mapM castRow (toStorage (clock w) <$> data) = Some rows
                  /\ fs' !! getParquetPath tkr = Some (mergeQuery A rows))
            /\ forall other, plainSymbol other = true -> other <> tkr ->
                 fs' !! getParquetPath other = files w !! getParquetPath other).
  { intros Hin'. apply list_elem_of_singleton in Hin'. subst fs'.
    split; [left; exact Hfile | reflexivity]. }
  destruct data as [|b B]; [exact (Hnone Hin)|].
  destruct (mapM castRow (toStorage (clock w) <$> b :: B)) as [rows|] eqn:Hcast;
    [|exact (Hnone Hin)].
  split.
  - destruct (merge_crash_safe _ _ _ _ _ Hfile Hin) as [Hold | Hnew];
      [left; exact Hold | right; exists rows; split; [reflexivity | exact Hnew]].
  - intros other _ Hne.
    apply (merge_crash_other _ _ _ _ rows (getParquetPath other) Hfile);
      [ | | exact Hin].
    + intros Heq. apply getParquetPath_inj in Heq. auto.
    + apply not_eq_sym, tmp_is_no_parquet_path.
Qed.

End CrashSafety.

(** ** Concrete runs of the store *)

Section StoreRuns.
#[local] Existing Instance IntNumber.

Lemma exampleWorld_everyFileHasSummary : everyFileHasSummary exampleWorld.
Proof.
  intros t _ [rows Hrows].
  unfold exampleWorld in Hrows. cbn [files] in Hrows.
  apply lookup_singleton_Some in Hrows as [Hpath _].
  apply getParquetPath_inj in Hpath. subst t.
  eexists. apply lookup_singleton_eq.
Qed.

Lemma exampleWorld_has_AAPL :
  is_Some (files exampleWorld !! getParquetPath "AAPL").
Proof. exists exampleRows. apply lookup_singleton_eq. Qed.

Lemma other_symbols_untouched_witness :
  (files (snd (writeDaily "MSFT" incoming exampleWorld)) !! getParquetPath "AAPL"
   = files exampleWorld !! getParquetPath "AAPL"
   /\ stock_metadata (snd (writeDaily "MSFT" incoming exampleWorld)) !! "AAPL"%string
      = stock_metadata exampleWorld !! "AAPL"%string)
  /\ (files (snd (mergeDaily "MSFT" incoming exampleWorld)) !! getParquetPath "AAPL"
      = files exampleWorld !! getParquetPath "AAPL"
      /\ stock_metadata (snd (mergeDaily "MSFT" incoming exampleWorld)) !! "AAPL"%string
         = stock_metadata exampleWorld !! "AAPL"%string).
Proof.
  apply (other_symbols_untouched "MSFT" "AAPL" incoming exampleWorld).
  - reflexivity.
  - reflexivity.
  - discriminate.
Defined.

Lemma everyFileHasSummary_kept_witness :
  everyFileHasSummary (snd (writeDaily "MSFT" incoming exampleWorld))
  /\ everyFileHasSummary (snd (mergeDaily "AAPL" incoming exampleWorld)).
Proof.
  split.
  - exact (proj1 (everyFileHasSummary_kept "MSFT" incoming exampleWorld
                    eq_refl exampleWorld_everyFileHasSummary)).
  - exact (proj2 (everyFileHasSummary_kept "AAPL" incoming exampleWorld
                    eq_refl exampleWorld_everyFileHasSummary)
                 exampleWorld_has_AAPL).
Defined.

Lemma writeDaily_then_read_witness :
  exists w' out,
    writeDaily "MSFT" incoming exampleWorld = (Ok tt, w')
    /\ exists_ "MSFT" w' = (Ok true, w')
    /\ getDaily "MSFT" None None w' = (Ok (fromStorage <$> out), w')
    /\ out ≡ₚ incomingRows
    /\ StronglySorted Z.le (r_date <$> out)
    /\ getLastUpdate "MSFT" w' = (Ok (Some (clock exampleWorld)), w').
Proof.
  apply (writeDaily_then_read "MSFT" incoming incomingRows exampleWorld).
  - discriminate.
  - vm_compute. reflexivity.
Defined.

Lemma mergeDaily_covering_batch_witness :
  let later (w1 : World) :=
    mkWorld (files w1) (stock_metadata exampleWorld) (registry exampleWorld)
            (clock exampleWorld + 60000) [] [] in
  let laterRows :=
    [ storedBar 19732 20 "2024-03-04T09:01:00.000Z";
      storedBar 19733 21 "2024-03-04T09:01:00.000Z" ] in
  exists w1 w2,
    mergeDaily "AAPL" incoming exampleWorld = (Ok tt, w1)
    /\ files w1 !! getParquetPath "AAPL"
       = Some (mergeQuery exampleRows incomingRows)
    /\ mergeDaily "AAPL" incoming (later w1) = (Ok tt, w2)
    /\ files w2 !! getParquetPath "AAPL"
       = Some (mergeQuery exampleRows laterRows).
Proof.
  cbv zeta.
  destruct (mergeDaily_covering_batch "AAPL" exampleRows incoming incomingRows
              exampleWorld) as (w1 & Hrun1 & Hfile1 & Hnext).
  - vm_compute. reflexivity.
  - apply (bool_decide_unpack _). vm_compute. exact I.
  - discriminate.
  - vm_compute. reflexivity.
  - apply (bool_decide_unpack _). vm_compute. exact I.
  - destruct (Hnext incoming
                [ storedBar 19732 20 "2024-03-04T09:01:00.000Z";
                  storedBar 19733 21 "2024-03-04T09:01:00.000Z" ]
                (mkWorld (files w1) (stock_metadata exampleWorld)
                   (registry exampleWorld) (clock exampleWorld + 60000) [] []))
      as (w2 & Hrun2 & Hfile2 & _).
    + reflexivity.
    + discriminate.
    + vm_compute. reflexivity.
    + apply (bool_decide_unpack _). vm_compute. exact I.
    + apply (bool_decide_unpack _). vm_compute. exact I.
    + exists w1, w2. split; [exact Hrun1|]. split; [exact Hfile1|].
      split; [exact Hrun2 | exact Hfile2].
Defined.

Lemma mergeDaily_crash_safe_witness :
  let tmp := (getParquetPath "AAPL" ++ ".tmp")%string in
  let merged := mergeQuery exampleRows incomingRows in
  let fs' := <[tmp := take 1 merged]> (files exampleWorld) in
  crashStates (files exampleWorld) (mergeDailyOps "AAPL" incoming exampleWorld)
    !! 2%nat = Some fs'
  /\ (fs' !! getParquetPath "AAPL" = Some exampleRows
      \/ exists rows,
           mapM castRow (toStorage (clock exampleWorld) <$> incoming) = Some rows
           /\ fs' !! getParquetPath "AAPL" = Some (mergeQuery exampleRows rows)).
Proof.
  cbv zeta.
  assert (Hstate :
    crashStates (files exampleWorld) (mergeDailyOps "AAPL" incoming exampleWorld)
      !! 2%nat
    = Some (<[(getParquetPath "AAPL" ++ ".tmp")%string
              := take 1 (mergeQuery exampleRows incomingRows)]>
              (files exampleWorld))) by (vm_compute; reflexivity).
  split; [exact Hstate|].
  apply (proj1 (mergeDaily_crash_safe "AAPL" incoming exampleRows exampleWorld
                  eq_refl (lookup_singleton_eq _ _))).
  apply (list_elem_of_lookup_2 _ 2%nat). exact Hstate.
Defined.

End StoreRuns.

(* ================================================================== *)
(** * Further properties of the gap detector *)
(* ================================================================== *)

Section GapEndpoints.
Import JSDate Stocker GapSpec.

Lemma getNextTradingDay_bounds p :
  let n := getNextTradingDay p in
  p < n <= p + 3
  /\ isTradingDay n = true
  /\ forall t, p < t < n -> isTradingDay t = false.
Proof.
  cbv zeta. pose proof (getNextTradingDay_isTradingDay p) as Htd.
  pose proof (getNextTradingDay_cases p) as Hcases. cbv zeta in Hcases.
  destruct Hcases as [Hn | [[Hn E1] | [Hn [E1 E2]]]]; rewrite Hn in *;
    (split; [lia|]); (split; [exact Htd|]); intros t Ht.
  - lia.
  - replace t with (p + 1) by lia. exact E1.
  - destruct (Z.eq_dec t (p + 1)) as [-> | Hne]; [exact E1|].
    replace t with (p + 2) by lia. exact E2.
Qed.

(** X9.  [getNextTradingDay] returns the first trading day after its argument,
    at most three days later. *)
Theorem getNextTradingDay_first p :
  let n := getNextTradingDay p in
  p < n <= p + 3
  /\ isTradingDay n = true
  /\ forall t, p < t < n -> isTradingDay t = false.
Proof. apply getNextTradingDay_bounds. Qed.

(** The loop that moves [gapEnd] back stops on the last trading day that is
    not after the day it starts from. *)
Lemma backToTradingDay_last fuel : forall e s,
  (Z.to_nat (e - s) <= fuel)%nat -> s <= e -> isTradingDay s = true ->
  let r := backToTradingDay fuel e s in
  s <= r <= e /\ isTradingDay r = true
  /\ forall t, r < t <= e -> isTradingDay t = false.
Proof.
  induction fuel as [|fuel IH]; intros e s Hfuel Hse Hs; cbv zeta.
  - assert (e = s) by lia. subst e. simpl.
    split; [lia|]. split; [exact Hs|]. intros t Ht. lia.
  - cbn [backToTradingDay].
    destruct (isTradingDay e) eqn:Ee; cbn [negb andb].
    + split; [lia|]. split; [exact Ee|]. intros t Ht. lia.
    + destruct (Z.ltb_spec s e) as [Hlt | Hge].
      * destruct (IH (e - 1) s) as (Hr & Htd & Hafter); [lia | lia | exact Hs|].
        split; [lia|]. split; [exact Htd|].
        intros t Ht. destruct (Z.eq_dec t e) as [-> | Hne]; [exact Ee|].
        apply Hafter. lia.
      * assert (e = s) by lia. subst e. congruence.
Qed.

Lemma filter_isWeekday_nil a n :
  (forall t, a <= t < a + n -> isWeekday t = false) ->
  List.filter isWeekday (seqZ a n) = [].
Proof.
  intros Hnone.
  destruct (List.filter isWeekday (seqZ a n)) as [|x xs] eqn:E; [reflexivity|].
  assert (Hx : List.In x (List.filter isWeekday (seqZ a n)))
    by (rewrite E; left; reflexivity).
  apply List.filter_In in Hx as [Hx Hw].
  apply list_elem_of_In, elem_of_seqZ in Hx.
  rewrite (Hnone x Hx) in Hw. discriminate.
Qed.

Lemma filter_isWeekday_some a n :
  (0 < length (List.filter isWeekday (seqZ a n)))%nat ->
  exists t, a <= t < a + n /\ isWeekday t = true.
Proof.
  destruct (List.filter isWeekday (seqZ a n)) as [|x xs] eqn:E;
    [simpl; lia|]. intros _.
  assert (Hx : List.In x (List.filter isWeekday (seqZ a n)))
    by (rewrite E; left; reflexivity).
  apply List.filter_In in Hx as [Hx Hw].
  apply list_elem_of_In, elem_of_seqZ in Hx. eauto.
Qed.

(** A reported gap lies between its two rows, read in UTC. *)
Lemma gapBetween_endpoints prev curr p c g :
  newDateOf prev = Some p -> newDateOf curr = Some c ->
  g ∈ gapBetween prev curr ->
  exists s e,
    start g = toISODate s /\ end_ g = toISODate e
    /\ p < s /\ s <= e /\ e < c
    /\ isWeekday s = true /\ isWeekday e = true
    /\ (forall t, p < t < c -> isWeekday t = true -> s <= t <= e)
    /\ days g = weekdaysInSpan s e.
Proof.
  intros Hp Hc Hg. unfold gapBetween in Hg. rewrite Hp, Hc in Hg.
  destruct (Z.ltb_spec 0 (countTradingDaysBetween p c)) as [Hpos | Hnp];
    [|inversion Hg].
  apply list_elem_of_singleton in Hg.
  pose proof (getNextTradingDay_bounds p) as Hfirst. cbv zeta in Hfirst.
  set (s := getNextTradingDay p) in *.
  destruct Hfirst as (Hps & Hs & Hbefore).
  rewrite countTradingDaysBetween_spec in Hpos.
  destruct (filter_isWeekday_some (p + 1) (c - p - 1)) as (t0 & Ht0 & Hw0);
    [lia|].
  assert (Hst0 : s <= t0).
  { destruct (Z.le_gt_cases s t0) as [Hle | Hgt]; [exact Hle|].
    rewrite <- isTradingDay_isWeekday in Hw0.
    rewrite (Hbefore t0) in Hw0 by lia. discriminate. }
  destruct (backToTradingDay_last (Z.to_nat (c - 1 - s)) (c - 1) s)
    as (Hse & He & Hafter); [lia | lia | exact Hs|].
  set (e := backToTradingDay _ _ _) in *.
  exists s, e. subst g. cbn [start end_ days].
  split; [reflexivity|]. split; [reflexivity|].
  split; [lia|]. split; [lia|]. split; [lia|].
  rewrite <- !isTradingDay_isWeekday.
  split; [exact Hs|]. split; [exact He|]. split.
  - intros t Ht Hw. rewrite <- isTradingDay_isWeekday in Hw. split.
    + destruct (Z.le_gt_cases s t) as [Hle | Hgt]; [exact Hle|].
      rewrite (Hbefore t) in Hw by lia. discriminate.
    + destruct (Z.le_gt_cases t e) as [Hle | Hgt]; [exact Hle|].
      rewrite (Hafter t) in Hw by lia. discriminate.
  - rewrite countTradingDaysBetween_spec. unfold weekdaysInSpan.
    replace (c - p - 1) with ((s - (p + 1)) + ((e - s + 1) + (c - e - 1)))
      by lia.
    rewrite (seqZ_app (p + 1)) by lia.
    replace (p + 1 + (s - (p + 1))) with s by lia.
    rewrite (seqZ_app s) by lia.
    rewrite !List.filter_app, !length_app.
    rewrite (filter_isWeekday_nil (p + 1)), (filter_isWeekday_nil (s + (e - s + 1))).
    + simpl length. lia.
    + intros t Ht. rewrite <- isTradingDay_isWeekday. apply Hafter. lia.
    + intros t Ht. rewrite <- isTradingDay_isWeekday. apply Hbefore. lia.
Qed.

Lemma sumDays_positive (gs : list Gap) :
  Forall (fun g => 0 < days g) gs -> gs <> [] -> 0 < sumDays gs.
Proof.
  induction 1 as [|g gs Hg Hall IH]; intros Hne; [congruence|].
  simpl. destruct gs as [|g' gs']; [simpl; lia|].
  assert (0 < sumDays (g' :: gs')) by (apply IH; discriminate). lia.
Qed.

Lemma gapsFrom_none_iff rest prev p ds :
  newDateOf prev = Some p ->
  map newDateOf rest = map Some ds ->
  gapsFrom prev rest = [] <-> missingBetween p ds = 0.
Proof.
  intros Hp Hds.
  pose proof (gapsFrom_sum rest prev p ds Hp Hds) as Hsum.
  split.
  - intros Hnil. rewrite Hnil in Hsum. simpl in Hsum. lia.
  - intros Hzero.
    destruct (gapsFrom prev rest) as [|g gs] eqn:E; [reflexivity|].
    pose proof (sumDays_positive (g :: gs)) as Hpos.
    rewrite <- E in Hpos at 1.
    specialize (Hpos (gapsFrom_positive rest prev) ltac:(discriminate)).
    lia.
Qed.

Lemma findGaps_none_iff (D : list DateValue) p ds :
  map newDateOf D = map Some (p :: ds) ->
  findGaps D = [] <-> missingBetween p ds = 0.
Proof.
  intros HD. destruct D as [|d0 D]; [discriminate|].
  simpl in HD. injection HD as Hd0 HD.
  apply gapsFrom_none_iff; assumption.
Qed.



End GapEndpoints.

(* ================================================================== *)
(** * Further properties of the planner and of the command line *)
(* ================================================================== *)

Section FetchRuns.
Context `{JSNumber} `{!DataService}.
Import Stocker.

Lemma withSplits_dates symbol (data : list OHLCV) :
  date <$> withSplits symbol data = date <$> data.
Proof.
  unfold withSplits. destruct (fetchSplits symbol) as [|s ss]; [reflexivity|].
  rewrite <- list_fmap_compose. apply list_fmap_ext. intros _ bar _. simpl.
  unfold markSplit. destruct (hasSplit _ _); reflexivity.
Qed.

Lemma withSplits_nil symbol (data : list OHLCV) :
  withSplits symbol data = [] -> data = [].
Proof.
  unfold withSplits. destruct (fetchSplits symbol); [auto|].
  apply fmap_nil_inv.
Qed.

(** The step of [fetch] that stores the bars. *)
Lemma store_step symbol (merging : bool) (data : list OHLCV) rows (w : World) :
  data <> [] ->
  mapM castRow (toStorage (clock w) <$> data) = Some rows ->
  exists w2 row,
    (if merging then mergeDaily symbol data else writeDaily symbol data) w
    = (Ok tt, w2)
    /\ files w2 !! getParquetPath symbol
       = Some (match files w !! getParquetPath symbol with
               | Some A => if merging then mergeQuery A rows else rows
               | None => rows
               end)
    /\ stock_metadata w2 !! symbol = Some row
    /\ last_update row = clock w
    /\ registry w2 = registry w /\ requests w2 = requests w
    /\ console w2 = console w /\ clock w2 = clock w.
Proof.
  intros Hne Hcast.
  assert (Hwrite : exists w2 row,
            writeDaily symbol data w = (Ok tt, w2)
            /\ files w2 !! getParquetPath symbol = Some rows
            /\ stock_metadata w2 !! symbol = Some row
            /\ last_update row = clock w
            /\ registry w2 = registry w /\ requests w2 = requests w
            /\ console w2 = console w /\ clock w2 = clock w).
  { destruct data as [|b B]; [congruence|].
    destruct (writeDaily_run symbol b B rows w Hcast) as (f & l & _ & _ & Hrun).
    eexists _, _. split; [exact Hrun|].
    cbn [files stock_metadata setMetadata setFiles registry requests console clock].
    rewrite !lookup_insert_eq. repeat split; reflexivity. }
  destruct (files w !! getParquetPath symbol) as [A|] eqn:Hfile.
  - destruct merging; [|destruct Hwrite as (w2 & row & Hw); exists w2, row; exact Hw].
    destruct data as [|b B]; [congruence|].
    destruct (mergeDaily_run symbol A b B rows w Hfile Hcast)
      as (f & l & _ & _ & Hrun).
    eexists _, _. split; [exact Hrun|].
    cbn [files stock_metadata setMetadata setFiles registry requests console clock].
    rewrite merge_ops_result, lookup_insert_eq. repeat split; reflexivity.
  - destruct Hwrite as (w2 & row & Hw). exists w2, row.
    destruct merging; [|exact Hw].
    rewrite (mergeDaily_as_write symbol data w Hfile). exact Hw.
Qed.

Lemma fetch_run tkr options (data : list OHLCV) rows (w : World) :
  fetchDaily (toUpperCase tkr) (o_start options) (o_end options) = Ok data ->
  data <> [] ->
  mapM castRow (toStorage (clock w) <$> withSplits (toUpperCase tkr) data)
  = Some rows ->
  exists w' row,
    fetch tkr options w = (Ok tt, w')
    /\ files w' !! getParquetPath (toUpperCase tkr)
       = Some (match files w !! getParquetPath (toUpperCase tkr) with
               | Some A => if o_update options then mergeQuery A rows else rows
               | None => rows
               end)
    /\ stock_metadata w' !! toUpperCase tkr = Some row
    /\ last_update row = clock w
    /\ toUpperCase tkr ∈ registry w'
    /\ registry w ⊆ registry w'
    /\ (toUpperCase tkr ∈ registry w -> registry w' = registry w).
Proof.
  intros Hapi Hne Hcast. unfold fetch.
  set (symbol := toUpperCase tkr) in *.
  rewrite (bind_ok _ _ _ _ _ (updateAndExists_run _ _ w)).
  match goal with
  | |- context [bind (log ?l) _ w] =>
      rewrite (bind_ok (log l) _ w (addLine l w) tt) by reflexivity;
      set (w0 := addLine l w)
  end.
  unfold bind at 1, callFetchDaily. rewrite Hapi.
  set (w1 := addRequest _ w0).
  destruct data as [|b B] eqn:Hdata; [congruence|]. rewrite <- Hdata in *.
  rewrite (bind_ok _ _ _ _ _ (updateAndExists_run _ _ w1)).
  change (files w1) with (files w).
  destruct (store_step symbol
              (o_update options && existsSync (getParquetPath symbol) (files w))
              (withSplits symbol data) rows w1)
    as (w2 & row & Hstore & Hfile2 & Hmeta2 & Hupd2 & Hreg2 & _ & _ & _).
  { intros Hnil. apply withSplits_nil in Hnil. congruence. }
  { exact Hcast. }
  change (files w1) with (files w) in Hfile2.
  change (clock w1) with (clock w) in Hupd2.
  change (registry w1) with (registry w) in Hreg2.
  assert (Hfile2' : files w2 !! getParquetPath symbol
                    = Some (match files w !! getParquetPath symbol with
                            | Some A => if o_update options
                                        then mergeQuery A rows else rows
                            | None => rows
                            end)).
  { rewrite Hfile2. unfold existsSync.
    destruct (files w !! getParquetPath symbol); [|reflexivity].
    rewrite andb_true_r. reflexivity. }
  clear Hfile2.
  unfold withSplits in Hstore. cbv zeta in Hstore.
  set (data' := match fetchSplits symbol with
                | [] => data
                | _ :: _ => markSplit (fetchSplits symbol) <$> data
                end) in *.
  assert (Hend : forall w3 : World,
            files w3 = files w2 -> stock_metadata w3 = stock_metadata w2 ->
            registry w3 = registry w ->
            exists w' row,
              (let! w := get in
               if bool_decide (symbol ∈ registry w) then ret tt
               else
                 let! _ := log (AddingToRegistry symbol) in
                 modify (fun w0 => setRegistry ({[symbol]} ∪ registry w0) w0)) w3
              = (Ok tt, w')
              /\ files w' !! getParquetPath symbol
                 = Some (match files w !! getParquetPath symbol with
                         | Some A => if o_update options
                                     then mergeQuery A rows else rows
                         | None => rows
                         end)
              /\ stock_metadata w' !! symbol = Some row
              /\ last_update row = clock w
              /\ symbol ∈ registry w'
              /\ registry w ⊆ registry w'
              /\ (symbol ∈ registry w -> registry w' = registry w)).
  { intros w3 Hf3 Hm3 Hr3.
    rewrite (bind_ok get _ _ _ _ eq_refl). rewrite Hr3.
    destruct (bool_decide (symbol ∈ registry w)) eqn:Hin.
    - apply bool_decide_eq_true_1 in Hin.
      exists w3, row. split; [reflexivity|].
      rewrite Hf3, Hm3, Hr3.
      split; [exact Hfile2'|]. split; [exact Hmeta2|]. split; [exact Hupd2|].
      split; [exact Hin|]. split; [reflexivity|]. intros _. reflexivity.
    - eexists _, row. split; [reflexivity|].
      cbn [log modify bind fst snd files stock_metadata registry addLine
           setRegistry].
      rewrite Hf3, Hm3, Hr3.
      split; [exact Hfile2'|]. split; [exact Hmeta2|]. split; [exact Hupd2|].
      split; [apply elem_of_union_l, elem_of_singleton; reflexivity|].
      split; [apply union_subseteq_r|].
      intros Hin'. apply bool_decide_eq_false_1 in Hin. contradiction. }
  destruct (o_update options && existsSync (getParquetPath symbol) (files w)).
  - assert (Hstep : bind (mergeDaily symbol data')
                      (fun _ => log (UpdatedWith symbol (length data'))) w1
                    = (Ok tt, addLine (UpdatedWith symbol (length data')) w2))
      by (rewrite (bind_ok _ _ _ _ _ Hstore); reflexivity).
    rewrite (bind_ok _ _ _ _ _ Hstep).
    apply Hend; [reflexivity | reflexivity | exact Hreg2].
  - assert (Hstep : bind (writeDaily symbol data')
                      (fun _ => log (StoredWith symbol (length data'))) w1
                    = (Ok tt, addLine (StoredWith symbol (length data')) w2))
      by (rewrite (bind_ok _ _ _ _ _ Hstore); reflexivity).
    rewrite (bind_ok _ _ _ _ _ Hstep).
    apply Hend; [reflexivity | reflexivity | exact Hreg2].
Qed.

(** X13.  What [fetch] has stored when the price API answers.  When the
    price API answers with bars whose dates are calendar dates, then after
    [fetch], however its last step (the registry) ends, the file of the
    symbol holds the rows of the answer alone (a fetch without [update], or
    for a symbol without a file) or the old rows merged with them (a fetch
    with [update] for a symbol with a file), and the symbol has a row of
    [stock_metadata] that carries the time of the fetch.  For a symbol that
    the registry already lists, [fetch] ends without an error and leaves the
    registry as it was. *)
Theorem fetch_stores tkr options (data : list OHLCV) rows (w : World) :
  fetchDaily (toUpperCase tkr) (o_start options) (o_end options) = Ok data ->
  data <> [] ->
  mapM castRow (toStorage (clock w) <$> withSplits (toUpperCase tkr) data)
  = Some rows ->
  let w' := snd (fetch tkr options w) in
  files w' !! getParquetPath (toUpperCase tkr)
  = Some (match files w !! getParquetPath (toUpperCase tkr) with
          | Some A => if o_update options then mergeQuery A rows else rows
          | None => rows
          end)
  /\ (exists row, stock_metadata w' !! toUpperCase tkr = Some row
                  /\ last_update row = clock w)
  /\ (toUpperCase tkr ∈ registry w ->
      fetch tkr options w = (Ok tt, w') /\ registry w' = registry w).
Proof.
  intros Hapi Hne Hcast.
  destruct (fetch_run tkr options data rows w Hapi Hne Hcast)
    as (w1 & row & Hrun & Hfile & Hmeta & Hupd & _ & _ & Hreg).
  cbv zeta. rewrite Hrun. cbn [snd].
  split; [exact Hfile|]. split; [exists row; split; assumption|].
  intros Hin. split; [reflexivity | apply Hreg, Hin].
Qed.

(** When the price API refuses the request, [fetch] fails with the error of
    the API after its one request, and the store is as it was. *)
Lemma fetch_fails tkr options (w : World) e :
  fetchDaily (toUpperCase tkr) (o_start options) (o_end options) = Err e ->
  exists w', fetch tkr options w = (Err e, w')
             /\ sameStore w w'
             /\ requests w'
                = requests w ++ [ mkRequest (toUpperCase tkr) (o_start options)
                                    (o_end options) ].
Proof.
  intros Hapi. unfold fetch.
  rewrite (bind_ok _ _ _ _ _ (updateAndExists_run _ _ w)).
  match goal with
  | |- context [bind (log ?l) _ w] =>
      rewrite (bind_ok (log l) _ w (addLine l w) tt) by reflexivity
  end.
  unfold bind at 1, callFetchDaily. rewrite Hapi.
  eexists. split; [reflexivity|]. split; [repeat split|]; reflexivity.
Qed.

End FetchRuns.

Section SmartPlan.
Context `{JSNumber} `{!DataService}.
Import JSDate Stocker GapSpec.

Lemma newDateOf_DateObj (ds : list Z) :
  map newDateOf (DateObj <$> ds) = map Some ds.
Proof.
  induction ds as [|d ds IH]; [reflexivity|].
  simpl. f_equal. exact IH.
Qed.

Lemma persistedSeries_dates tkr (rows : list Row) (w : World) :
  files w !! getParquetPath tkr = Some rows ->
  date <$> persistedSeries tkr w = DateObj <$> (r_date <$> orderByDate rows).
Proof.
  intros Hfile. rewrite (persistedSeries_existing tkr rows w Hfile).
  rewrite <- !list_fmap_compose. reflexivity.
Qed.

End SmartPlan.

Section CommandRuns.
Context `{JSNumber} `{!DataService}.
Import Stocker FetchCommand.

Lemma executeTicker_ok (this : Flags) tkr (w : World) :
  fst (executeTicker this tkr w) = Ok tt.
Proof.
  unfold executeTicker, tryCatch.
  destruct (tryTicker this tkr w) as [[[] | e] w1]; reflexivity.
Qed.

(** One ticker of the command line costs at most one request, for the
    symbol in upper case and with the end date of the command line. *)
Lemma executeTicker_requests (this : Flags) tkr (w : World) :
  exists rs,
    issues (executeTicker this tkr) w rs
    /\ (rs = [] \/ exists s, rs = [ mkRequest (toUpperCase tkr) s (end_ this) ]).
Proof.
  destruct (existsSync (getParquetPath (toUpperCase tkr)) (files w)) eqn:Hex;
    [destruct (update this) eqn:Hupd;
       [|destruct (force this) eqn:Hforce;
           [|destruct (stock_metadata w !! toUpperCase tkr) as [m|] eqn:Hmeta]]|].
  - eexists. split; [apply executeTicker_issues, tryTicker_issues; auto|].
    right. eexists. reflexivity.
  - eexists. split; [apply executeTicker_issues, tryTicker_issues; auto|].
    right. eexists. reflexivity.
  - exists []. split; [|left; reflexivity].
    unfold issues, executeTicker, tryCatch.
    rewrite (tryTicker_skip this tkr w m Hex Hupd Hforce Hmeta).
    rewrite app_nil_r. destruct (verbose this); reflexivity.
  - eexists. split; [apply executeTicker_issues, tryTicker_issues; auto|].
    right. eexists. reflexivity.
  - eexists. split; [apply executeTicker_issues, tryTicker_issues; auto|].
    right. eexists. reflexivity.
Qed.

(** X15.  One pass of the loop of the command never fails and calls
    [fetchDaily] at most once.  Whatever the price API answers and whatever
    the store holds, the body of the loop for a ticker, with its [try] and
    [catch], ends without an error.  It calls [fetchDaily] once, for the
    symbol in upper case and with the end date of the command line, or not at
    all; and it does not call it exactly when the symbol has a file and a row
    of [stock_metadata] and the command has neither [--update] nor
    [--force]. *)
Theorem ticker_pass_never_fails (this : Flags) tkr (w : World) :
  exists w' rs,
    executeTicker this tkr w = (Ok tt, w')
    /\ requests w' = requests w ++ rs
    /\ (rs = []
        \/ exists s, rs = [ mkRequest (toUpperCase tkr) s (end_ this) ])
    /\ (rs = []
        <-> existsSync (getParquetPath (toUpperCase tkr)) (files w) = true
            /\ is_Some (stock_metadata w !! toUpperCase tkr)
            /\ update this = false /\ force this = false).
Proof.
  pose proof (executeTicker_ok this tkr w) as Hok.
  destruct (executeTicker this tkr w) as [res w'] eqn:Hrun.
  cbn [fst] in Hok. subst res.
  assert (Hone : forall s,
            issues (tryTicker this tkr) w
              [ mkRequest (toUpperCase tkr) s (end_ this) ] ->
            ~ (existsSync (getParquetPath (toUpperCase tkr)) (files w) = true
               /\ is_Some (stock_metadata w !! toUpperCase tkr)
               /\ update this = false /\ force this = false) ->
            exists w0 rs,
              (Ok tt, w') = (Ok tt, w0)
              /\ requests w0 = requests w ++ rs
              /\ (rs = []
                  \/ exists s, rs = [ mkRequest (toUpperCase tkr) s (end_ this) ])
              /\ (rs = []
                  <-> existsSync (getParquetPath (toUpperCase tkr)) (files w)
                      = true
                      /\ is_Some (stock_metadata w !! toUpperCase tkr)
                      /\ update this = false /\ force this = false)).
  { intros s Hissues Hnot. apply executeTicker_issues in Hissues.
    unfold issues in Hissues. rewrite Hrun in Hissues.
    exists w', [ mkRequest (toUpperCase tkr) s (end_ this) ].
    split; [reflexivity|]. split; [exact Hissues|].
    split; [right; eexists; reflexivity|].
    split; [discriminate | intros Hskip; contradiction]. }
  destruct (existsSync (getParquetPath (toUpperCase tkr)) (files w)) eqn:Hex;
    [destruct (update this) eqn:Hupd;
       [|destruct (force this) eqn:Hforce;
           [|destruct (stock_metadata w !! toUpperCase tkr) as [m|] eqn:Hmeta]]|].
  - eapply Hone; [apply tryTicker_issues; auto|].
    intros (_ & _ & Hc & _). discriminate.
  - eapply Hone; [apply tryTicker_issues; auto|].
    intros (_ & _ & _ & Hc). discriminate.
  - exists w', []. split; [reflexivity|].
    split.
    + unfold executeTicker, tryCatch in Hrun.
      rewrite (tryTicker_skip this tkr w m Hex Hupd Hforce Hmeta) in Hrun.
      injection Hrun as <-. rewrite app_nil_r.
      destruct (verbose this); reflexivity.
    + split; [left; reflexivity|].
      split; [intros _; repeat split; eauto | reflexivity].
  - eapply Hone; [apply tryTicker_issues; auto|].
    intros (_ & [m Hm] & _). discriminate.
  - eapply Hone; [apply tryTicker_issues; auto|].
    intros (Hc & _). discriminate.
Qed.

(** X16.  A ticker that the price API refuses is reported and costs nothing.
    When the command reaches its fetch for a ticker and the price API refuses
    the symbol, the error is caught: the run of the ticker ends without an
    error, a line [Failed] names the ticker as it was typed, and the files,
    the table [stock_metadata] and the registry are as they were. *)
Theorem failed_ticker_is_reported (this : Flags) tkr (w : World) message :
  existsSync (getParquetPath (toUpperCase tkr)) (files w) = false
  \/ update this = true \/ force this = true
  \/ stock_metadata w !! toUpperCase tkr = None ->
  (forall s e, fetchDaily (toUpperCase tkr) s e = Err message) ->
  exists w',
    executeTicker this tkr w = (Ok tt, w')
    /\ sameStore w w'
    /\ Failed tkr message ∈ console w'
    /\ length (requests w') = S (length (requests w)).
Proof.
  intros Hcase Hapi.
  set (nt := toUpperCase tkr) in *.
  assert (Hfetch : forall (w1 : World) s,
            exists w2,
              (let! _ := fetch nt (mkOptions s (end_ this) (update this)) in
               let! metadata := getMetadata nt in
               match metadata with
               | Some m => log (SuccessfullyFetched nt (recordCount m)
                                  (firstTradeDate m) (lastUpdate m))
               | None => ret tt
               end) w1 = (Err message, w2)
              /\ sameStore w1 w2
              /\ length (requests w2) = S (length (requests w1))).
  { intros w1 s.
    destruct (fetch_fails nt (mkOptions s (end_ this) (update this)) w1 message)
      as (w2 & Hrun & Hsame & Hreq).
    { subst nt. rewrite toUpperCase_idempotent. apply Hapi. }
    exists w2. split; [apply (bind_err _ _ _ _ _ Hrun)|].
    split; [exact Hsame|]. rewrite Hreq, length_app. simpl. lia. }
  assert (Hgo : forall (w0 : World) present,
            exists w2,
              fetchTicker this nt present w0 = (Err message, w2)
              /\ sameStore w0 w2
              /\ length (requests w2) = S (length (requests w0))).
  { intros w0 present. unfold fetchTicker.
    match goal with
    | |- exists w2, bind ?m ?k w0 = _ /\ _ =>
        assert (Hstart : exists s w1,
                  m w0 = (Ok s, w1) /\ sameStore w0 w1
                  /\ requests w1 = requests w0)
    end.
    { destruct (update this && present).
      - rewrite (bind_ok _ _ _ _ _ (getLastUpdate_run nt w0)).
        destruct (stock_metadata w0 !! nt) as [m|];
          cbn [fmap option_fmap option_map].
        + rewrite (bind_ok _ _ _ _ _ (when_run _ _ w0)).
          eexists _, _. split; [reflexivity|].
          destruct (verbose this); repeat split; reflexivity.
        + eexists _, _. split; [reflexivity|]. repeat split; reflexivity.
      - eexists _, _. split; [reflexivity|]. repeat split; reflexivity. }
    destruct Hstart as (s & w1 & Hs & (Hf1 & Hm1 & Hr1) & Hq1).
    rewrite (bind_ok _ _ _ _ _ Hs).
    destruct (Hfetch w1 s) as (w2 & Hrun & (Hf2 & Hm2 & Hr2) & Hreq).
    exists w2. split; [exact Hrun|].
    split; [split; [congruence|]; split; congruence|]. congruence. }
  set (w0 := if verbose this then addLine (VerboseFetching nt) w else w).
  assert (Hw0 : sameStore w w0 /\ requests w0 = requests w)
    by (subst w0; destruct (verbose this); repeat split; reflexivity).
  destruct Hw0 as [(Hf0 & Hm0 & Hr0) Hq0].
  assert (Htry : exists w2, tryTicker this tkr w = (Err message, w2)
                            /\ sameStore w w2
                            /\ length (requests w2) = S (length (requests w))).
  { unfold tryTicker. fold nt.
    rewrite (bind_ok _ _ _ _ _ (when_run _ _ w)). fold w0.
    rewrite (bind_ok _ _ _ _ _ (exists_run _ w0)).
    rewrite <- Hf0.
    destruct (Hgo w0 (existsSync (getParquetPath nt) (files w)))
      as (w2 & Hrun & (Hf2 & Hm2 & Hr2) & Hreq).
    assert (Hsame : sameStore w w2).
    { split; [congruence|]. split; congruence. }
    destruct (existsSync (getParquetPath nt) (files w) && negb (update this)
              && negb (force this)) eqn:Hskip.
    - rewrite (bind_ok _ _ _ _ _ (getMetadata_run _ w0)).
      rewrite <- Hm0.
      destruct (stock_metadata w !! nt) as [m|] eqn:Hmeta.
      + exfalso. apply andb_prop in Hskip as [Hskip Hforce].
        apply andb_prop in Hskip as [Hex Hupd].
        destruct Hcase as [Hc | [Hc | [Hc | Hc]]];
          [congruence | rewrite Hc in Hupd; discriminate
           | rewrite Hc in Hforce; discriminate | discriminate].
      + exists w2. split; [exact Hrun|]. split; [exact Hsame|]. congruence.
    - exists w2. split; [exact Hrun|]. split; [exact Hsame|]. congruence. }
  destruct Htry as (w2 & Hrun & (Hf2 & Hm2 & Hr2) & Hreq).
  exists (addLine (Failed tkr message) w2).
  split; [unfold executeTicker, tryCatch; rewrite Hrun; reflexivity|].
  split; [repeat split; assumption|].
  split; [|exact Hreq].
  cbn [console addLine]. apply elem_of_app. right. left.
Qed.

End CommandRuns.

Section Isolation.
Context `{JSNumber} `{!DataService}.
Import Stocker FetchCommand.

Lemma writeDaily_keeps_record other tkr data :
  other <> tkr -> keeps (recordOf other) (writeDaily tkr data).
Proof.
  intros Hne w. unfold recordOf.
  destruct (writeDaily_other tkr other data w Hne) as [-> ->]. reflexivity.
Qed.

Lemma mergeDaily_keeps_record other tkr data :
  other <> tkr -> keeps (recordOf other) (mergeDaily tkr data).
Proof.
  intros Hne w. unfold recordOf.
  destruct (mergeDaily_other tkr other data w Hne) as [-> ->]. reflexivity.
Qed.

Lemma callFetchDaily_keeps_record other symbol from to :
  keeps (recordOf other) (callFetchDaily symbol from to).
Proof.
  intros w. unfold callFetchDaily. destruct (fetchDaily _ _ _); reflexivity.
Qed.

Lemma updateAndExists_keeps_record other options symbol :
  keeps (recordOf other) (updateAndExists options symbol).
Proof. intros w. rewrite updateAndExists_run. reflexivity. Qed.

Lemma register_keeps_record other symbol :
  keeps (recordOf other)
    (modify (fun w => setRegistry ({[symbol]} ∪ registry w) w)).
Proof. intros w. reflexivity. Qed.

Lemma log_keeps_record other l : keeps (recordOf other) (log l).
Proof. intros w. reflexivity. Qed.

#[local] Hint Resolve callFetchDaily_keeps_record
  updateAndExists_keeps_record log_keeps_record : frame.

Lemma fetch_keeps_record other tkr options :
  other <> toUpperCase tkr -> keeps (recordOf other) (fetch tkr options).
Proof.
  intros Hne.
  pose proof (fun data => writeDaily_keeps_record other _ data Hne) as Hwrite.
  pose proof (fun data => mergeDaily_keeps_record other _ data Hne) as Hmerge.
  pose proof (register_keeps_record other (toUpperCase tkr)) as Hreg.
  unfold fetch. frame.
Qed.

Lemma pure_keeps_record {A} other (m : M A) :
  keeps id m -> keeps (recordOf other) m.
Proof. intros Hpure w. rewrite (Hpure w : snd _ = w). reflexivity. Qed.

Lemma reads_keep_record other tkr s e :
  keeps (recordOf other) (exists_ tkr)
  /\ keeps (recordOf other) (getDaily tkr s e)
  /\ keeps (recordOf other) (getMetadata tkr)
  /\ keeps (recordOf other) (getLastUpdate tkr).
Proof.
  split; [apply pure_keeps_record, exists_pure|].
  split; [apply pure_keeps_record, getDaily_pure|].
  split; [apply pure_keeps_record, getMetadata_pure|].
  apply pure_keeps_record, getLastUpdate_pure.
Qed.

Lemma updateSmart_keeps_record other tkr :
  other <> toUpperCase tkr -> keeps (recordOf other) (updateSmart tkr).
Proof.
  intros Hne.
  pose proof (fun o => fetch_keeps_record other tkr o Hne) as Hfetch.
  pose proof (fun t => proj1 (reads_keep_record other t None None)) as Hex.
  pose proof (fun t => proj1 (proj2 (reads_keep_record other t None None)))
    as Hget.
  unfold updateSmart. frame.
Qed.

Lemma executeTicker_keeps_record other (this : Flags) tkr :
  other <> toUpperCase tkr -> keeps (recordOf other) (executeTicker this tkr).
Proof.
  intros Hne.
  assert (Hne' : other <> toUpperCase (toUpperCase tkr))
    by (rewrite toUpperCase_idempotent; exact Hne).
  pose proof (fun o => fetch_keeps_record other (toUpperCase tkr) o Hne')
    as Hfetch.
  pose proof (fun t => proj1 (reads_keep_record other t None None)) as Hex.
  pose proof (fun t => proj1 (proj2 (proj2 (reads_keep_record other t None None))))
    as Hmeta.
  pose proof (fun t => proj2 (proj2 (proj2 (reads_keep_record other t None None))))
    as Hlast.
  unfold executeTicker, tryTicker, fetchTicker, when. frame.
Qed.

Lemma zoned_updateSmart_keeps_record offset other tkr :
  other <> toUpperCase tkr ->
  keeps (recordOf other) (ZonedStocker.updateSmart offset tkr).
Proof.
  intros Hne.
  pose proof (fun o => fetch_keeps_record other tkr o Hne) as Hfetch.
  pose proof (fun t => proj1 (reads_keep_record other t None None)) as Hex.
  pose proof (fun t => proj1 (proj2 (reads_keep_record other t None None)))
    as Hget.
  unfold ZonedStocker.updateSmart. frame.
Qed.

(** X17.  The planner and the command touch only the symbol they are given.
    For a symbol other than the ticker in upper case, the file and the row of
    [stock_metadata] are the same before and after one pass of the loop of
    the command for the ticker, and before and after [fetch] and
    [updateSmart] for it (in any time zone), whatever the price API answers
    and however the calls end. *)
Theorem touches_its_symbol_only (this : Flags) tkr other :
  plainSymbol other = true ->
  plainSymbol (toUpperCase tkr) = true ->
  other <> toUpperCase tkr ->
  keeps (recordOf other) (executeTicker this tkr)
  /\ (forall options, keeps (recordOf other) (fetch tkr options))
  /\ keeps (recordOf other) (updateSmart tkr)
  /\ forall offset,
       keeps (recordOf other) (ZonedStocker.updateSmart offset tkr).
Proof.
  intros _ _ Hne.
  split; [apply executeTicker_keeps_record, Hne|].
  split; [intros options; apply fetch_keeps_record, Hne|].
  split; [apply updateSmart_keeps_record, Hne|].
  intros offset. apply zoned_updateSmart_keeps_record, Hne.
Qed.

End Isolation.

(** ** Concrete runs of the planner and of the command *)

Section PlannerRuns.
#[local] Existing Instance IntNumber.
Import Stocker FetchCommand.

Lemma fetch_stores_witness :
  let w' := snd (fetch (H0 := replay incoming) "aapl"
                   (mkOptions None None true) exampleWorld) in
  files w' !! getParquetPath "AAPL"
  = Some (mergeQuery exampleRows incomingRows)
  /\ (exists row, stock_metadata w' !! "AAPL"%string = Some row
                  /\ last_update row = clock exampleWorld)
  /\ fetch (H0 := replay incoming) "aapl" (mkOptions None None true)
       exampleWorld = (Ok tt, w')
  /\ registry w' = registry exampleWorld.
Proof.
  cbv zeta.
  destruct (fetch_stores (H0 := replay incoming) "aapl"
              (mkOptions None None true) incoming incomingRows exampleWorld)
    as (Hfile & Hmeta & Hreg).
  - reflexivity.
  - discriminate.
  - vm_compute. reflexivity.
  - split; [exact Hfile|]. split; [exact Hmeta|].
    apply Hreg. apply elem_of_singleton. reflexivity.
Defined.

Lemma failed_ticker_is_reported_witness :
  exists w',
    executeTicker (H0 := failing "Ticker MSFT not found")
      (mkFlags None None false false false) "msft" exampleWorld = (Ok tt, w')
    /\ sameStore exampleWorld w'
    /\ Failed "msft" "Ticker MSFT not found" ∈ console w'
    /\ length (requests w') = S (length (requests exampleWorld)).
Proof.
  apply (failed_ticker_is_reported (H0 := failing "Ticker MSFT not found")
           (mkFlags None None false false false) "msft" exampleWorld).
  - left. vm_compute. reflexivity.
  - intros s e. reflexivity.
Defined.

Lemma touches_its_symbol_only_witness :
  let this := mkFlags None None true false false in
  keeps (recordOf "AAPL") (executeTicker (H0 := replay incoming) this "msft")
  /\ (forall options,
        keeps (recordOf "AAPL") (fetch (H0 := replay incoming) "msft" options))
  /\ keeps (recordOf "AAPL") (updateSmart (H0 := replay incoming) "msft")
  /\ forall offset,
       keeps (recordOf "AAPL")
         (ZonedStocker.updateSmart offset (H0 := replay incoming) "msft").
Proof.
  apply (touches_its_symbol_only (H0 := replay incoming)
           (mkFlags None None true false false) "msft" "AAPL").
  - reflexivity.
  - reflexivity.
  - discriminate.
Defined.

End PlannerRuns.

Section CommandStores.
Context `{JSNumber} `{!DataService}.
Import Stocker FetchCommand.

(** X18.  Without [--update] a fetch replaces the file.  Whenever the command
    without [--update] reaches its fetch for a ticker (a new symbol, a symbol
    without a row of [stock_metadata], or [--force]), it requests the dates of
    the command line as they are, and when the price API answers with bars,
    these bars alone make the file of the symbol: rows that the file held
    before and that the answer does not hold are gone. *)
Theorem fetch_without_update_replaces_file (this : Flags) tkr
    (data : list OHLCV) rows (w : World) :
  update this = false ->
  force this = true
  \/ files w !! getParquetPath (toUpperCase tkr) = None
  \/ stock_metadata w !! toUpperCase tkr = None ->
  fetchDaily (toUpperCase tkr) (start this) (end_ this) = Ok data ->
  data <> [] ->
  mapM castRow (toStorage (clock w) <$> withSplits (toUpperCase tkr) data)
  = Some rows ->
  exists w',
    executeTicker this tkr w = (Ok tt, w')
    /\ files w' !! getParquetPath (toUpperCase tkr) = Some rows
    /\ requests w'
       = requests w ++ [ mkRequest (toUpperCase tkr) (start this) (end_ this) ].
Proof.
  intros Hupd Hcase Hapi Hne Hcast.
  set (nt := toUpperCase tkr) in *.
  assert (Hnt : toUpperCase nt = nt) by apply toUpperCase_idempotent.
  set (w0 := if verbose this then addLine (VerboseFetching nt) w else w).
  assert (Hw0 : files w0 = files w /\ stock_metadata w0 = stock_metadata w
                /\ clock w0 = clock w /\ requests w0 = requests w)
    by (subst w0; destruct (verbose this); repeat split; reflexivity).
  destruct Hw0 as (Hf0 & Hm0 & Hc0 & Hq0).
  destruct (fetch_run nt (mkOptions (start this) (end_ this) false) data rows w0)
    as (w1 & row & Hfetch & Hfile1 & Hmeta1 & _).
  { rewrite Hnt. exact Hapi. }
  { exact Hne. }
  { rewrite Hnt, Hc0. exact Hcast. }
  rewrite Hnt in Hfile1, Hmeta1. cbn [o_update] in Hfile1.
  assert (Hfile1' : files w1 !! getParquetPath nt = Some rows)
    by (rewrite Hfile1; destruct (files w0 !! getParquetPath nt); reflexivity).
  pose proof (fetch_issues nt (mkOptions (start this) (end_ this) false) w0)
    as Hreq1.
  unfold issues in Hreq1. rewrite Hfetch, Hnt, Hq0 in Hreq1.
  cbn [snd o_start o_end] in Hreq1.
  assert (Hgo : forall present,
            fetchTicker this nt present w0
            = (Ok tt,
               addLine (SuccessfullyFetched nt (record_count row)
                          (first_trade_date row) (last_update row)) w1)).
  { intros present. unfold fetchTicker. rewrite Hupd. cbn [andb].
    rewrite (bind_ok _ _ _ _ _ (eq_refl : ret (start this) w0 = (Ok _, w0))).
    rewrite (bind_ok _ _ _ _ _ Hfetch).
    rewrite (bind_ok _ _ _ _ _ (getMetadata_run nt w1)).
    rewrite Hmeta1. reflexivity. }
  exists (addLine (SuccessfullyFetched nt (record_count row)
                     (first_trade_date row) (last_update row)) w1).
  split; [|split; [exact Hfile1' | exact Hreq1]].
  unfold executeTicker, tryCatch, tryTicker. fold nt.
  rewrite (bind_ok _ _ _ _ _ (when_run _ _ w)). fold w0.
  rewrite (bind_ok _ _ _ _ _ (exists_run _ w0)).
  rewrite Hupd. cbn [negb]. rewrite andb_true_r.
  destruct (existsSync (getParquetPath nt) (files w0) && negb (force this))
    eqn:Hskip; [|rewrite Hgo; reflexivity].
  rewrite (bind_ok _ _ _ _ _ (getMetadata_run _ w0)).
  apply andb_prop in Hskip as [Hex Hforce].
  destruct Hcase as [Hc | [Hc | Hc]].
  - rewrite Hc in Hforce. discriminate.
  - unfold existsSync in Hex. rewrite Hf0, Hc in Hex. discriminate.
  - rewrite Hm0, Hc. rewrite Hgo. reflexivity.
Qed.

End CommandStores.

Section CommandStoreRuns.
#[local] Existing Instance IntNumber.
Import Stocker FetchCommand.

Lemma fetch_without_update_replaces_file_witness :
  exists w',
    executeTicker (H0 := replay incoming)
      (mkFlags (Some "2024-01-10"%string) None false true false) "aapl"
      exampleWorld = (Ok tt, w')
    /\ files w' !! getParquetPath "AAPL" = Some incomingRows
    /\ requests w'
       = requests exampleWorld
         ++ [ mkRequest "AAPL" (Some "2024-01-10"%string) None ].
Proof.
  apply (fetch_without_update_replaces_file (H0 := replay incoming)
           (mkFlags (Some "2024-01-10"%string) None false true false) "aapl"
           incoming incomingRows exampleWorld).
  - reflexivity.
  - left. reflexivity.
  - reflexivity.
  - discriminate.
  - vm_compute. reflexivity.
Defined.

End CommandStoreRuns.

(* ================================================================== *)
(** * Properties of the configuration *)
(* ================================================================== *)

Section ConfigProperties.
Context `{JSNumber}.
Import Config.

Lemma orText_again (x : option string) (d : string) :
  orText (Some (orText x d)) d = orText x d.
Proof.
  destruct x as [[|c s]|]; simpl; try reflexivity; destruct d; reflexivity.
Qed.

Lemma orNumber_again (x : option number) (d : number) :
  orNumber (Some (orNumber x d)) d = orNumber x d.
Proof.
  destruct x as [v|]; simpl.
  - destruct (falsy v) eqn:E; [destruct (falsy d) | rewrite E]; reflexivity.
  - destruct (falsy d); reflexivity.
Qed.

Lemma orText_empty (x : option string) (d : string) :
  orText x d = ""%string <-> (x = None \/ x = Some ""%string) /\ d = ""%string.
Proof.
  destruct x as [[|c s]|]; simpl; split.
  - intros ->. auto.
  - intros [_ ->]. reflexivity.
  - discriminate.
  - intros [[Hx | Hx] _]; discriminate.
  - intros ->. auto.
  - intros [_ ->]. reflexivity.
Qed.

Lemma orText_nonempty (x : option string) (d : string) :
  d <> ""%string -> orText x d <> ""%string.
Proof. intros Hd Hx. apply orText_empty in Hx as [_ Hx]. contradiction. Qed.

Lemma orNumber_truthy (x : option number) (d : number) :
  falsy d = false -> falsy (orNumber x d) = false.
Proof.
  intros Hd. destruct x as [v|]; simpl; [|exact Hd].
  destruct (falsy v) eqn:E; [exact Hd | exact E].
Qed.

(** X19.  [loadConfig] settles.  The configuration it returns, handed back as
    overrides with the same environment and the same file, is returned again;
    its rate limit and its number of parallel fetches are never 0, its data
    directory and its start date never empty, so that an override of 0 or of
    the empty text is not taken; and its API key is empty only when neither
    the overrides nor the environment nor the file give one. *)
Theorem loadConfig_settles (twenty five : number) (DEFAULT_DATA_DIR : string)
    (env : option string) (file overrides : option PartialConfig) :
  falsy twenty = false -> falsy five = false ->
  DEFAULT_DATA_DIR <> ""%string ->
  let load := loadConfig twenty five DEFAULT_DATA_DIR env file in
  let c := load overrides in
  load (Some (asOverrides c)) = c
  /\ falsy (rateLimit c) = false /\ falsy (parallel c) = false
  /\ dataDir c <> ""%string /\ startDate c <> ""%string
  /\ (apiKey c = ""%string
      <-> orText (p_apiKey (default noConfig overrides)) "" = ""%string
          /\ orText env "" = ""%string
          /\ orText (p_apiKey (default noConfig file)) "" = ""%string).
Proof.
  intros Htwenty Hfive Hdir. cbv zeta.
  set (o := default noConfig overrides). set (f := default noConfig file).
  unfold loadConfig, asOverrides. cbv zeta. fold o f.
  cbn [default from_option id apiKey rateLimit dataDir startDate parallel
       p_apiKey p_rateLimit p_dataDir p_startDate p_parallel].
  split; [rewrite !orText_again, !orNumber_again; reflexivity|].
  split; [apply orNumber_truthy, orNumber_truthy, Htwenty|].
  split; [apply orNumber_truthy, orNumber_truthy, Hfive|].
  split; [apply orText_nonempty, orText_nonempty, Hdir|].
  split; [apply orText_nonempty, orText_nonempty; discriminate|].
  rewrite !orText_empty. tauto.
Qed.

End ConfigProperties.

Section ConfigRuns.
#[local] Existing Instance IntNumber.
Import Config.

Lemma loadConfig_settles_witness :
  let file := Some (@mkPartial IntNumber (Some "from-file"%string) (Some 0)
                      None None (Some 8)) in
  let overrides := Some (@mkPartial IntNumber (Some ""%string) None
                           (Some ""%string) None (Some 0)) in
  let load := @loadConfig IntNumber 20 5 "/srv/data"
                (Some "from-env"%string) file in
  let c := load overrides in
  c = @mkConfig IntNumber "from-env" 20 "/srv/data" "2020-01-01" 8
  /\ load (Some (asOverrides c)) = c.
Proof.
  cbv zeta. split; [reflexivity|].
  apply (@loadConfig_settles IntNumber 20 5 "/srv/data"
           (Some "from-env"%string)
           (Some (@mkPartial IntNumber (Some "from-file"%string) (Some 0)
                    None None (Some 8)))
           (Some (@mkPartial IntNumber (Some ""%string) None
                    (Some ""%string) None (Some 0)))).
  - reflexivity.
  - reflexivity.
  - discriminate.
Defined.

End ConfigRuns.

Section History.
Context `{JSNumber} `{!DataService}.
Import Stocker FetchCommand.

Lemma keepsHistory_same symbol (w w' : World) :
  files w' = files w -> keepsHistory symbol w w'.
Proof. intros Heq A HA. exists A. rewrite Heq. split; [exact HA | reflexivity]. Qed.

Lemma keepsHistory_trans symbol (w1 w2 w3 : World) :
  keepsHistory symbol w1 w2 -> keepsHistory symbol w2 w3 ->
  keepsHistory symbol w1 w3.
Proof.
  intros H12 H23 A HA.
  destruct (H12 A HA) as (A2 & HA2 & Hsub2).
  destruct (H23 A2 HA2) as (A3 & HA3 & Hsub3).
  exists A3. split; [exact HA3 | etransitivity; eassumption].
Qed.

Lemma advances_keeps {A} symbol (m : M A) :
  keeps files m -> advances (keepsHistory symbol) m.
Proof. intros Hk w. apply keepsHistory_same, Hk. Qed.

Lemma advances_bind {A B} symbol (m : M A) (k : A -> M B) :
  advances (keepsHistory symbol) m ->
  (forall a, advances (keepsHistory symbol) (k a)) ->
  advances (keepsHistory symbol) (bind m k).
Proof.
  intros Hm Hk w. unfold bind. specialize (Hm w).
  destruct (m w) as [[a | e] w1]; simpl in *; [|exact Hm].
  eapply keepsHistory_trans; [exact Hm | apply Hk].
Qed.

Lemma advances_tryCatch {A} symbol (body : M A) handler :
  advances (keepsHistory symbol) body ->
  (forall e, advances (keepsHistory symbol) (handler e)) ->
  advances (keepsHistory symbol) (tryCatch body handler).
Proof.
  intros Hb Hh w. unfold tryCatch. specialize (Hb w).
  destruct (body w) as [[a | e] w1]; simpl in *; [exact Hb|].
  eapply keepsHistory_trans; [exact Hb | apply Hh].
Qed.

Lemma mergeDaily_keeps_history tkr data :
  advances (keepsHistory tkr) (mergeDaily tkr data).
Proof.
  intros w A HA.
  destruct (mergeDaily_cases tkr data w)
    as [Heq | [[Hnone _] | (A0 & rows & row & HA0 & _ & Heq & _)]].
  - rewrite Heq. exists A. split; [exact HA | reflexivity].
  - congruence.
  - rewrite Heq. cbn [snd files setMetadata setFiles].
    rewrite lookup_insert_eq. eexists. split; [reflexivity|].
    assert (A0 = A) by congruence. subst A0.
    intros d Hd. apply mergeQuery_dates. left. exact Hd.
Qed.

Lemma log_keeps_files l : keeps files (log l).
Proof. intros w. reflexivity. Qed.

Lemma callFetchDaily_keeps_files symbol from to :
  keeps files (callFetchDaily symbol from to).
Proof.
  intros w. unfold callFetchDaily. destruct (fetchDaily _ _ _); reflexivity.
Qed.

Lemma register_advances symbol s :
  advances (keepsHistory symbol)
    (let! w := get in
     if bool_decide (s ∈ registry w) then ret tt
     else
       let! _ := log (AddingToRegistry s) in
       modify (fun w0 => setRegistry ({[s]} ∪ registry w0) w0)).
Proof.
  apply advances_keeps. intros w. unfold bind, get.
  cbn [fst snd]. destruct (bool_decide (s ∈ registry w)); reflexivity.
Qed.

(** A fetch with [update] loses no stored day of its symbol, whatever the
    price API answers. *)
Lemma fetch_keeps_history tkr options :
  o_update options = true ->
  advances (keepsHistory (toUpperCase tkr)) (fetch tkr options).
Proof.
  intros Hupd. unfold fetch. set (symbol := toUpperCase tkr).
  apply advances_bind;
    [apply advances_keeps; intros w; rewrite updateAndExists_run; reflexivity|].
  intros updating.
  apply advances_bind; [apply advances_keeps, log_keeps_files|]. intros _.
  apply advances_bind; [apply advances_keeps, callFetchDaily_keeps_files|].
  intros data. destruct data as [|b B];
    [apply advances_keeps, log_keeps_files|].
  set (data' := match fetchSplits symbol with
                | [] => b :: B
                | _ :: _ => markSplit (fetchSplits symbol) <$> b :: B
                end).
  intros w. rewrite (bind_ok _ _ _ _ _ (updateAndExists_run _ _ w)).
  rewrite Hupd. cbn [andb].
  destruct (existsSync (getParquetPath symbol) (files w)) eqn:Hex.
  - revert w Hex. 
    assert (Hadv : advances (keepsHistory symbol)
              (let! _ := (let! _ := mergeDaily symbol data' in
                          log (UpdatedWith symbol (length data'))) in
               let! w := get in
               if bool_decide (symbol ∈ registry w) then ret tt
               else
                 let! _ := log (AddingToRegistry symbol) in
                 modify (fun w0 => setRegistry ({[symbol]} ∪ registry w0) w0))).
    { apply advances_bind; [|intros _; apply register_advances].
      apply advances_bind; [apply mergeDaily_keeps_history|].
      intros _. apply advances_keeps, log_keeps_files. }
    intros w _. apply Hadv.
  - intros A HA. unfold existsSync in Hex. rewrite HA in Hex. discriminate.
Qed.

(** X20.  An update loses no stored day.  Whatever the price API answers, and
    however the call ends, after [updateSmart] for a symbol that has a file,
    and after the command with [--update] for it, the symbol still has a
    file, and the file has a row for every date it had a row for before. *)
Theorem update_keeps_history tkr (w : World) :
  keepsHistory (toUpperCase tkr) w (snd (updateSmart tkr w))
  /\ forall this : Flags,
       update this = true ->
       keepsHistory (toUpperCase tkr) w (snd (executeTicker this tkr w)).
Proof.
  set (symbol := toUpperCase tkr).
  pose proof (fun o Ho => fetch_keeps_history tkr o Ho) as Hfetch.
  fold symbol in Hfetch.
  split.
  - intros A HA. 
    assert (Hex : existsSync (getParquetPath symbol) (files w) = true)
      by (unfold existsSync; rewrite HA; reflexivity).
    unfold updateSmart. fold symbol.
    rewrite (bind_ok _ _ _ _ _ (exists_run symbol w)).
    rewrite Hex. cbn [negb].
    rewrite (bind_ok _ _ _ _ _ (getDaily_run symbol w)).
    destruct (0 <? length (findGaps (date <$> persistedSeries symbol w)))%nat.
    + refine (advances_bind symbol _ _ _ _ w A HA);
        [apply advances_keeps, log_keeps_files|].
      intros _. apply Hfetch. reflexivity.
    + destruct (last (persistedSeries symbol w)) as [lastBar|].
      * destruct (newDateOf (date lastBar)) as [lastDate|].
        -- apply (Hfetch (mkOptions (Some _) None true) eq_refl w A HA).
        -- exists A. split; [exact HA | reflexivity].
      * exists A. split; [exact HA | reflexivity].
  - intros this Hupd.
    assert (Hnt : toUpperCase symbol = symbol) by apply toUpperCase_idempotent.
    pose proof (fun o Ho => fetch_keeps_history symbol o Ho) as Hfetch'.
    rewrite Hnt in Hfetch'.
    revert w. change (advances (keepsHistory symbol) (executeTicker this tkr)).
    unfold executeTicker.
    apply advances_tryCatch;
      [|intros e; apply advances_keeps, log_keeps_files].
    unfold tryTicker. fold symbol.
    apply advances_bind;
      [apply advances_keeps; intros w; rewrite when_run;
       destruct (verbose this); reflexivity|].
    intros _.
    apply advances_bind;
      [apply advances_keeps; intros w; reflexivity|].
    intros present. rewrite Hupd. cbn [negb andb]. rewrite andb_false_r.
    cbn [andb]. unfold fetchTicker. rewrite Hupd.
    apply advances_bind.
    { apply advances_keeps. intros w.
      destruct (true && present); [|reflexivity].
      rewrite (bind_ok _ _ _ _ _ (getLastUpdate_run symbol w)).
      destruct (stock_metadata w !! symbol) as [m|]; [|reflexivity].
      cbn [fmap option_fmap option_map].
      rewrite (bind_ok _ _ _ _ _ (when_run _ _ w)).
      destruct (verbose this); reflexivity. }
    intros s.
    apply advances_bind; [apply Hfetch'; reflexivity|].
    intros _.
    apply advances_bind; [apply advances_keeps; intros w; reflexivity|].
    intros [m|]; apply advances_keeps; [apply log_keeps_files|].
    intros w. reflexivity.
Qed.

End History.

Section HistoryRuns.
#[local] Existing Instance IntNumber.
Import Stocker FetchCommand.

Lemma update_keeps_history_witness :
  exists A',
    files (snd (updateSmart (H0 := replay incoming) "aapl" exampleWorld))
      !! getParquetPath "AAPL" = Some A'
    /\ r_date <$> exampleRows ⊆ r_date <$> A'.
Proof.
  apply (proj1 (update_keeps_history (H0 := replay incoming) "aapl"
                  exampleWorld) exampleRows).
  apply lookup_singleton_eq.
Defined.

End HistoryRuns.

(* ================================================================== *)
(** * The gap detector and the planner in a time zone *)
(* ================================================================== *)

Section ZonedGaps.
Import GapSpec.

(** From UTC eastwards, up to a day ahead, the local day of a date is the
    date, and the detector is the one read in UTC. *)
Lemma zoned_getDay offset t :
  0 <= offset < JSDate.msPerDay ->
  ZonedStocker.getDay offset t = JSDate.getDay t.
Proof.
  intros Hoff. unfold ZonedStocker.getDay, JSDate.getTime. f_equal.
  rewrite Z.div_add_l by discriminate.
  rewrite (Z.div_small offset) by exact Hoff. lia.
Qed.

Lemma zoned_isTradingDay offset t :
  0 <= offset < JSDate.msPerDay ->
  ZonedStocker.isTradingDay offset t = Stocker.isTradingDay t.
Proof.
  intros Hoff. unfold ZonedStocker.isTradingDay, Stocker.isTradingDay.
  rewrite zoned_getDay by exact Hoff. reflexivity.
Qed.

Lemma zoned_skipToTradingDay offset fuel :
  0 <= offset < JSDate.msPerDay ->
  forall next,
    ZonedStocker.skipToTradingDay offset fuel next
    = Stocker.skipToTradingDay fuel next.
Proof.
  intros Hoff. induction fuel as [|fuel IH]; intros next; simpl; [reflexivity|].
  rewrite zoned_isTradingDay, IH by exact Hoff. reflexivity.
Qed.

Lemma zoned_countLoop offset fuel :
  0 <= offset < JSDate.msPerDay ->
  forall current end' count,
    ZonedStocker.countLoop offset fuel current end' count
    = Stocker.countLoop fuel current end' count.
Proof.
  intros Hoff. induction fuel as [|fuel IH]; intros current end' count; simpl;
    [reflexivity|].
  rewrite zoned_isTradingDay, IH by exact Hoff. reflexivity.
Qed.

Lemma zoned_backToTradingDay offset fuel :
  0 <= offset < JSDate.msPerDay ->
  forall gapEnd gapStart,
    ZonedStocker.backToTradingDay offset fuel gapEnd gapStart
    = Stocker.backToTradingDay fuel gapEnd gapStart.
Proof.
  intros Hoff. induction fuel as [|fuel IH]; intros gapEnd gapStart; simpl;
    [reflexivity|].
  rewrite zoned_isTradingDay, IH by exact Hoff. reflexivity.
Qed.

Lemma zoned_gapBetween offset prev curr :
  0 <= offset < JSDate.msPerDay ->
  ZonedStocker.gapBetween offset prev curr = Stocker.gapBetween prev curr.
Proof.
  intros Hoff. unfold ZonedStocker.gapBetween, Stocker.gapBetween.
  destruct (newDateOf prev) as [p|]; [|reflexivity].
  destruct (newDateOf curr) as [c|]; [|reflexivity].
  unfold ZonedStocker.countTradingDaysBetween, Stocker.countTradingDaysBetween,
    ZonedStocker.getNextTradingDay, Stocker.getNextTradingDay.
  rewrite zoned_countLoop, zoned_skipToTradingDay, zoned_backToTradingDay
    by exact Hoff.
  reflexivity.
Qed.

Lemma zoned_gapsFrom offset rest :
  0 <= offset < JSDate.msPerDay ->
  forall prev,
    ZonedStocker.gapsFrom offset prev rest = Stocker.gapsFrom prev rest.
Proof.
  intros Hoff. induction rest as [|curr rest IH]; intros prev; simpl;
    [reflexivity|].
  rewrite zoned_gapBetween, IH by exact Hoff. reflexivity.
Qed.

Lemma zoned_findGaps offset (D : list DateValue) :
  0 <= offset < JSDate.msPerDay ->
  ZonedStocker.findGaps offset D = Stocker.findGaps D.
Proof.
  intros Hoff. destruct D as [|d0 D]; [reflexivity|].
  apply zoned_gapsFrom, Hoff.
Qed.

(** Five hours behind UTC the detector reads Friday 2024-01-05 as a
    Thursday and Saturday 2024-01-06 as a Friday: between Friday and Monday
    it reports a gap of one day, on the Saturday. *)
Example findGaps_five_hours_behind :
  ZonedStocker.findGaps (- (5 * 3600000))
    [DateText "2024-01-05"; DateText "2024-01-08"; DateText "2024-01-09"]
  = [ mkGap "2024-01-06" "2024-01-06" 1 ].
Proof. vm_compute. reflexivity. Qed.

(** X8.  In a process whose time zone is UTC or ahead of it by less than a
    day, all year, the detector with the trading-day helpers does what the
    specification promises of [findGaps]: for an ascending sequence of dates
    without repetition, no reported gap has [days] 0, the reported [days]
    and the weekdays present add up to the weekdays of the span from the
    first to the last date, and fewer than two entries give no gap. *)
Theorem findGaps_weekday_accounting_in_zone offset
    (D : list DateValue) (ds : list Z) :
  0 <= offset < JSDate.msPerDay ->
  map newDateOf D = map Some ds ->
  StronglySorted Z.lt ds ->
  Forall (fun g => 0 < days g) (ZonedStocker.findGaps offset D)
  /\ (forall first l, head ds = Some first -> last ds = Some l ->
        sumDays (ZonedStocker.findGaps offset D) + presentWeekdays ds
        = weekdaysInSpan first l)
  /\ ((length D < 2)%nat -> ZonedStocker.findGaps offset D = []).
Proof.
  intros Hoff HD Hsorted. rewrite (zoned_findGaps offset D Hoff).
  split; [apply findGaps_days_positive|].
  split; [|apply findGaps_short].
  intros first l Hfirst Hlast.
  destruct D as [|d0 D]; destruct ds as [|p ds]; try discriminate.
  simpl in HD. injection HD as Hd0 HD.
  simpl in Hfirst. injection Hfirst as <-.
  simpl Stocker.findGaps.
  rewrite (gapsFrom_sum D d0 p ds Hd0 HD).
  rewrite (span_accounting ds p l Hsorted Hlast). lia.
Qed.

(** X10.  In a process whose time zone is UTC or ahead of it by less than a
    day, all year, a reported gap lies between its two rows.  It starts on
    the first weekday after the earlier row and ends on the last weekday
    before the later one, both strictly between the two rows; every weekday
    between the rows lies in it; and its [days] is the number of weekdays
    from its start to its end. *)
Theorem gapBetween_endpoints_in_zone offset prev curr p c g :
  0 <= offset < JSDate.msPerDay ->
  newDateOf prev = Some p -> newDateOf curr = Some c ->
  g ∈ ZonedStocker.gapBetween offset prev curr ->
  exists s e,
    start g = JSDate.toISODate s /\ end_ g = JSDate.toISODate e
    /\ p < s /\ s <= e /\ e < c
    /\ isWeekday s = true /\ isWeekday e = true
    /\ (forall t, p < t < c -> isWeekday t = true -> s <= t <= e)
    /\ days g = weekdaysInSpan s e.
Proof.
  intros Hoff Hp Hc Hg. rewrite zoned_gapBetween in Hg by exact Hoff.
  exact (gapBetween_endpoints prev curr p c g Hp Hc Hg).
Qed.

(** X11.  In a process whose time zone is UTC or ahead of it by less than a
    day, all year, [findGaps] reports no gap exactly when no weekday is
    missing: when no weekday lies strictly between two consecutive dates of
    the sequence. *)
Theorem findGaps_none_iff_in_zone offset (D : list DateValue) p ds :
  0 <= offset < JSDate.msPerDay ->
  map newDateOf D = map Some (p :: ds) ->
  ZonedStocker.findGaps offset D = [] <-> missingBetween p ds = 0.
Proof.
  intros Hoff HD. rewrite zoned_findGaps by exact Hoff.
  exact (findGaps_none_iff D p ds HD).
Qed.

(** The three statements nine hours ahead of UTC. *)
Lemma findGaps_weekday_accounting_in_zone_witness :
  sumDays (ZonedStocker.findGaps (9 * 3600000)
             [DateText "2024-01-05"; DateText "2024-01-10";
              DateText "2024-01-22"])
  + presentWeekdays [19727; 19732; 19744]
  = weekdaysInSpan 19727 19744.
Proof.
  refine (proj1 (proj2 (findGaps_weekday_accounting_in_zone (9 * 3600000)
            [DateText "2024-01-05"; DateText "2024-01-10";
             DateText "2024-01-22"]
            [19727; 19732; 19744] _ _ _)) 19727 19744 _ _);
    [ vm_compute; split; [discriminate | reflexivity]
    | reflexivity | repeat constructor; lia | reflexivity | reflexivity ].
Defined.

Lemma gapBetween_endpoints_in_zone_witness :
  exists s e,
    "2024-01-08"%string = JSDate.toISODate s
    /\ "2024-01-09"%string = JSDate.toISODate e
    /\ 19727 < s /\ s <= e /\ e < 19732
    /\ isWeekday s = true /\ isWeekday e = true
    /\ (forall t, 19727 < t < 19732 -> isWeekday t = true -> s <= t <= e)
    /\ 2 = weekdaysInSpan s e.
Proof.
  apply (gapBetween_endpoints_in_zone (9 * 3600000)
           (DateText "2024-01-05") (DateText "2024-01-10")
           19727 19732 (mkGap "2024-01-08" "2024-01-09" 2)).
  - vm_compute. split; [discriminate | reflexivity].
  - reflexivity.
  - reflexivity.
  - apply list_elem_of_singleton. vm_compute. reflexivity.
Defined.

Lemma findGaps_none_iff_in_zone_witness :
  ZonedStocker.findGaps (9 * 3600000)
    [DateText "2024-01-05"; DateText "2024-01-08"; DateText "2024-01-09"]
  = []
  <-> missingBetween 19727 [19730; 19731] = 0.
Proof.
  apply (findGaps_none_iff_in_zone (9 * 3600000)
           [DateText "2024-01-05"; DateText "2024-01-08"; DateText "2024-01-09"]
           19727 [19730; 19731]).
  - vm_compute. split; [discriminate | reflexivity].
  - reflexivity.
Defined.

End ZonedGaps.

Section ZonedPlan.
Context `{JSNumber} `{!DataService}.
Import GapSpec.

(** From UTC eastwards the planner is the one read in UTC. *)
Lemma zoned_updateSmart offset tkr (w : World) :
  0 <= offset < JSDate.msPerDay ->
  ZonedStocker.updateSmart offset tkr w = Stocker.updateSmart tkr w.
Proof.
  intros Hoff. unfold ZonedStocker.updateSmart, Stocker.updateSmart.
  unfold bind. destruct (exists_ _ w) as [[[] | e] w1]; try reflexivity.
  cbn [negb]. destruct (getDaily _ None None w1) as [[data | e] w2];
    [|reflexivity].
  rewrite (zoned_findGaps offset _ Hoff). reflexivity.
Qed.

(** X14.  The plan of [updateSmart], read off the file of the symbol, in a
    process at any fixed offset from UTC.  Without a file it requests the
    whole history.  With an empty file it requests nothing and changes
    nothing.  With rows in the file it requests the whole history when the
    detector reports a gap on the dates of the file, and otherwise the days
    from the day after the last date of the file.  It never sets an end
    date.  In UTC and ahead of it by less than a day, the detector reports a
    gap exactly when a weekday is missing between two consecutive dates of
    the file. *)
Theorem updateSmart_plan offset tkr (w : World) :
  let symbol := Stocker.toUpperCase tkr in
  (files w !! getParquetPath symbol = None ->
   issues (ZonedStocker.updateSmart offset tkr) w
     [ mkRequest symbol None None ])
  /\ (files w !! getParquetPath symbol = Some [] ->
      ZonedStocker.updateSmart offset tkr w = (Ok tt, w))
  /\ (forall rows p ds l,
        files w !! getParquetPath symbol = Some rows ->
        r_date <$> orderByDate rows = p :: ds ->
        last (p :: ds) = Some l ->
        (ZonedStocker.findGaps offset (DateObj <$> p :: ds) <> [] ->
         issues (ZonedStocker.updateSmart offset tkr) w
           [ mkRequest symbol None None ])
        /\ (ZonedStocker.findGaps offset (DateObj <$> p :: ds) = [] ->
            issues (ZonedStocker.updateSmart offset tkr) w
              [ mkRequest symbol (Some (JSDate.toISODate (l + 1))) None ])
        /\ (0 <= offset < JSDate.msPerDay ->
            (ZonedStocker.findGaps offset (DateObj <$> p :: ds) = []
             <-> missingBetween p ds = 0))).
Proof.
  cbv zeta. set (symbol := Stocker.toUpperCase tkr).
  split; [|split].
  - intros Hfile. unfold ZonedStocker.updateSmart. fold symbol.
    eapply issues_after; [apply exists_run | reflexivity |].
    unfold existsSync. rewrite Hfile. cbn [negb].
    eapply issues_after; [reflexivity | reflexivity |].
    apply (fetch_issues tkr Stocker.noOptions).
  - intros Hfile. unfold ZonedStocker.updateSmart. fold symbol.
    rewrite (bind_ok _ _ _ _ _ (exists_run symbol w)).
    unfold existsSync. rewrite Hfile. cbn [negb].
    rewrite (bind_ok _ _ _ _ _ (getDaily_run symbol w)).
    rewrite (persistedSeries_existing symbol [] w Hfile). reflexivity.
  - intros rows p ds l Hfile Hdates Hlast.
    assert (Hex : existsSync (getParquetPath symbol) (files w) = true)
      by (unfold existsSync; rewrite Hfile; reflexivity).
    pose proof (persistedSeries_dates symbol rows w Hfile) as Hseries.
    rewrite Hdates in Hseries.
    split; [|split].
    + intros Hgaps. unfold ZonedStocker.updateSmart. fold symbol.
      eapply issues_after; [apply exists_run | reflexivity |].
      rewrite Hex. cbn [negb].
      eapply issues_after; [apply getDaily_run | reflexivity |].
      rewrite Hseries.
      destruct (ZonedStocker.findGaps offset (DateObj <$> p :: ds))
        as [|g gaps]; [congruence|].
      cbn [length Nat.ltb Nat.leb].
      eapply issues_after; [reflexivity | reflexivity |].
      apply (fetch_issues tkr (Stocker.mkOptions None None true)).
    + intros Hgaps.
      rewrite <- Hdates in Hlast. rewrite fmap_last in Hlast.
      destruct (last (orderByDate rows)) as [lastRow|] eqn:Hrow; [|discriminate].
      injection Hlast as Hl.
      unfold ZonedStocker.updateSmart. fold symbol.
      eapply issues_after; [apply exists_run | reflexivity |].
      rewrite Hex. cbn [negb].
      eapply issues_after; [apply getDaily_run | reflexivity |].
      rewrite Hseries, Hgaps. cbn [length Nat.ltb Nat.leb].
      rewrite (persistedSeries_existing symbol rows w Hfile).
      rewrite fmap_last, Hrow. cbn [fmap option_fmap option_map].
      cbn [fromStorage date newDateOf]. rewrite Hl.
      apply (fetch_issues tkr (Stocker.mkOptions (Some _) None true)).
    + intros Hoff. rewrite zoned_findGaps by exact Hoff.
      cbn [fmap list_fmap Stocker.findGaps].
      apply gapsFrom_none_iff; [reflexivity | apply newDateOf_DateObj].
Qed.

End ZonedPlan.

Section ZonedPlanRuns.
#[local] Existing Instance IntNumber.

(** The file of AAPL holds Friday 2024-01-05 and Monday 2024-01-08: in UTC
    [updateSmart] asks for the days from Tuesday on, five hours behind UTC
    for the whole history. *)
Lemma updateSmart_plan_witness :
  let w := mkWorld
             {[ getParquetPath "AAPL" :=
                  [ storedBar 19727 10 "2024-03-01T12:00:00.000Z";
                    storedBar 19730 11 "2024-03-01T12:00:00.000Z" ] ]}
             ∅ ∅ 1709542800000 [] [] in
  issues (ZonedStocker.updateSmart 0 (H0 := replay []) "aapl") w
    [ mkRequest "AAPL" (Some "2024-01-09"%string) None ]
  /\ issues (ZonedStocker.updateSmart (- (5 * 3600000)) (H0 := replay []) "aapl")
       w [ mkRequest "AAPL" None None ]
  /\ issues (ZonedStocker.updateSmart 0 (H0 := replay []) "msft") w
       [ mkRequest "MSFT" None None ].
Proof.
  cbv zeta.
  set (w := mkWorld _ _ _ _ _ _).
  split; [|split].
  - apply (proj1 (proj2 (proj2 (proj2 (updateSmart_plan (H0 := replay []) 0
                                          "aapl" w))
                           _ 19727 [19730] 19730 (lookup_singleton_eq _ _)
                           ltac:(vm_compute; reflexivity) eq_refl))).
    vm_compute. reflexivity.
  - apply (proj1 (proj2 (proj2 (updateSmart_plan (H0 := replay [])
                                  (- (5 * 3600000)) "aapl" w))
                   _ 19727 [19730] 19730 (lookup_singleton_eq _ _)
                   ltac:(vm_compute; reflexivity) eq_refl)).
    vm_compute. discriminate.
  - apply (proj1 (updateSmart_plan (H0 := replay []) 0 "msft" w)).
    vm_compute. reflexivity.
Defined.

End ZonedPlanRuns.
